(** * yuptoo report processor: a shallow embedding of
      [yuptoo/processor/report_processor.py]

    The Python module is translated function by function.  Values born from
    [json.loads] are an inductive type, dictionaries are insertion-ordered
    association lists, exceptions are first-class values with their class and
    arguments, and the effects of the module (messages handed to the Kafka
    producer, log records, identifiers drawn from [uuid.uuid4]) are threaded
    through a small state-and-exception monad.

    External collaborators (the HTTP client, [tarfile], [json], [uuid], the
    Kafka producer, the metadata validator, the modifiers and the
    configuration constants) are the fields of one record, [env], that every
    function takes: every theorem holds for whatever they do. *)

From Stdlib Require Import List String Ascii ZArith Bool Lia.
From Stdlib.Strings Require Import Byte.
From Stdlib Require Import SpecFloat.
Import ListNotations.
Local Open Scope string_scope.
Local Open Scope Z_scope.
Local Open Scope list_scope.

Set Implicit Arguments.
Set Warnings "-register-all".

(* ================================================================== *)
(** ** Python values *)

(** The values [json.loads] can build, plus the strings the module adds.
    A [PDict] keeps its items in insertion order, each key once.  A [str] is
    held as the bytes of its UTF-8 encoding, so that equality, emptiness and
    the substring test are those of the bytes, while its length and its
    characters are counted in code points (see [py_len] and [chars]); a lone
    surrogate, which [json.loads] can build from an escape, is held as the
    three bytes the same scheme gives it. *)
Inductive pyval : Type :=
| PNone
| PBool (b : bool)
| PInt (z : Z)
| PFloat (f : spec_float)
| PStr (s : string)
| PList (l : list pyval)
| PDict (d : list (string * pyval)).

Definition dict : Type := list (string * pyval).

(** Python's truth value testing, as used by [if host.get(fact)] and
    [if not report_url]. *)
Definition truthy (v : pyval) : bool :=
  match v with
  | PNone => false
  | PBool b => b
  | PInt z => negb (z =? 0)
  | PFloat (S754_zero _) => false
  | PFloat _ => true
  | PStr s => negb (s =? "")%string
  | PList l => match l with [] => false | _ :: _ => true end
  | PDict d => match d with [] => false | _ :: _ => true end
  end.

(** [d[k]] and [k in d]: the item stored under [k], if any. *)
Fixpoint dict_lookup (d : dict) (k : string) : option pyval :=
  match d with
  | [] => None
  | (k', v) :: rest => if (k' =? k)%string then Some v else dict_lookup rest k
  end.

(** [d.get(k, default)]. *)
Definition dict_get (d : dict) (k : string) (default : pyval) : pyval :=
  match dict_lookup d k with
  | Some v => v
  | None => default
  end.

(** [d[k] = v]: replaces the item in place, or appends a new one. *)
Fixpoint dict_set (d : dict) (k : string) (v : pyval) : dict :=
  match d with
  | [] => [(k, v)]
  | (k', v') :: rest =>
      if (k' =? k)%string then (k, v) :: rest else (k', v') :: dict_set rest k v
  end.

(** A byte [10xxxxxx], which continues the encoding of a code point. *)
Definition is_continuation (c : ascii) : bool :=
  match c with
  | Ascii _ _ _ _ _ _ b6 b7 => b7 && negb b6
  end.

(** The number of code points of a [str]: the bytes of its encoding that
    start one. *)
Fixpoint code_points (s : string) : nat :=
  match s with
  | EmptyString => O
  | String c rest =>
      if is_continuation c then code_points rest else S (code_points rest)
  end.

(** [len(v)]; [None] stands for the [TypeError] of a value without length. *)
Definition py_len (v : pyval) : option nat :=
  match v with
  | PStr s => Some (code_points s)
  | PList l => Some (List.length l)
  | PDict d => Some (List.length d)
  | _ => None
  end.

(** The continuation bytes [s] starts with, and the characters after them. *)
Fixpoint chars_after (s : string) : string * list pyval :=
  match s with
  | EmptyString => (EmptyString, [])
  | String c rest =>
      let (continuation, cs) := chars_after rest in
      if is_continuation c then (String c continuation, cs)
      else (EmptyString, PStr (String c continuation) :: cs)
  end.

(** The characters of a [str], each a [str] of one code point. *)
Definition chars (s : string) : list pyval := snd (chars_after s).

(** [for x in v]: the items the loop visits; [None] stands for the
    [TypeError] of a value that is not iterable. *)
Definition py_iter (v : pyval) : option (list pyval) :=
  match v with
  | PStr s => Some (chars s)
  | PList l => Some l
  | PDict d => Some (map (fun kv => PStr (fst kv)) d)
  | _ => None
  end.

(** [sub in s] on strings. *)
Fixpoint str_contains (sub s : string) : bool :=
  String.prefix sub s ||
  match s with
  | EmptyString => false
  | String _ rest => str_contains sub rest
  end.

(** [v != s] for a string [s]. *)
Definition differs_from_str (v : pyval) (s : string) : bool :=
  match v with
  | PStr s' => negb (s' =? s)%string
  | _ => true
  end.

(* ================================================================== *)
(** ** HostFilter: [has_canonical_facts] *)

Definition CANONICAL_FACTS : list string :=
  ["insights_client_id"; "bios_uuid"; "ip_addresses"; "mac_addresses";
   "vm_uuid"; "etc_machine_id"; "subscription_manager_id"].

(** The [for fact in CANONICAL_FACTS] loop with its early [return True]. *)
Fixpoint any_fact (facts : list string) (host : dict) : bool :=
  match facts with
  | [] => false
  | fact :: rest =>
      if truthy (dict_get host fact PNone) then true else any_fact rest host
  end.

Definition has_canonical_facts (host : dict) : bool :=
  any_fact CANONICAL_FACTS host.

(* ================================================================== *)
(** ** Exceptions *)

(** The exception classes the module raises, catches or can meet.
    [OtherError] stands for any further subclass of [Exception] a
    collaborator may raise. *)
Inductive exc_class : Type :=
| FailDownloadException
| FailExtractException
| QPCReportException
| KafkaMsgHandlerError
| KafkaException
| ReadError
| ValueError
| JSONDecodeError
| UnicodeDecodeError
| KeyError
| TypeError
| AttributeError
| UnboundLocalError
| ZeroDivisionError
| OtherError (name : string).

(** An exception object: its class and the arguments it was built with.  An
    argument is a value, another exception object ([err]) or the text of one
    ([str(err)]). *)
Inductive exc : Type :=
| Exc (cls : exc_class) (args : list exc_arg)
with exc_arg : Type :=
| ArgVal (v : pyval)
| ArgExc (e : exc)
| ArgStrOf (e : exc).

Definition class_of (e : exc) : exc_class :=
  match e with Exc cls _ => cls end.

(** The classes the [except] clauses of the module name. *)
Inductive handler : Type :=
| ExceptException
| ExceptFailDownloadException
| ExceptFailExtractException
| ExceptReadError
| ExceptValueError
| ExceptUnicodeDecodeError
| ExceptKafkaException.

(** Modelled from the spec: [yuptoo.lib.exceptions] is not part of the
    sources at hand; its four classes are taken as the spec lists them, a
    closed set of distinct error kinds, each deriving from [Exception] only.
    [handles h c] tells whether a clause [except h] catches an exception of
    class [c]; [JSONDecodeError] and [UnicodeDecodeError] derive from
    [ValueError] as in the standard library, and every class here derives
    from [Exception]. *)
Definition handles (h : handler) (c : exc_class) : bool :=
  match h, c with
  | ExceptException, _ => true
  | ExceptFailDownloadException, FailDownloadException => true
  | ExceptFailExtractException, FailExtractException => true
  | ExceptReadError, ReadError => true
  | ExceptValueError, (ValueError | JSONDecodeError | UnicodeDecodeError) => true
  | ExceptUnicodeDecodeError, UnicodeDecodeError => true
  | ExceptKafkaException, KafkaException => true
  | _, _ => false
  end.

Definition catches (h : handler) (e : exc) : bool := handles h (class_of e).
Arguments catches : simpl never.

(* ================================================================== *)
(** ** Data of the module *)

(** [request_obj]: the dictionary [process_report] builds with the keys
    [account], [b64_identity] and [request_id].  The key
    [report_platform_id] is read by the module but never written by it, so it
    is present only if a collaborator stored it. *)
Record request : Type := {
  account : pyval;
  b64_identity : pyval;
  request_id : pyval;
  report_platform_id : option pyval }.

(** What [tar.extractfile(file).read()] does for one archive member. *)
Inductive payload : Type :=
| ExtractFails (e : exc)     (* [tar.extractfile] raises *)
| NoFileObject               (* [tar.extractfile] returns [None] *)
| ReadFails (e : exc)        (* [.read()] raises *)
| Content (b : list byte).   (* the bytes of the member *)

(** A member of the archive, as [tar.getmembers()] lists it. *)
Record TarInfo : Type := {
  name : string;
  extractfile : payload }.

(** [transformed_obj], the accumulator of the modifiers: a dictionary of
    lists of strings, which [print_transformed_info] joins with commas. *)
Definition transformed : Type := list (string * list string).

(** The records written through [LOG], one constructor per call site.  The
    records of [delivery_report], which the Kafka client calls back on its own
    schedule, are left out. *)
Inductive log_event : Type :=
| InfoSendingHosts (count total_hosts : Z)
| WarningHostsWithoutFacts (hosts : list (string * dict))
| InfoValidHosts (total_valid total_fingerprints : Z)
| ErrorNoValidHosts
| InfoTransformed (host_id : pyval)
| ErrorUpload (err : exc)
| ExceptionProduce (request_id : pyval)
| InfoDownloading (url : pyval)
| InfoDownloaded (url : pyval)
| InfoDecoding (file : string)
| ExceptionDecode (file : string)
| InfoDecoded (file : string)
| WarningMismatch (mismatch_id mismatch_count : bool)
| ErrorUnexpected (err : exc).

(** The observable state: the messages handed to [producer.produce], the log,
    and how many identifiers were drawn from [uuid.uuid4]. *)
Record world : Type := {
  sent : list pyval;
  logs : list log_event;
  uuids_drawn : nat }.

(* ================================================================== *)
(** ** The monad of the module: state and exceptions *)

Inductive result (A : Type) : Type :=
| Ok (a : A)
| Raise (e : exc).
Arguments Raise {A} e.

Definition M (A : Type) : Type := world -> result A * world.

Definition ret {A : Type} (a : A) : M A := fun w => (Ok a, w).

Definition raise {A : Type} (e : exc) : M A := fun w => (Raise e, w).

Definition bind {A B : Type} (c : M A) (k : A -> M B) : M B :=
  fun w =>
    match c w with
    | (Ok a, w') => k a w'
    | (Raise e, w') => (Raise e, w')
    end.

Notation "x <- c ;; k" := (bind c (fun x => k))
  (at level 61, c at next level, right associativity).
Notation "' pat <- c ;; k" := (bind c (fun x => match x with pat => k end))
  (at level 61, pat pattern, c at next level, right associativity).
Notation "c ;;; k" := (bind c (fun _ => k))
  (at level 61, right associativity).

(** A [Result] computed without effects, run inside the monad. *)
Definition lift {A : Type} (r : result A) : M A := fun w => (r, w).

(** The first clause of an [except] chain that catches [e]. *)
Fixpoint select_clause {A : Type} (clauses : list (handler * (exc -> M A))) (e : exc)
  : option (M A) :=
  match clauses with
  | [] => None
  | (h, on_error) :: rest =>
      if catches h e then Some (on_error e) else select_clause rest e
  end.

(** [try: body  except h1: ...  except h2: ...]: an exception raised inside a
    clause is not offered to the clauses after it. *)
Definition try_except {A : Type} (body : M A) (clauses : list (handler * (exc -> M A))) : M A :=
  fun w =>
    match body w with
    | (Ok a, w') => (Ok a, w')
    | (Raise e, w') =>
        match select_clause clauses e with
        | Some on_error => on_error w'
        | None => (Raise e, w')
        end
    end.

(** [try: body  finally: cleanup]: an exception of the cleanup replaces
    whatever the body produced. *)
Definition try_finally {A : Type} (body : M A) (cleanup : M unit) : M A :=
  fun w =>
    match body w with
    | (r, w') =>
        match cleanup w' with
        | (Ok _, w'') => (r, w'')
        | (Raise e, w'') => (Raise e, w'')
        end
    end.

Definition LOG (ev : log_event) : M unit :=
  fun w => (Ok tt, {| sent := sent w; logs := logs w ++ [ev]; uuids_drawn := uuids_drawn w |}).

(** A [for] loop whose body threads the loop-carried state; a [continue] is a
    body that returns the state, an exception leaves the loop. *)
Fixpoint for_each {A S : Type} (body : A -> S -> M S) (items : list A) (s : S) : M S :=
  match items with
  | [] => ret s
  | x :: rest => s' <- body x s ;; for_each body rest s'
  end.

(* ================================================================== *)
(** ** External collaborators and configuration *)

(** What the Kafka client does during one [send_message] call: for each of
    its five calls, the exception it raises, if any. *)
Record producer_calls : Type := {
  new_Producer : option exc;
  json_dumps : option exc;
  produce : option exc;
  poll : option exc;
  flush : option exc }.

(** A modifier, [i.run(host, transformed_obj, request_obj)]: it mutates its
    three arguments, or raises. *)
Definition modifier : Type :=
  dict -> transformed -> request -> result (dict * transformed * request).

Record env : Type := {
  HOSTS_TRANSFORMATION_ENABLED : bool;
  HOSTS_UPLOAD_FUTURES_COUNT : Z;
  (** [requests.get(url).content] *)
  requests_get : pyval -> result (list byte);
  (** [tarfile.open(fileobj=BytesIO(report_tar), mode='r:*').getmembers()] *)
  tarfile_open : list byte -> result (list TarInfo);
  (** Modelled from the spec: [yuptoo.validators.report_validator] is not
      part of the sources at hand.  Given the archive, the manifest entry and
      the request context it returns the mapping from slice identifier to
      declared host count, in the order of its items, or raises.  It is handed
      the mutable [request_obj] and is the only collaborator that can store
      [report_platform_id] before the module first reads it: the second
      component is the value it leaves under that key, if any. *)
  validate_metadata_file :
    list TarInfo -> TarInfo -> request -> result (list (string * Z) * option pyval);
  (** [bytes.decode('utf-8')]; [None] is [UnicodeDecodeError] *)
  utf8_decode : list byte -> option string;
  (** [json.loads]; [None] is [json.JSONDecodeError] *)
  json_loads : string -> option pyval;
  (** [str(uuid.uuid4())], by the number of identifiers drawn before *)
  uuid4 : nat -> string;
  (** Modelled from the spec: [yuptoo.modifiers] is not part of the sources
      at hand; [get_modifiers()] lists the rules in registration order, each
      imported and run in turn. *)
  get_modifiers : list modifier;
  kafka : world -> pyval -> producer_calls }.

(* ================================================================== *)
(** ** The module, function by function *)

Section ReportProcessor.

Variable E : env.

(** [str(uuid.uuid4())] *)
Definition fresh_uuid : M string :=
  fun w =>
    (Ok (uuid4 E (uuids_drawn w)),
     {| sent := sent w; logs := logs w; uuids_drawn := S (uuids_drawn w) |}).

(** [d[k]] with its [KeyError]. *)
Definition subscript (d : dict) (k : string) : M pyval :=
  match dict_lookup d k with
  | Some v => ret v
  | None => raise (Exc KeyError [ArgVal (PStr k)])
  end.

(** [request_obj['report_platform_id']] with its [KeyError]. *)
Definition subscript_report_platform_id (request_obj : request) : M pyval :=
  match report_platform_id request_obj with
  | Some v => ret v
  | None => raise (Exc KeyError [ArgVal (PStr "report_platform_id")])
  end.

(* ------------------------------------------------------------------ *)
(** *** Publisher *)

(** [producer.produce(UPLOAD_TOPIC, bytes, callback=...)] when it does not
    raise: the message is handed to the client. *)
Definition hand_to_producer (msg : pyval) : M unit :=
  fun w =>
    (Ok tt, {| sent := sent w ++ [msg]; logs := logs w; uuids_drawn := uuids_drawn w |}).

Definition call (outcome : option exc) : M unit :=
  match outcome with
  | Some e => raise e
  | None => ret tt
  end.

(** The body of [send_message], for what the Kafka client does in this call. *)
Definition send_with (k : producer_calls) (msg : pyval) (request_id : pyval) : M unit :=
  try_finally
    (try_except
       (call (new_Producer k) ;;;
        call (json_dumps k) ;;;
        call (produce k) ;;;
        hand_to_producer msg ;;;
        call (poll k))
       [(ExceptKafkaException, fun _ => LOG (ExceptionProduce request_id))])
    (match new_Producer k with
     | Some _ =>
         (* [producer] was never bound *)
         raise (Exc UnboundLocalError [ArgVal (PStr "producer")])
     | None => call (flush k)
     end).

Definition send_message (msg : pyval) (request_id : pyval) : M unit :=
  fun w => send_with (kafka E w msg) msg request_id w.

(** The [upload_msg] dictionary. *)
Definition upload_msg (host : dict) (system_unique_id : pyval) (request_obj : request) : pyval :=
  PDict [("operation", PStr "add_host");
         ("data", PDict host);
         ("platform_metadata",
          PDict [("request_id", system_unique_id);
                 ("b64_identity", b64_identity request_obj)])].

Definition upload_prefix : string := "UPLOAD TO INVENTORY VIA KAFKA".

Definition upload_error (err : exc) (account report_platform_id : pyval) : exc :=
  Exc KafkaMsgHandlerError
    [ArgVal (PStr "%s - The following exception occurred: %s for account=%s and report_platform_id=%s.");
     ArgVal (PStr upload_prefix); ArgExc err; ArgVal account; ArgVal report_platform_id].

(** The body of the [try] of [upload_to_host_inventory_via_kafka]. *)
Definition build_and_send (host : dict) (request_obj : request) : M unit :=
  system_unique_id <- subscript host "system_unique_id" ;;
  send_message (upload_msg host system_unique_id request_obj) (request_id request_obj).

Definition upload_to_host_inventory_via_kafka (host : dict) (request_obj : request) : M unit :=
  try_except
    (build_and_send host request_obj)
    [(ExceptException,
      fun err =>
        LOG (ErrorUpload err) ;;;
        acc <- subscript host "account" ;;
        rpi <- subscript_report_platform_id request_obj ;;
        raise (upload_error err acc rpi))].

(* ------------------------------------------------------------------ *)
(** *** TransformationChain *)

(** [transformed_obj = {'removed': [], 'modified': [], 'missing_data': []}] *)
Definition new_transformed_obj : transformed :=
  [("removed", []); ("modified", []); ("missing_data", [])].

(** [for modifier in get_modifiers(): ... i.run(host, transformed_obj, request_obj)] *)
Definition run_modifiers (host : dict) (request_obj : request)
  : M (dict * transformed * request) :=
  for_each (fun (run : modifier) (s : dict * transformed * request) =>
              let '(h, t, r) := s in lift (run h t r))
           (get_modifiers E) (host, new_transformed_obj, request_obj).

(** The sections of [transformed_obj] that are not empty. *)
Definition log_sections (transformed_obj : transformed) : transformed :=
  filter (fun kv => match snd kv with [] => false | _ :: _ => true end) transformed_obj.

Definition print_transformed_info (request_obj : request) (host_id : pyval)
    (transformed_obj : option transformed) : M unit :=
  match transformed_obj with
  | None => ret tt
  | Some t =>
      match log_sections t with
      | [] => ret tt
      | _ :: _ =>
          _ <- subscript_report_platform_id request_obj ;;
          LOG (InfoTransformed host_id)
      end
  end.

(* ------------------------------------------------------------------ *)
(** *** Orchestrator *)

(** The variables the loop over the hosts of one slice carries.  The two
    lists hold the record objects themselves: the entry of a candidate shows
    the record as the modifiers, which mutate that object, have left it. *)
Record slice_state : Type := {
  count : Z;
  candidate_hosts : list (string * dict);
  hosts_without_facts : list (string * dict);
  request_obj_of : request }.

(** [if count % HOSTS_UPLOAD_FUTURES_COUNT == 0 or count == total_hosts: LOG.info(...)] *)
Definition report_progress (count total_hosts : Z) (request_obj : request) : M unit :=
  if HOSTS_UPLOAD_FUTURES_COUNT E =? 0 then
    raise (Exc ZeroDivisionError [])
  else if (count mod HOSTS_UPLOAD_FUTURES_COUNT E =? 0) || (count =? total_hosts) then
    _ <- subscript_report_platform_id request_obj ;;
    LOG (InfoSendingHosts count total_hosts)
  else ret tt.

(** The candidate branch, lines 36 to 52.  The record appended to
    [candidate_hosts] at line 37 is the object the modifiers mutate at line
    44, so the list shows it as they left it; an exception before the end of
    the branch leaves the function, and with it the list.  With the
    transformation disabled the name [transformed_obj] is never bound, and
    reading it at line 47, after [request_obj] and [host['yupana_host_id']]
    were evaluated, raises. *)
Definition process_candidate (report_slice : dict) (total_hosts : Z)
    (yupana_host_id : string) (host : dict) (st : slice_state) : M slice_state :=
  let host := dict_set host "report_slice_id" (dict_get report_slice "report_slice_id" PNone) in
  if HOSTS_TRANSFORMATION_ENABLED E then
    '(host, transformed_obj, request_obj) <- run_modifiers host (request_obj_of st) ;;
    (* the entry appended at line 37 is this record, mutated since *)
    let candidate_hosts := candidate_hosts st ++ [(yupana_host_id, host)] in
    let count := count st + 1 in
    host_id <- subscript host "yupana_host_id" ;;
    print_transformed_info request_obj host_id (Some transformed_obj) ;;;
    upload_to_host_inventory_via_kafka host request_obj ;;;
    report_progress count total_hosts request_obj ;;;
    ret {| count := count;
           candidate_hosts := candidate_hosts;
           hosts_without_facts := hosts_without_facts st;
           request_obj_of := request_obj |}
  else
    _ <- subscript host "yupana_host_id" ;;
    raise (Exc UnboundLocalError [ArgVal (PStr "transformed_obj")]).

(** The body of [for host in hosts]. *)
Definition process_host (report_slice : dict) (total_hosts : Z)
    (host : pyval) (st : slice_state) : M slice_state :=
  yupana_host_id <- fresh_uuid ;;
  match host with
  | PDict host =>
      let host := dict_set host "yupana_host_id" (PStr yupana_host_id) in
      if has_canonical_facts host then
        process_candidate report_slice total_hosts yupana_host_id host st
      else
        ret {| count := count st;
               candidate_hosts := candidate_hosts st;
               hosts_without_facts := hosts_without_facts st ++ [(yupana_host_id, host)];
               request_obj_of := request_obj_of st |}
  | _ =>
      (* item assignment on a value that is not a dictionary *)
      raise (Exc TypeError [])
  end.

(** The body of [for report_slice in report_json_files]; it returns
    [request_obj] as the modifiers left it. *)
Definition process_slice (report_slice : pyval) (request_obj : request) : M request :=
  match report_slice with
  | PDict report_slice =>
      let hosts := dict_get report_slice "hosts" (PList []) in
      match py_len hosts, py_iter hosts with
      | Some total_hosts, Some items =>
          st <- for_each (process_host report_slice (Z.of_nat total_hosts)) items
                  {| count := 0; candidate_hosts := []; hosts_without_facts := [];
                     request_obj_of := request_obj |} ;;
          (match hosts_without_facts st with
           | [] => ret tt
           | _ :: _ => LOG (WarningHostsWithoutFacts (hosts_without_facts st))
           end) ;;;
          let total_fingerprints := Z.of_nat (List.length (candidate_hosts st)) in
          let total_valid := total_fingerprints - Z.of_nat (List.length (hosts_without_facts st)) in
          LOG (InfoValidHosts total_valid total_fingerprints) ;;;
          match candidate_hosts st with
          | [] => LOG ErrorNoValidHosts ;;; raise (Exc QPCReportException [])
          | _ :: _ => ret (request_obj_of st)
          end
      | _, _ => raise (Exc TypeError [])
      end
  | _ =>
      (* a document without [.get] *)
      raise (Exc AttributeError [])
  end.

Definition process_slices (report_json_files : list pyval) (request_obj : request) : M request :=
  for_each process_slice report_json_files request_obj.

(* ------------------------------------------------------------------ *)
(** *** ArchiveFetcher *)

Definition download_prefix : string := "REPORT DOWNLOAD".

Definition download_report (consumed_message : dict) : M (list byte) :=
  let report_url := dict_get consumed_message "url" PNone in
  try_except
    (if negb (truthy report_url) then
       raise (Exc FailDownloadException
                [ArgVal (PStr "%s - Kafka message has no report url.  Message: %s");
                 ArgVal (PStr download_prefix); ArgVal (PDict consumed_message)])
     else
       LOG (InfoDownloading report_url) ;;;
       content <- lift (requests_get E report_url) ;;
       LOG (InfoDownloaded report_url) ;;;
       ret content)
    [(ExceptFailDownloadException, fun fail_err => raise fail_err);
     (ExceptException,
      fun err =>
        raise (Exc FailDownloadException
                 [ArgVal (PStr "%s - Unexpected error for URL %s. Error: %s");
                  ArgVal (PStr download_prefix); ArgVal report_url; ArgExc err;
                  ArgVal (dict_get consumed_message "account" PNone)]))].

(* ------------------------------------------------------------------ *)
(** *** SliceExtractor *)

Definition extract_prefix : string := "EXTRACT REPORT FROM TAR".

(** ['/metadata.json' in file.name or file.name == 'metadata.json'] *)
Definition is_metadata_name (n : string) : bool :=
  str_contains "/metadata.json" n || (n =? "metadata.json")%string.

(** The scan [for file in files] of lines 211 to 217. *)
Fixpoint scan_members (files json_files : list TarInfo) (metadata_file : option TarInfo)
  : list TarInfo * option TarInfo :=
  match files with
  | [] => (json_files, metadata_file)
  | file :: rest =>
      if is_metadata_name (name file) then scan_members rest json_files (Some file)
      else if str_contains ".json" (name file) then
        scan_members rest (json_files ++ [file]) metadata_file
      else scan_members rest json_files metadata_file
  end.

(** [report_slice = tar.extractfile(file)]: a file object, whose [read] gives
    bytes or raises, or [None]. *)
Definition tar_extractfile (file : TarInfo) : M (option (result (list byte))) :=
  match extractfile file with
  | ExtractFails e => raise e
  | NoFileObject => ret None
  | ReadFails e => ret (Some (Raise e))
  | Content b => ret (Some (Ok b))
  end.

(** [report_slice.read()] *)
Definition read (report_slice : option (result (list byte))) : M (list byte) :=
  match report_slice with
  | None => raise (Exc AttributeError [])
  | Some r => lift r
  end.

(** [.decode('utf-8')] *)
Definition decode (b : list byte) : M string :=
  match utf8_decode E b with
  | Some s => ret s
  | None => raise (Exc UnicodeDecodeError [])
  end.

(** [json.loads(report_slice_string)] *)
Definition loads (text : string) : M pyval :=
  match json_loads E text with
  | Some v => ret v
  | None => raise (Exc JSONDecodeError [])
  end.

(** The body of [for file in json_files], lines 223 to 274, for one pair
    [(report_id, num_hosts)] of the manifest.  Returning [report_files] as it
    came is the [continue] of the source (or a name that does not match). *)
Definition check_slice (report_id : string) (num_hosts : Z)
    (file : TarInfo) (report_files : list pyval) : M (list pyval) :=
  if str_contains report_id (name file) then
    report_slice <- tar_extractfile file ;;
    LOG (InfoDecoding (name file)) ;;;
    decoded <- try_except
                 (b <- read report_slice ;;
                  report_slice_string <- decode b ;;
                  ret (Some report_slice_string))
                 [(ExceptUnicodeDecodeError,
                   fun _ => LOG (ExceptionDecode (name file)) ;;; ret None)] ;;
    match decoded with
    | None => ret report_files
    | Some report_slice_string =>
        LOG (InfoDecoded (name file)) ;;;
        report_slice_json <- loads report_slice_string ;;
        match report_slice_json with
        | PDict d =>
            let report_slice_id := dict_get d "report_slice_id" (PStr "") in
            let mismatch_id := differs_from_str report_slice_id report_id in
            let hosts := dict_get d "hosts" (PDict []) in
            match py_len hosts with
            | Some n =>
                let mismatch_count := negb (Z.of_nat n =? num_hosts) in
                if mismatch_id || mismatch_count then
                  LOG (WarningMismatch mismatch_id mismatch_count) ;;;
                  ret report_files
                else ret (report_files ++ [report_slice_json])
            | None => raise (Exc TypeError [])
            end
        | _ => raise (Exc AttributeError [])
        end
    end
  else ret report_files.

(** [for report_id, num_hosts in valid_slice_ids.items(): for file in json_files: ...] *)
Definition collect_slices (valid_slice_ids : list (string * Z)) (json_files : list TarInfo)
  : M (list pyval) :=
  for_each (fun (item : string * Z) =>
              for_each (check_slice (fst item) (snd item)) json_files)
           valid_slice_ids [].

Definition not_valid_json (request_obj : request) (error : exc) : exc :=
  Exc FailExtractException
    [ArgVal (PStr "%s - Report is not valid JSON. Error: %s");
     ArgVal (PStr extract_prefix); ArgStrOf error; ArgVal (account request_obj)].

Definition no_metadata_or_reports (request_obj : request) : exc :=
  Exc FailExtractException
    [ArgVal (PStr "%s - Tar does not contain valid JSON metadata & report files for account=%s.");
     ArgVal (PStr extract_prefix); ArgVal (account request_obj)].

Definition unexpected_tar_error (request_obj : request) (err : exc) : exc :=
  Exc FailExtractException
    [ArgVal (PStr "%s - Unexpected error reading tar file: %s for account=%s.");
     ArgVal (PStr extract_prefix); ArgStrOf err; ArgVal (account request_obj)].

(** [request_obj] after the validator has run. *)
Definition with_report_platform_id (request_obj : request) (v : option pyval) : request :=
  {| account := account request_obj;
     b64_identity := b64_identity request_obj;
     request_id := request_id request_obj;
     report_platform_id := v |}.

(** The inner [try], lines 219 to 279. *)
Definition validate_and_collect (files json_files : list TarInfo) (metadata_file : TarInfo)
    (request_obj : request) : M (list pyval * request) :=
  try_except
    ('(valid_slice_ids, stored) <- lift (validate_metadata_file E files metadata_file request_obj) ;;
     report_files <- collect_slices valid_slice_ids json_files ;;
     ret (report_files, with_report_platform_id request_obj stored))
    [(ExceptValueError, fun error => raise (not_valid_json request_obj error))].

(** The body of the outer [try], lines 206 to 282. *)
Definition open_and_extract (report_tar : list byte) (request_obj : request)
  : M (list pyval * request) :=
  files <- lift (tarfile_open E report_tar) ;;
  match scan_members files [] None with
  | ((_ :: _) as json_files, Some metadata_file) =>
      validate_and_collect files json_files metadata_file request_obj
  | _ => raise (no_metadata_or_reports request_obj)
  end.

(** [extract_report_slices]: the accepted slices together with [request_obj]
    as the validator left it, or [None] when the last clause swallowed the
    exception and the function fell off its end. *)
Definition extract_report_slices (report_tar : list byte) (request_obj : request)
  : M (option (list pyval * request)) :=
  try_except
    (extracted <- open_and_extract report_tar request_obj ;; ret (Some extracted))
    [(ExceptFailExtractException, fun qpc_err => raise qpc_err);
     (ExceptReadError, fun err => raise (unexpected_tar_error request_obj err));
     (ExceptException, fun err => LOG (ErrorUnexpected err) ;;; ret None)].

(* ------------------------------------------------------------------ *)
(** *** [process_report] *)

Definition new_request_obj (consumed_message : dict) : request :=
  {| account := dict_get consumed_message "account" PNone;
     b64_identity := dict_get consumed_message "b64_identity" PNone;
     request_id := dict_get consumed_message "request_id" PNone;
     report_platform_id := None |}.

Definition process_report (consumed_message : dict) : M unit :=
  let request_obj := new_request_obj consumed_message in
  report_tar <- download_report consumed_message ;;
  extracted <- extract_report_slices report_tar request_obj ;;
  match extracted with
  | Some (report_json_files, request_obj) =>
      _ <- process_slices report_json_files request_obj ;;
      ret tt
  | None =>
      (* [for report_slice in None] *)
      raise (Exc TypeError [])
  end.

End ReportProcessor.

(* ================================================================== *)
(** ** Concrete collaborators and inputs for the examples *)

Module Sample.

Definition quote : string := String "034"%char EmptyString.

(** A JSON string literal and a [key: value] member. *)
Definition lit (s : string) : string := (quote ++ s ++ quote)%string.
Definition member_text (k v : string) : string := (lit k ++ ": " ++ v)%string.

(** A host with one identity fact, and its JSON text. *)
Definition host_x : dict :=
  [("bios_uuid", PStr "X"); ("system_unique_id", PStr "u-1"); ("account", PStr "acct")].
Definition host_x_text : string :=
  ("{" ++ member_text "bios_uuid" (lit "X") ++ ", "
       ++ member_text "system_unique_id" (lit "u-1") ++ ", "
       ++ member_text "account" (lit "acct") ++ "}")%string.

Definition slice_doc (id : string) (hosts : list pyval) : pyval :=
  PDict [("report_slice_id", PStr id); ("hosts", PList hosts)].
Definition slice_text (id hosts_text : string) : string :=
  ("{" ++ member_text "report_slice_id" (lit id) ++ ", "
       ++ member_text "hosts" hosts_text ++ "}")%string.

(** [json.loads] on the texts the examples use. *)
Definition known_texts : list (string * pyval) :=
  [(slice_text "s1" ("[" ++ host_x_text ++ "]"), slice_doc "s1" [PDict host_x]);
   (slice_text "s1" ("[" ++ host_x_text ++ ", {}]"), slice_doc "s1" [PDict host_x; PDict []]);
   (slice_text "s1" "[{}]", slice_doc "s1" [PDict []]);
   (slice_text "s2" "[{}]", slice_doc "s2" [PDict []]);
   (slice_text "s9" "[{}]", slice_doc "s9" [PDict []])].

Fixpoint loads_known (table : list (string * pyval)) (text : string) : option pyval :=
  match table with
  | [] => None
  | (t, v) :: rest => if (t =? text)%string then Some v else loads_known rest text
  end.

(** [bytes.decode('utf-8')] on bytes below 128, where it is the identity;
    the examples use no other valid text. *)
Definition decode_ascii (b : list byte) : option string :=
  if forallb (fun x => (Byte.to_nat x <? 128)%nat) b
  then Some (string_of_list_byte b) else None.

Definition file_of_text (n text : string) : TarInfo :=
  {| name := n; extractfile := Content (list_byte_of_string text) |}.

Definition metadata_json : TarInfo := file_of_text "metadata.json" "{}".

Definition calls_ok : producer_calls :=
  {| new_Producer := None; json_dumps := None; produce := None; poll := None; flush := None |}.

Definition uuid_of (n : nat) : string :=
  ("00000000-0000-4000-8000-00000000000" ++ String (ascii_of_nat (48 + n)) EmptyString)%string.

(** An environment whose archive has the given members and whose validator
    returns the given manifest and stores the report identifier ["r-1"]. *)
Definition make_env (enabled : bool) (members : result (list TarInfo))
    (manifest : list (string * Z)) (k : producer_calls) : env :=
  {| HOSTS_TRANSFORMATION_ENABLED := enabled;
     HOSTS_UPLOAD_FUTURES_COUNT := 100;
     requests_get := fun _ => Ok [];
     tarfile_open := fun _ => members;
     validate_metadata_file := fun _ _ _ => Ok (manifest, Some (PStr "r-1"));
     utf8_decode := decode_ascii;
     json_loads := loads_known known_texts;
     uuid4 := uuid_of;
     get_modifiers := [];
     kafka := fun _ _ => k |}.

Definition consumed_message : dict :=
  [("account", PStr "acct"); ("b64_identity", PStr "aWQ="); ("request_id", PStr "req-1");
   ("url", PStr "http://storage/report.tar.gz")].

Definition request_obj : request :=
  {| account := PStr "acct"; b64_identity := PStr "aWQ="; request_id := PStr "req-1";
     report_platform_id := Some (PStr "r-1") |}.

Definition w0 : world := {| sent := []; logs := []; uuids_drawn := 0 |}.

(** Two accepted slices: the first holds a candidate, the second none. *)
Definition two_slices : list TarInfo :=
  [metadata_json;
   file_of_text "report/s1.json" (slice_text "s1" ("[" ++ host_x_text ++ "]"));
   file_of_text "report/s2.json" (slice_text "s2" "[{}]")].

(** One data entry that no identifier of the manifest names. *)
Definition unmatched_slice : list TarInfo :=
  [metadata_json; file_of_text "report/s9.json" (slice_text "s9" "[{}]")].

(** A data entry whose [read] fails with an input/output error. *)
Definition broken_member : list TarInfo :=
  [metadata_json;
   {| name := "report/s1.json"; extractfile := ReadFails (Exc (OtherError "OSError") []) |}].

(** An entry that is not UTF-8, next to a valid one for another slice. *)
Definition undecodable_and_valid : list TarInfo :=
  [metadata_json;
   {| name := "report/s1.json"; extractfile := Content [xff; xfe] |};
   file_of_text "report/s2.json" (slice_text "s2" "[{}]")].

End Sample.

(* ================================================================== *)
(** ** Vocabulary of the statements *)

(** A member the scan keeps as a candidate data entry. *)
Definition is_data_entry (file : TarInfo) : bool :=
  negb (is_metadata_name (name file)) && str_contains ".json" (name file).

(** The result of a computation, leaving the world aside. *)
Definition outcome {A : Type} (c : M A) (w : world) : result A := fst (c w).

(** The world with further log records. *)
Definition add_logs (w : world) (events : list log_event) : world :=
  {| sent := sent w; logs := logs w ++ events; uuids_drawn := uuids_drawn w |}.

(** A computation whose result does not depend on the world it starts in. *)
Definition world_independent {A : Type} (c : M A) : Prop :=
  forall w1 w2, outcome c w1 = outcome c w2.

(** What a data entry turns out to be when [check_slice] examines it. *)
Inductive entry_kind : Type :=
| Undecodable                        (* the bytes are not UTF-8 *)
| NotJSON                            (* the text does not parse *)
| SliceDocument (d : dict) (n : nat) (* an object whose [hosts] has a length *)
| Irregular.                         (* anything else *)

Definition kind_of_entry (E : env) (file : TarInfo) : entry_kind :=
  match extractfile file with
  | Content b =>
      match utf8_decode E b with
      | None => Undecodable
      | Some text =>
          match json_loads E text with
          | None => NotJSON
          | Some (PDict d) =>
              match py_len (dict_get d "hosts" (PDict [])) with
              | Some n => SliceDocument d n
              | None => Irregular
              end
          | Some _ => Irregular
          end
      end
  | _ => Irregular
  end.

(** An exception [extract_report_slices] has no clause of its own for. *)
Definition unexpected (e : exc) : Prop :=
  catches ExceptFailExtractException e = false /\
  catches ExceptReadError e = false /\
  catches ExceptValueError e = false.

(** The candidates of one accepted slice, and of a report. *)
Definition is_candidate (host : pyval) : bool :=
  match host with
  | PDict h => has_canonical_facts h
  | _ => false
  end.

Definition candidates_of_slice (report_slice : pyval) : nat :=
  match report_slice with
  | PDict d =>
      match dict_get d "hosts" (PList []) with
      | PList hosts => List.length (filter is_candidate hosts)
      | _ => 0%nat
      end
  | _ => 0%nat
  end.

Definition total_candidates (report_json_files : list pyval) : nat :=
  list_sum (map candidates_of_slice report_json_files).

(** The appended messages of a run from [w] to [w']. *)
Definition published (w w' : world) (msgs : list pyval) : Prop :=
  sent w' = sent w ++ msgs.

(** [spec P Q c]: whatever the world, the messages [c] hands to the producer
    all satisfy [P], and a value it returns satisfies [Q]. *)
Definition spec {A : Type} (P : pyval -> Prop) (Q : A -> Prop) (c : M A) : Prop :=
  forall w,
    (exists msgs, published w (snd (c w)) msgs /\ Forall P msgs) /\
    (forall a, outcome c w = Ok a -> Q a).

(** The envelope, with the identity token [b64], of the record the modifiers
    make of [host] in the request context [request_obj]. *)
Definition transformed_envelope (E : env) (b64 : pyval) (host : dict) (request_obj : request)
    (msg : pyval) : Prop :=
  exists (host' : dict) (transformed_obj : transformed) (request_obj' : request)
         (system_unique_id : pyval) (w : world),
    outcome (run_modifiers E host request_obj) w = Ok (host', transformed_obj, request_obj') /\
    dict_lookup host' "system_unique_id" = Some system_unique_id /\
    msg = PDict [("operation", PStr "add_host");
                 ("data", PDict host');
                 ("platform_metadata",
                  PDict [("request_id", system_unique_id); ("b64_identity", b64)])].

(** The envelope of a candidate of [report_slice]: of one of its hosts that
    has an identity fact, given a correlation identifier and the identifier of
    the slice, and then transformed. *)
Definition candidate_envelope (E : env) (b64 : pyval) (report_slice : pyval) (msg : pyval)
  : Prop :=
  exists (d : dict) (items : list pyval) (host : dict) (yupana_host_id : string)
         (request_obj : request),
    report_slice = PDict d /\
    py_iter (dict_get d "hosts" (PList [])) = Some items /\
    In (PDict host) items /\
    has_canonical_facts host = true /\
    transformed_envelope E b64
      (dict_set (dict_set host "yupana_host_id" (PStr yupana_host_id))
                "report_slice_id" (dict_get d "report_slice_id" PNone))
      request_obj msg.

(** The first exception among serialising, producing and polling. *)
Definition submission_failure (k : producer_calls) : option exc :=
  match json_dumps k with
  | Some e => Some e
  | None =>
      match produce k with
      | Some e => Some e
      | None => poll k
      end
  end.

(** The envelope of [host] in the request context [request_obj]. *)
Definition envelope_of (host : dict) (request_obj : request) (msg : pyval) : Prop :=
  exists request_id,
    dict_lookup host "system_unique_id" = Some request_id /\
    msg = PDict [("operation", PStr "add_host");
                 ("data", PDict host);
                 ("platform_metadata",
                  PDict [("request_id", request_id);
                         ("b64_identity", b64_identity request_obj)])].

(** A modifier that leaves the identity token of the request context alone. *)
Definition keeps_identity (run : modifier) : Prop :=
  forall host transformed_obj request_obj host' transformed_obj' request_obj',
    run host transformed_obj request_obj = Ok (host', transformed_obj', request_obj') ->
    b64_identity request_obj' = b64_identity request_obj.

(* ------------------------------------------------------------------ *)
(** *** Vocabulary of the further properties *)

(** The last member of the archive whose name is that of a manifest. *)
Definition last_metadata (files : list TarInfo) : option TarInfo :=
  find (fun file => is_metadata_name (name file)) (rev files).

(** A document that agrees with a pair of the manifest. *)
Definition matches_manifest (valid_slice_ids : list (string * Z)) (doc : pyval) : Prop :=
  exists (id : string) (n : Z) (d : dict) (k : nat),
    In (id, n) valid_slice_ids /\
    doc = PDict d /\
    dict_get d "report_slice_id" (PStr "") = PStr id /\
    py_len (dict_get d "hosts" (PDict [])) = Some k /\
    Z.of_nat k = n.

(** What one data entry contributes for one pair of the manifest. *)
Definition accepted_from (E : env) (report_id : string) (num_hosts : Z) (file : TarInfo)
  : list pyval :=
  if str_contains report_id (name file) then
    match kind_of_entry E file with
    | SliceDocument d n =>
        if differs_from_str (dict_get d "report_slice_id" (PStr "")) report_id
           || negb (Z.of_nat n =? num_hosts)
        then [] else [PDict d]
    | _ => []
    end
  else [].

(** The accepted slices, pair by pair of the manifest and, for each pair,
    entry by entry of the archive. *)
Definition accepted_slices (E : env) (valid_slice_ids : list (string * Z))
    (json_files : list TarInfo) : list pyval :=
  flat_map (fun item : string * Z =>
              flat_map (accepted_from E (fst item) (snd item)) json_files)
           valid_slice_ids.

(** A computation that draws no identifier. *)
Definition keeps_uuids {A : Type} (c : M A) : Prop :=
  forall w, uuids_drawn (snd (c w)) = uuids_drawn w.

(** A Kafka client none of whose calls raises. *)
Definition healthy (k : producer_calls) : Prop :=
  new_Producer k = None /\ json_dumps k = None /\ produce k = None /\
  poll k = None /\ flush k = None.

(** The correlation identifiers a slice has given out so far. *)
Definition ids_of (st : slice_state) : list string :=
  map fst (candidate_hosts st) ++ map fst (hosts_without_facts st).

(** A modifier that leaves the correlation identifier of the record alone. *)
Definition keeps_correlation_id (run : modifier) : Prop :=
  forall host transformed_obj request_obj host' transformed_obj' request_obj',
    run host transformed_obj request_obj = Ok (host', transformed_obj', request_obj') ->
    dict_lookup host' "yupana_host_id" = dict_lookup host "yupana_host_id".

(** The identifiers given out so far are distinct, were all drawn before, and
    each record carries its own under [yupana_host_id], the candidates as
    long as the modifiers leave that field alone. *)
Definition ids_invariant (E : env) (w : world) (st : slice_state) : Prop :=
  NoDup (ids_of st) /\
  (forall id, In id (ids_of st) -> exists i, (i < uuids_drawn w)%nat /\ id = uuid4 E i) /\
  Forall (fun p : string * dict => dict_lookup (snd p) "yupana_host_id" = Some (PStr (fst p)))
         (hosts_without_facts st) /\
  ((forall run, In run (get_modifiers E) -> keeps_correlation_id run) ->
   Forall (fun p : string * dict => dict_lookup (snd p) "yupana_host_id" = Some (PStr (fst p)))
          (candidate_hosts st)).

(** An environment with another fetch, validator, list of modifiers or
    source of identifiers, for the examples. *)
Definition with_fetch (fetch : pyval -> result (list byte)) (base : env) : env :=
  {| HOSTS_TRANSFORMATION_ENABLED := HOSTS_TRANSFORMATION_ENABLED base;
     HOSTS_UPLOAD_FUTURES_COUNT := HOSTS_UPLOAD_FUTURES_COUNT base;
     requests_get := fetch;
     tarfile_open := tarfile_open base;
     validate_metadata_file := validate_metadata_file base;
     utf8_decode := utf8_decode base;
     json_loads := json_loads base;
     uuid4 := uuid4 base;
     get_modifiers := get_modifiers base;
     kafka := kafka base |}.

Definition with_validator
    (validator : list TarInfo -> TarInfo -> request -> result (list (string * Z) * option pyval))
    (base : env) : env :=
  {| HOSTS_TRANSFORMATION_ENABLED := HOSTS_TRANSFORMATION_ENABLED base;
     HOSTS_UPLOAD_FUTURES_COUNT := HOSTS_UPLOAD_FUTURES_COUNT base;
     requests_get := requests_get base;
     tarfile_open := tarfile_open base;
     validate_metadata_file := validator;
     utf8_decode := utf8_decode base;
     json_loads := json_loads base;
     uuid4 := uuid4 base;
     get_modifiers := get_modifiers base;
     kafka := kafka base |}.


Definition with_uuid4 (draw : nat -> string) (base : env) : env :=
  {| HOSTS_TRANSFORMATION_ENABLED := HOSTS_TRANSFORMATION_ENABLED base;
     HOSTS_UPLOAD_FUTURES_COUNT := HOSTS_UPLOAD_FUTURES_COUNT base;
     requests_get := requests_get base;
     tarfile_open := tarfile_open base;
     validate_metadata_file := validate_metadata_file base;
     utf8_decode := utf8_decode base;
     json_loads := json_loads base;
     uuid4 := draw;
     get_modifiers := get_modifiers base;
     kafka := kafka base |}.

(** A source of identifiers that never repeats: the [n]-th is [n] strokes. *)
Fixpoint tally (n : nat) : string :=
  match n with
  | O => EmptyString
  | S m => String "i"%char (tally m)
  end.

(** The environment most examples run in. *)
Definition sample_env : env :=
  Sample.make_env true (Ok Sample.two_slices) [("s1", 1); ("s2", 1)] Sample.calls_ok.

(** An environment with another parser, for the examples. *)
Definition with_json_loads (parse : string -> option pyval) (base : env) : env :=
  {| HOSTS_TRANSFORMATION_ENABLED := HOSTS_TRANSFORMATION_ENABLED base;
     HOSTS_UPLOAD_FUTURES_COUNT := HOSTS_UPLOAD_FUTURES_COUNT base;
     requests_get := requests_get base;
     tarfile_open := tarfile_open base;
     validate_metadata_file := validate_metadata_file base;
     utf8_decode := utf8_decode base;
     json_loads := parse;
     uuid4 := uuid4 base;
     get_modifiers := get_modifiers base;
     kafka := kafka base |}.

(** An archive with one data entry, for the slice ["s11"], under a manifest
    that also lists ["s1"]: both identifiers occur in the name of the entry. *)
Definition s11_text : string :=
  Sample.slice_text "s11" ("[" ++ Sample.host_x_text ++ "]")%string.

Definition s11_doc : dict :=
  [("report_slice_id", PStr "s11"); ("hosts", PList [PDict Sample.host_x])].

Definition s11_file : TarInfo := Sample.file_of_text "report/s11.json" s11_text.

Definition s11_env : env :=
  with_json_loads (Sample.loads_known [(s11_text, PDict s11_doc)])
    (Sample.make_env true (Ok [Sample.metadata_json; s11_file]) [("s1", 1); ("s11", 1)]
                     Sample.calls_ok).

(** The state a slice loop starts in. *)
Definition fresh_slice_state (request_obj : request) : slice_state :=
  {| count := 0; candidate_hosts := []; hosts_without_facts := [];
     request_obj_of := request_obj |}.

(* ================================================================== *)
(** ** Properties *)

(* ------------------------------------------------------------------ *)
(** *** Dictionaries *)

Lemma dict_lookup_set_same (d : dict) (k : string) (v : pyval) :
  dict_lookup (dict_set d k v) k = Some v.
Proof.
  induction d as [|[k' v'] rest IH]; simpl.
  - now rewrite String.eqb_refl.
  - destruct (k' =? k)%string eqn:E; simpl.
    + now rewrite String.eqb_refl.
    + now rewrite E.
Qed.

Lemma dict_lookup_set_other (d : dict) (k k' : string) (v : pyval) :
  k <> k' -> dict_lookup (dict_set d k v) k' = dict_lookup d k'.
Proof.
  intros Hne. induction d as [|[k0 v0] rest IH]; simpl.
  - destruct (k =? k')%string eqn:E; [apply String.eqb_eq in E; contradiction|reflexivity].
  - destruct (k0 =? k)%string eqn:E; simpl.
    + apply String.eqb_eq in E; subst k0.
      destruct (k =? k')%string eqn:E'; [apply String.eqb_eq in E'; contradiction|reflexivity].
    + destruct (k0 =? k')%string; [reflexivity|exact IH].
Qed.

Lemma dict_get_set_same (d : dict) (k : string) (v dflt : pyval) :
  dict_get (dict_set d k v) k dflt = v.
Proof. unfold dict_get. now rewrite dict_lookup_set_same. Qed.

Lemma dict_get_set_other (d : dict) (k k' : string) (v dflt : pyval) :
  k <> k' -> dict_get (dict_set d k v) k' dflt = dict_get d k' dflt.
Proof. intros H. unfold dict_get. now rewrite dict_lookup_set_other. Qed.

(* ------------------------------------------------------------------ *)
(** *** Strings *)

(** [len(s)] is the number of items [for c in s] visits. *)
Lemma chars_length (s : string) : List.length (chars s) = code_points s.
Proof.
  unfold chars. induction s as [|c rest IH]; simpl; [reflexivity|].
  destruct (chars_after rest) as [continuation cs]. simpl in IH.
  destruct (is_continuation c); simpl; now rewrite IH.
Qed.

(** A code point encoded in three bytes is one character. *)
Lemma py_len_three_byte_code_point :
  let s := String "230"%char (String "151"%char (String "165"%char EmptyString)) in
  py_len (PStr s) = Some 1%nat /\ py_iter (PStr s) = Some [PStr s].
Proof. split; reflexivity. Qed.

(* ------------------------------------------------------------------ *)
(** *** The classification rule *)

Lemma any_fact_true (facts : list string) (host : dict) :
  any_fact facts host = true <->
  exists k v, In k facts /\ dict_lookup host k = Some v /\ truthy v = true.
Proof.
  induction facts as [|fact rest IH]; simpl.
  - split; [discriminate|]. intros (k & v & [] & _).
  - unfold dict_get at 1.
    destruct (dict_lookup host fact) as [w|] eqn:L; simpl.
    + destruct (truthy w) eqn:T.
      * split; [|reflexivity]. intros _. exists fact, w. auto.
      * rewrite IH. split.
        -- intros (k & v & Hin & Hl & Ht). exists k, v. auto.
        -- intros (k & v & [Hk|Hin] & Hl & Ht).
           ++ subst k. rewrite L in Hl. injection Hl as <-. congruence.
           ++ exists k, v. auto.
    + rewrite IH. split.
      * intros (k & v & Hin & Hl & Ht). exists k, v. auto.
      * intros (k & v & [Hk|Hin] & Hl & Ht).
        -- subst k. congruence.
        -- exists k, v. auto.
Qed.

Lemma any_fact_set_other (facts : list string) (host : dict) (k : string) (v : pyval) :
  ~ In k facts -> any_fact facts (dict_set host k v) = any_fact facts host.
Proof.
  induction facts as [|fact rest IH]; simpl; intros Hn; [reflexivity|].
  rewrite dict_get_set_other by (intros ->; apply Hn; now left).
  rewrite IH by (intros Hin; apply Hn; now right).
  reflexivity.
Qed.

(** C2.  A record is classified as a candidate exactly when one of the seven
    identity-fact keys is present with a non-empty value, non-empty being
    Python's truth value of the stored value (so the empty string counts as
    absent, like a missing key).  Whichever single fact is set to such a value
    makes the record a candidate, an empty string never does, and setting any
    field outside the seven keys leaves the classification unchanged. *)
Theorem has_canonical_facts_iff_identity_fact :
  (forall host : dict,
      has_canonical_facts host = true <->
      exists k v, In k CANONICAL_FACTS /\ dict_lookup host k = Some v /\ truthy v = true)
  /\ (forall (host : dict) (k : string) (v : pyval),
         In k CANONICAL_FACTS -> truthy v = true ->
         has_canonical_facts (dict_set host k v) = true)
  /\ (forall (host : dict) (k : string),
         has_canonical_facts (dict_set host k (PStr "")) = true ->
         exists k' v, k' <> k /\ In k' CANONICAL_FACTS /\
                      dict_lookup host k' = Some v /\ truthy v = true)
  /\ (forall (host : dict) (k : string) (v : pyval),
         ~ In k CANONICAL_FACTS ->
         has_canonical_facts (dict_set host k v) = has_canonical_facts host).
Proof.
  unfold has_canonical_facts. split; [|split; [|split]].
  - intros host. apply any_fact_true.
  - intros host k v Hk Hv. apply any_fact_true. exists k, v.
    rewrite dict_lookup_set_same. auto.
  - intros host k H. apply any_fact_true in H. destruct H as (k' & v & Hin & Hl & Ht).
    destruct (string_dec k k') as [->|Hne].
    + rewrite dict_lookup_set_same in Hl. injection Hl as <-. discriminate.
    + rewrite dict_lookup_set_other in Hl by assumption.
      exists k', v. auto.
  - intros host k v Hn. now apply any_fact_set_other.
Qed.

(* ------------------------------------------------------------------ *)
(** *** Running the monad *)

(** Unfolds the operations of the monad, leaving the functions of the module
    folded. *)
Ltac run_monad :=
  cbv beta iota delta [bind ret raise lift try_except try_finally LOG call select_clause];
  cbn beta iota.

(* ------------------------------------------------------------------ *)
(** *** The scan of the archive members *)

Lemma scan_members_json_files (files json_files : list TarInfo) (metadata_file : option TarInfo) :
  fst (scan_members files json_files metadata_file) = json_files ++ filter is_data_entry files.
Proof.
  revert json_files metadata_file.
  induction files as [|file rest IH]; intros json_files metadata_file; simpl.
  - now rewrite app_nil_r.
  - unfold is_data_entry at 1.
    destruct (is_metadata_name (name file)); simpl.
    + apply IH.
    + destruct (str_contains ".json" (name file)); simpl.
      * rewrite IH. now rewrite <- app_assoc.
      * apply IH.
Qed.

Lemma scan_members_no_metadata (files json_files : list TarInfo) (metadata_file : option TarInfo) :
  (forall file, In file files -> is_metadata_name (name file) = false) ->
  snd (scan_members files json_files metadata_file) = metadata_file.
Proof.
  revert json_files.
  induction files as [|file rest IH]; intros json_files Hno; simpl; [reflexivity|].
  rewrite (Hno file) by now left.
  destruct (str_contains ".json" (name file)); apply IH; intros f Hf; apply Hno; now right.
Qed.

Lemma filter_nothing {A : Type} (p : A -> bool) (l : list A) :
  (forall x, In x l -> p x = false) -> filter p l = [].
Proof.
  induction l as [|x rest IH]; intros H; simpl; [reflexivity|].
  rewrite (H x) by now left. apply IH. intros y Hy. apply H. now right.
Qed.

Section Extraction.

Variable E : env.

(** C6.  A readable archive that has no manifest entry, or no data entry
    whose name contains [.json], makes the extraction raise
    [FailExtractException]; the world is as it was, no member having been
    opened, decoded or parsed. *)
Theorem extraction_fails_without_manifest_or_data
    (report_tar : list byte) (files : list TarInfo) (request_obj : request) (w : world) :
  tarfile_open E report_tar = Ok files ->
  (forall file, In file files -> is_metadata_name (name file) = false) \/
  (forall file, In file files ->
                is_metadata_name (name file) = false -> str_contains ".json" (name file) = false) ->
  extract_report_slices E report_tar request_obj w
  = (Raise (no_metadata_or_reports request_obj), w)
  /\ class_of (no_metadata_or_reports request_obj) = FailExtractException.
Proof.
  intros Hopen Hmissing. split; [|reflexivity].
  unfold extract_report_slices, open_and_extract. run_monad.
  rewrite Hopen.
  assert (Hscan : forall jf md, scan_members files [] None = (jf, md) -> jf = [] \/ md = None).
  { intros jf md Hs. destruct Hmissing as [Hno|Hno].
    - right. pose proof (scan_members_no_metadata files [] None Hno) as H.
      rewrite Hs in H. exact H.
    - left. pose proof (scan_members_json_files files [] None) as H.
      rewrite Hs in H. simpl in H. rewrite H. apply filter_nothing.
      intros f Hf. unfold is_data_entry.
      destruct (is_metadata_name (name f)) eqn:Hm; [reflexivity|].
      simpl. now apply Hno. }
  destruct (scan_members files [] None) as [jf md] eqn:Hs.
  destruct (Hscan jf md eq_refl) as [-> | ->].
  - reflexivity.
  - destruct jf; reflexivity.
Qed.

(* ------------------------------------------------------------------ *)
(** *** Entries that no identifier names *)

Lemma check_slice_other_name (report_id : string) (num_hosts : Z) (file : TarInfo)
    (report_files : list pyval) (w : world) :
  str_contains report_id (name file) = false ->
  check_slice E report_id num_hosts file report_files w = (Ok report_files, w).
Proof. intros H. unfold check_slice. now rewrite H. Qed.

Lemma for_files_no_match (report_id : string) (num_hosts : Z) (json_files : list TarInfo)
    (report_files : list pyval) (w : world) :
  (forall file, In file json_files -> str_contains report_id (name file) = false) ->
  for_each (check_slice E report_id num_hosts) json_files report_files w = (Ok report_files, w).
Proof.
  induction json_files as [|file rest IH]; intros H; simpl; [reflexivity|].
  unfold bind. rewrite check_slice_other_name by (apply H; now left).
  apply IH. intros f Hf. apply H. now right.
Qed.

Lemma collect_slices_no_match (valid_slice_ids : list (string * Z)) (json_files : list TarInfo)
    (w : world) :
  (forall id n file, In (id, n) valid_slice_ids -> In file json_files ->
                     str_contains id (name file) = false) ->
  collect_slices E valid_slice_ids json_files w = (Ok [], w).
Proof.
  unfold collect_slices. generalize (@nil pyval) as acc.
  induction valid_slice_ids as [|[id n] rest IH]; intros acc H; simpl; [reflexivity|].
  unfold bind. rewrite for_files_no_match by (intros f Hf; apply (H id n); [now left|assumption]).
  apply IH. intros id' n' f Hin Hf. apply (H id' n'); [now right|assumption].
Qed.

(** C5, as the code has it.  When the scan found a manifest entry and data
    entries and the validator accepted the manifest, but no identifier of the
    manifest occurs in the name of any data entry, the extraction returns the
    empty list of accepted slices; it does not raise. *)
Theorem unmatched_manifest_yields_empty_list
    (report_tar : list byte) (files json_files : list TarInfo) (metadata_file : TarInfo)
    (valid_slice_ids : list (string * Z)) (stored : option pyval)
    (request_obj : request) (w : world) :
  tarfile_open E report_tar = Ok files ->
  scan_members files [] None = (json_files, Some metadata_file) ->
  json_files <> [] ->
  validate_metadata_file E files metadata_file request_obj = Ok (valid_slice_ids, stored) ->
  (forall id n file, In (id, n) valid_slice_ids -> In file json_files ->
                     str_contains id (name file) = false) ->
  extract_report_slices E report_tar request_obj w
  = (Ok (Some ([], with_report_platform_id request_obj stored)), w).
Proof.
  intros Hopen Hscan Hne Hval Hno.
  unfold extract_report_slices, open_and_extract. run_monad.
  rewrite Hopen, Hscan.
  destruct json_files as [|file rest]; [contradiction|].
  unfold validate_and_collect. run_monad. rewrite Hval.
  rewrite collect_slices_no_match by assumption.
  reflexivity.
Qed.

End Extraction.

(* ------------------------------------------------------------------ *)
(** *** One data entry against one pair of the manifest *)

Lemma differs_from_str_false (v : pyval) (s : string) :
  differs_from_str v s = false <-> v = PStr s.
Proof.
  destruct v; simpl; try (split; [discriminate|discriminate]).
  rewrite negb_false_iff, String.eqb_eq. split; [now intros ->|now intros [= ->]].
Qed.

Section Validation.

Variable E : env.

Lemma kind_of_entry_document (file : TarInfo) (d : dict) (n : nat) :
  kind_of_entry E file = SliceDocument d n ->
  exists b text,
    extractfile file = Content b /\ utf8_decode E b = Some text /\
    json_loads E text = Some (PDict d) /\
    py_len (dict_get d "hosts" (PDict [])) = Some n.
Proof.
  unfold kind_of_entry. intros H.
  destruct (extractfile file) as [| | |b]; try discriminate.
  destruct (utf8_decode E b) as [text|] eqn:Hd; try discriminate.
  destruct (json_loads E text) as [[| | | | | |d']|] eqn:Hl; try discriminate.
  destruct (py_len (dict_get d' "hosts" (PDict []))) as [k|] eqn:Hn; try discriminate.
  injection H as -> ->. now exists b, text.
Qed.

(** What [check_slice] does with a well-formed document whose name matches. *)
Lemma check_slice_document (report_id : string) (num_hosts : Z) (file : TarInfo)
    (report_files : list pyval) (w : world) (d : dict) (n : nat) :
  str_contains report_id (name file) = true ->
  kind_of_entry E file = SliceDocument d n ->
  let mismatch_id := differs_from_str (dict_get d "report_slice_id" (PStr "")) report_id in
  let mismatch_count := negb (Z.of_nat n =? num_hosts) in
  check_slice E report_id num_hosts file report_files w
  = if mismatch_id || mismatch_count
    then (Ok report_files,
          add_logs w [InfoDecoding (name file); InfoDecoded (name file);
                      WarningMismatch mismatch_id mismatch_count])
    else (Ok (report_files ++ [PDict d]),
          add_logs w [InfoDecoding (name file); InfoDecoded (name file)]).
Proof.
  intros Hname Hkind.
  destruct (kind_of_entry_document _ Hkind) as (b & text & Hx & Hd & Hl & Hn).
  unfold check_slice, tar_extractfile, read, decode, loads. rewrite Hname, Hx.
  run_monad. rewrite Hd. cbn. rewrite Hl. cbn. rewrite Hn.
  unfold add_logs. cbn.
  destruct (differs_from_str _ report_id || negb (Z.of_nat n =? num_hosts)); cbn;
    rewrite <- ?app_assoc; reflexivity.
Qed.

End Validation.

(* ------------------------------------------------------------------ *)
(** *** Loops whose result does not depend on the world *)

Lemma for_each_outcome_ext {A S : Type} (body1 body2 : A -> S -> M S) :
  (forall x s w1 w2, outcome (body1 x s) w1 = outcome (body2 x s) w2) ->
  forall items s w1 w2,
    outcome (for_each body1 items s) w1 = outcome (for_each body2 items s) w2.
Proof.
  intros Hbody. induction items as [|x rest IH]; intros s w1 w2; [reflexivity|].
  unfold outcome in *. simpl. unfold bind.
  specialize (Hbody x s w1 w2).
  destruct (body1 x s w1) as [[s1|e1] w1'], (body2 x s w2) as [[s2|e2] w2'];
    simpl in Hbody; try discriminate.
  - injection Hbody as ->. apply IH.
  - exact Hbody.
Qed.

(** An item whose body returns the state as it came can be dropped from the
    loop without changing what the loop returns. *)
Lemma for_each_skip {A S : Type} (body : A -> S -> M S) (x : A) :
  (forall y s, world_independent (body y s)) ->
  (forall s w, outcome (body x s) w = Ok s) ->
  forall before after s w1 w2,
    outcome (for_each body (before ++ x :: after) s) w1
    = outcome (for_each body (before ++ after) s) w2.
Proof.
  intros Hind Hskip. induction before as [|y rest IH]; intros after s w1 w2.
  - unfold outcome in *. simpl. unfold bind.
    specialize (Hskip s w1). destruct (body x s w1) as [[s'|e] w1']; simpl in Hskip;
      [|discriminate].
    injection Hskip as ->.
    apply (for_each_outcome_ext body body); intros; apply Hind.
  - unfold outcome in *. simpl. unfold bind.
    pose proof (Hind y s w1 w2) as Hy. unfold outcome in Hy.
    destruct (body y s w1) as [[s1|e1] w1'], (body y s w2) as [[s2|e2] w2'];
      simpl in Hy; try discriminate.
    + injection Hy as ->. apply IH.
    + exact Hy.
Qed.

Section DecodeAndParse.

Variable E : env.

Lemma check_slice_world_independent (report_id : string) (num_hosts : Z) (file : TarInfo)
    (report_files : list pyval) :
  world_independent (check_slice E report_id num_hosts file report_files).
Proof.
  intros w1 w2. unfold outcome, check_slice, tar_extractfile, read, decode, loads.
  destruct (str_contains report_id (name file)); [|reflexivity].
  run_monad.
  destruct (extractfile file) as [e| |e|b]; cbn; try reflexivity.
  - destruct (catches ExceptUnicodeDecodeError e); reflexivity.
  - destruct (utf8_decode E b) as [text|]; unfold catches; cbn; [|reflexivity].
    destruct (json_loads E text) as [[| | | | | |d]|]; cbn; try reflexivity.
    destruct (py_len (dict_get d "hosts" (PDict []))) as [n|]; cbn; [|reflexivity].
    destruct (differs_from_str _ report_id || negb (Z.of_nat n =? num_hosts)); reflexivity.
Qed.

(** What [check_slice] does with an entry that is not UTF-8. *)
Lemma check_slice_undecodable (report_id : string) (num_hosts : Z) (file : TarInfo)
    (report_files : list pyval) (w : world) :
  kind_of_entry E file = Undecodable ->
  check_slice E report_id num_hosts file report_files w
  = (Ok report_files,
     if str_contains report_id (name file)
     then add_logs w [InfoDecoding (name file); ExceptionDecode (name file)]
     else w).
Proof.
  unfold kind_of_entry. intros Hkind.
  destruct (extractfile file) as [| | |b] eqn:Hx; try discriminate.
  destruct (utf8_decode E b) as [text|] eqn:Hd.
  { destruct (json_loads E text) as [[| | | | | |d]|]; try discriminate.
    destruct (py_len (dict_get d "hosts" (PDict []))); discriminate. }
  unfold check_slice, tar_extractfile, read, decode.
  destruct (str_contains report_id (name file)); [|reflexivity].
  rewrite Hx. run_monad. rewrite Hd. unfold catches, add_logs. cbn.
  rewrite <- app_assoc. reflexivity.
Qed.

(** What [check_slice] does with a matching entry whose text does not parse. *)
Lemma check_slice_not_json (report_id : string) (num_hosts : Z) (file : TarInfo)
    (report_files : list pyval) (w : world) :
  str_contains report_id (name file) = true ->
  kind_of_entry E file = NotJSON ->
  check_slice E report_id num_hosts file report_files w
  = (Raise (Exc JSONDecodeError []),
     add_logs w [InfoDecoding (name file); InfoDecoded (name file)]).
Proof.
  unfold kind_of_entry. intros Hname Hkind.
  destruct (extractfile file) as [| | |b] eqn:Hx; try discriminate.
  destruct (utf8_decode E b) as [text|] eqn:Hd; try discriminate.
  destruct (json_loads E text) as [[| | | | | |d]|] eqn:Hl; try discriminate.
  { destruct (py_len (dict_get d "hosts" (PDict []))); discriminate. }
  unfold check_slice, tar_extractfile, read, decode, loads.
  rewrite Hname, Hx. run_monad. rewrite Hd. cbn. rewrite Hl. unfold add_logs. cbn.
  rewrite <- app_assoc. reflexivity.
Qed.

(** An entry that is not irregular either extends the accepted slices, is
    skipped, or fails to parse. *)
Lemma check_slice_regular (report_id : string) (num_hosts : Z) (file : TarInfo)
    (report_files : list pyval) (w : world) :
  (str_contains report_id (name file) = true -> kind_of_entry E file <> Irregular) ->
  (exists report_files' w',
      check_slice E report_id num_hosts file report_files w = (Ok report_files', w') /\
      (str_contains report_id (name file) = true -> kind_of_entry E file <> NotJSON))
  \/ (exists w',
         check_slice E report_id num_hosts file report_files w
         = (Raise (Exc JSONDecodeError []), w')).
Proof.
  intros Hreg.
  destruct (str_contains report_id (name file)) eqn:Hname.
  2:{ left. exists report_files, w. split; [|discriminate].
      unfold check_slice. now rewrite Hname. }
  specialize (Hreg eq_refl).
  destruct (kind_of_entry E file) as [| |d n|] eqn:Hkind.
  - left. rewrite check_slice_undecodable by assumption.
    do 2 eexists. split; [reflexivity|discriminate].
  - right. rewrite check_slice_not_json by assumption. eexists. reflexivity.
  - left. rewrite (@check_slice_document E report_id num_hosts file report_files w d n Hname Hkind).
    cbv zeta.
    destruct (differs_from_str _ report_id || negb (Z.of_nat n =? num_hosts));
      do 2 eexists; (split; [reflexivity|discriminate]).
  - contradiction.
Qed.

Lemma for_files_parse_failure (report_id : string) (num_hosts : Z) (json_files : list TarInfo)
    (file : TarInfo) (report_files : list pyval) (w : world) :
  (forall f, In f json_files -> str_contains report_id (name f) = true ->
             kind_of_entry E f <> Irregular) ->
  In file json_files ->
  str_contains report_id (name file) = true ->
  kind_of_entry E file = NotJSON ->
  exists w',
    for_each (check_slice E report_id num_hosts) json_files report_files w
    = (Raise (Exc JSONDecodeError []), w').
Proof.
  intros Hreg Hin Hname Hkind. revert report_files w.
  induction json_files as [|f rest IH]; intros report_files w; [contradiction|].
  simpl. unfold bind.
  destruct (@check_slice_regular report_id num_hosts f report_files w) as
    [(acc & w1 & Hc & Hok)|(w1 & Hc)].
  - intros Hf. apply Hreg; [now left|assumption].
  - rewrite Hc. destruct Hin as [->|Hin].
    + exfalso. now apply Hok.
    + apply IH; [|assumption]. intros g Hg. apply Hreg. now right.
  - rewrite Hc. now exists w1.
Qed.

(** Without irregular entries the loop over the data entries either completes
    or stops at a text that does not parse. *)
Lemma for_files_regular (report_id : string) (num_hosts : Z) (json_files : list TarInfo)
    (report_files : list pyval) (w : world) :
  (forall f, In f json_files -> str_contains report_id (name f) = true ->
             kind_of_entry E f <> Irregular) ->
  (exists report_files' w',
      for_each (check_slice E report_id num_hosts) json_files report_files w
      = (Ok report_files', w'))
  \/ (exists w',
         for_each (check_slice E report_id num_hosts) json_files report_files w
         = (Raise (Exc JSONDecodeError []), w')).
Proof.
  intros Hreg. revert report_files w.
  induction json_files as [|f rest IH]; intros report_files w.
  - left. now exists report_files, w.
  - simpl. unfold bind.
    destruct (@check_slice_regular report_id num_hosts f report_files w) as
      [(acc & w1 & Hc & _)|(w1 & Hc)].
    + intros Hf. apply Hreg; [now left|assumption].
    + rewrite Hc. apply IH. intros g Hg. apply Hreg. now right.
    + rewrite Hc. right. now exists w1.
Qed.

Lemma collect_slices_parse_failure (valid_slice_ids : list (string * Z))
    (json_files : list TarInfo) (report_id : string) (num_hosts : Z) (file : TarInfo)
    (w : world) :
  (forall id n f, In (id, n) valid_slice_ids -> In f json_files ->
                  str_contains id (name f) = true -> kind_of_entry E f <> Irregular) ->
  In (report_id, num_hosts) valid_slice_ids ->
  In file json_files ->
  str_contains report_id (name file) = true ->
  kind_of_entry E file = NotJSON ->
  exists w', collect_slices E valid_slice_ids json_files w = (Raise (Exc JSONDecodeError []), w').
Proof.
  intros Hreg Hm Hin Hname Hkind. unfold collect_slices.
  generalize (@nil pyval) as acc. revert w.
  induction valid_slice_ids as [|[id n] rest IH]; intros w acc; [contradiction|].
  simpl. unfold bind.
  destruct Hm as [[= -> ->]|Hm].
  - destruct (@for_files_parse_failure report_id num_hosts json_files file acc w)
      as [w1 Hc]; try assumption.
    + intros f Hf. apply (Hreg report_id num_hosts); [now left|assumption].
    + rewrite Hc. now exists w1.
  - destruct (@for_files_regular id n json_files acc w) as [(acc' & w1 & Hc)|(w1 & Hc)].
    + intros f Hf. apply (Hreg id n); [now left|assumption].
    + rewrite Hc. apply IH; [|assumption].
      intros id' n' f Hi Hf. apply (Hreg id' n'); [now right|assumption].
    + rewrite Hc. now exists w1.
Qed.

(** A loop that completes has met no matching entry whose text does not
    parse, whatever the other entries are. *)
Lemma for_files_completed (report_id : string) (num_hosts : Z) (json_files : list TarInfo)
    (file : TarInfo) (report_files report_files' : list pyval) (w w' : world) :
  In file json_files ->
  str_contains report_id (name file) = true ->
  kind_of_entry E file = NotJSON ->
  for_each (check_slice E report_id num_hosts) json_files report_files w
  <> (Ok report_files', w').
Proof.
  intros Hin Hname Hkind. revert report_files w.
  induction json_files as [|f rest IH]; intros report_files w; [contradiction|].
  simpl. unfold bind. destruct Hin as [->|Hin].
  - rewrite check_slice_not_json by assumption. discriminate.
  - destruct (check_slice E report_id num_hosts f report_files w) as [[acc|e] w1];
      [now apply IH|discriminate].
Qed.

Lemma collect_slices_completed (valid_slice_ids : list (string * Z))
    (json_files : list TarInfo) (report_id : string) (num_hosts : Z) (file : TarInfo)
    (report_files : list pyval) (w w' : world) :
  In (report_id, num_hosts) valid_slice_ids ->
  In file json_files ->
  str_contains report_id (name file) = true ->
  kind_of_entry E file = NotJSON ->
  collect_slices E valid_slice_ids json_files w <> (Ok report_files, w').
Proof.
  intros Hm Hin Hname Hkind. unfold collect_slices.
  generalize (@nil pyval) as acc. revert w.
  induction valid_slice_ids as [|[id n] rest IH]; intros w acc; [contradiction|].
  simpl. unfold bind. destruct Hm as [[= -> ->]|Hm].
  - destruct (for_each (check_slice E report_id num_hosts) json_files acc w)
      as [[acc'|e] w1] eqn:Hc; [|discriminate].
    exfalso. exact (@for_files_completed _ _ _ _ _ _ _ _ Hin Hname Hkind Hc).
  - destruct (for_each (check_slice E id n) json_files acc w) as [[acc'|e] w1];
      [now apply IH|discriminate].
Qed.

End DecodeAndParse.

Section DecodeVersusParse.

Variable E : env.

(** C8.  A data entry whose bytes are not UTF-8 is skipped on its own:
    [check_slice] returns the accepted slices as they came without raising,
    and the extraction loop returns what it returns on the archive without
    that entry, so the sibling entries are examined as usual.  A matching
    entry whose decoded text does not parse makes [check_slice] raise, and,
    the other matching entries being regular, the whole extraction raises
    [FailExtractException]; whatever the other entries are, an extraction that
    meets such an entry never returns a list of accepted slices. *)
Theorem decode_failure_skips_parse_failure_aborts :
  (forall file : TarInfo,
      kind_of_entry E file = Undecodable ->
      (forall report_id num_hosts report_files w,
          exists w',
            check_slice E report_id num_hosts file report_files w = (Ok report_files, w') /\
            sent w' = sent w)
      /\
      (forall valid_slice_ids before after w1 w2,
          outcome (collect_slices E valid_slice_ids (before ++ file :: after)) w1
          = outcome (collect_slices E valid_slice_ids (before ++ after)) w2))
  /\
  (forall (file : TarInfo) (report_id : string) (num_hosts : Z),
      str_contains report_id (name file) = true ->
      kind_of_entry E file = NotJSON ->
      (forall report_files w,
          exists w',
            check_slice E report_id num_hosts file report_files w
            = (Raise (Exc JSONDecodeError []), w'))
      /\
      (forall (report_tar : list byte) (files json_files : list TarInfo)
              (metadata_file : TarInfo) (valid_slice_ids : list (string * Z))
              (stored : option pyval) (request_obj : request) (w : world),
          tarfile_open E report_tar = Ok files ->
          scan_members files [] None = (json_files, Some metadata_file) ->
          validate_metadata_file E files metadata_file request_obj
          = Ok (valid_slice_ids, stored) ->
          (forall id n f, In (id, n) valid_slice_ids -> In f json_files ->
                          str_contains id (name f) = true ->
                          kind_of_entry E f <> Irregular) ->
          In (report_id, num_hosts) valid_slice_ids ->
          In file json_files ->
          exists w',
            extract_report_slices E report_tar request_obj w
            = (Raise (not_valid_json request_obj (Exc JSONDecodeError [])), w'))
      /\
      (forall (report_tar : list byte) (files json_files : list TarInfo)
              (metadata_file : TarInfo) (valid_slice_ids : list (string * Z))
              (stored : option pyval) (request_obj request_obj' : request)
              (accepted : list pyval) (w w' : world),
          tarfile_open E report_tar = Ok files ->
          scan_members files [] None = (json_files, Some metadata_file) ->
          validate_metadata_file E files metadata_file request_obj
          = Ok (valid_slice_ids, stored) ->
          In (report_id, num_hosts) valid_slice_ids ->
          In file json_files ->
          extract_report_slices E report_tar request_obj w
          <> (Ok (Some (accepted, request_obj')), w'))).
Proof.
  split.
  - intros file Hkind. split.
    + intros report_id num_hosts report_files w.
      rewrite check_slice_undecodable by assumption.
      eexists. split; [reflexivity|].
      destruct (str_contains report_id (name file)); reflexivity.
    + intros valid_slice_ids before after w1 w2. unfold collect_slices.
      apply for_each_outcome_ext. intros item s w1' w2'.
      apply for_each_skip.
      * intros y s'. apply check_slice_world_independent.
      * intros s' w'. unfold outcome. now rewrite check_slice_undecodable.
  - intros file report_id num_hosts Hname Hkind. split; [|split].
    + intros report_files w. rewrite check_slice_not_json by assumption.
      eexists. reflexivity.
    + intros report_tar files json_files metadata_file valid_slice_ids stored request_obj w
             Hopen Hscan Hval Hreg Hm Hin.
      destruct (@collect_slices_parse_failure E valid_slice_ids json_files report_id num_hosts
                  file w Hreg Hm Hin Hname Hkind) as [w' Hc].
      exists w'.
      unfold extract_report_slices, open_and_extract. run_monad.
      rewrite Hopen, Hscan.
      destruct json_files as [|f0 rest0]; [contradiction|].
      unfold validate_and_collect. run_monad. rewrite Hval, Hc.
      reflexivity.
    + intros report_tar files json_files metadata_file valid_slice_ids stored
             request_obj request_obj' accepted w w' Hopen Hscan Hval Hm Hin.
      unfold extract_report_slices, open_and_extract. run_monad.
      rewrite Hopen, Hscan.
      destruct json_files as [|f0 rest0]; [contradiction|].
      unfold validate_and_collect. run_monad. rewrite Hval.
      destruct (collect_slices E valid_slice_ids (f0 :: rest0) w) as [[l|e] w1] eqn:Hc.
      * exfalso. exact (@collect_slices_completed E _ _ _ _ _ _ _ _ Hm Hin Hname Hkind Hc).
      * destruct (catches ExceptValueError e).
        -- unfold catches; cbn. discriminate.
        -- destruct (catches ExceptFailExtractException e); [discriminate|].
           destruct (catches ExceptReadError e); discriminate.
Qed.

End DecodeVersusParse.

Section UnexpectedErrors.

Variable E : env.

(** C10.  An exception that is neither a [FailExtractException], nor a
    [tarfile.ReadError], nor a [ValueError], wherever it arises during the
    extraction (opening the archive, validating the manifest, or examining a
    data entry, reading a member included), does not leave
    [extract_report_slices]: the error is logged and the function returns
    [None], and [process_report], iterating over [None], raises
    [TypeError]. *)
Theorem unexpected_error_returns_None (e : exc) :
  unexpected e ->
  (forall report_tar request_obj w,
      tarfile_open E report_tar = Raise e ->
      extract_report_slices E report_tar request_obj w
      = (Ok None, add_logs w [ErrorUnexpected e]))
  /\
  (forall report_tar files json_files metadata_file request_obj w,
      tarfile_open E report_tar = Ok files ->
      scan_members files [] None = (json_files, Some metadata_file) ->
      json_files <> [] ->
      (validate_metadata_file E files metadata_file request_obj = Raise e ->
       extract_report_slices E report_tar request_obj w
       = (Ok None, add_logs w [ErrorUnexpected e]))
      /\
      (forall valid_slice_ids stored w',
          validate_metadata_file E files metadata_file request_obj
          = Ok (valid_slice_ids, stored) ->
          collect_slices E valid_slice_ids json_files w = (Raise e, w') ->
          extract_report_slices E report_tar request_obj w
          = (Ok None, add_logs w' [ErrorUnexpected e])))
  /\
  (forall consumed_message report_tar w w1 w2,
      download_report E consumed_message w = (Ok report_tar, w1) ->
      extract_report_slices E report_tar (new_request_obj consumed_message) w1
      = (Ok None, w2) ->
      process_report E consumed_message w = (Raise (Exc TypeError []), w2)).
Proof.
  intros (Hfail & Hread & Hvalue). split; [|split].
  - intros report_tar request_obj w Hopen.
    unfold extract_report_slices, open_and_extract. run_monad.
    rewrite Hopen, Hfail, Hread. reflexivity.
  - intros report_tar files json_files metadata_file request_obj w Hopen Hscan Hne.
    destruct json_files as [|f0 rest0]; [contradiction|]. split.
    + intros Hval.
      unfold extract_report_slices, open_and_extract. run_monad.
      rewrite Hopen, Hscan.
      unfold validate_and_collect. run_monad.
      rewrite Hval, Hvalue, Hfail, Hread. reflexivity.
    + intros valid_slice_ids stored w' Hval Hc.
      unfold extract_report_slices, open_and_extract. run_monad.
      rewrite Hopen, Hscan.
      unfold validate_and_collect. run_monad.
      rewrite Hval, Hc, Hvalue, Hfail, Hread. reflexivity.
  - intros consumed_message report_tar w w1 w2 Hdown Hextract.
    unfold process_report. run_monad. rewrite Hdown, Hextract. reflexivity.
Qed.

(** A member whose [read] raises makes [check_slice] raise the same exception,
    unless it is a [UnicodeDecodeError]. *)
Lemma check_slice_read_fails (report_id : string) (num_hosts : Z) (file : TarInfo)
    (report_files : list pyval) (w : world) (e : exc) :
  str_contains report_id (name file) = true ->
  extractfile file = ReadFails e ->
  catches ExceptUnicodeDecodeError e = false ->
  check_slice E report_id num_hosts file report_files w
  = (Raise e, add_logs w [InfoDecoding (name file)]).
Proof.
  intros Hname Hx Hu. unfold check_slice, tar_extractfile, read.
  rewrite Hname, Hx. run_monad. now rewrite Hu.
Qed.

End UnexpectedErrors.

(* ------------------------------------------------------------------ *)
(** *** What the entries contribute to the accepted slices *)

Section AcceptedFrom.

Variable E : env.

(** A completed [check_slice] has appended what the entry contributes for
    the pair of the manifest, and nothing else. *)
Lemma check_slice_appends (report_id : string) (num_hosts : Z) (file : TarInfo)
    (report_files report_files' : list pyval) (w w' : world) :
  check_slice E report_id num_hosts file report_files w = (Ok report_files', w') ->
  report_files' = report_files ++ accepted_from E report_id num_hosts file.
Proof.
  unfold check_slice, accepted_from, kind_of_entry, tar_extractfile, read, decode, loads.
  destruct (str_contains report_id (name file)).
  2:{ intros [= <- _]. now rewrite app_nil_r. }
  run_monad.
  destruct (extractfile file) as [e| |e|b]; cbn; try discriminate.
  - destruct (catches ExceptUnicodeDecodeError e); cbn; [|discriminate].
    intros [= <- _]. now rewrite app_nil_r.
  - destruct (utf8_decode E b) as [text|]; unfold catches; cbn.
    2:{ intros [= <- _]. now rewrite app_nil_r. }
    destruct (json_loads E text) as [[| | | | | |d]|]; cbn; try discriminate.
    destruct (py_len (dict_get d "hosts" (PDict []))) as [k|]; cbn; try discriminate.
    destruct (differs_from_str (dict_get d "report_slice_id" (PStr "")) report_id
              || negb (Z.of_nat k =? num_hosts)); cbn; intros [= <- _];
      [now rewrite app_nil_r|reflexivity].
Qed.

Lemma for_files_appends (report_id : string) (num_hosts : Z) (json_files : list TarInfo)
    (report_files report_files' : list pyval) (w w' : world) :
  for_each (check_slice E report_id num_hosts) json_files report_files w
  = (Ok report_files', w') ->
  report_files' = report_files ++ flat_map (accepted_from E report_id num_hosts) json_files.
Proof.
  revert report_files w.
  induction json_files as [|file rest IH]; intros report_files w; simpl.
  - intros [= <- _]. now rewrite app_nil_r.
  - unfold bind.
    destruct (check_slice E report_id num_hosts file report_files w) as [[acc|e] w1] eqn:Hc;
      [|discriminate].
    intros Hrest. apply IH in Hrest. apply check_slice_appends in Hc.
    rewrite Hrest, Hc. now rewrite app_assoc.
Qed.

Lemma collect_slices_appends (valid_slice_ids : list (string * Z))
    (json_files : list TarInfo) (report_files : list pyval) (w w' : world) :
  collect_slices E valid_slice_ids json_files w = (Ok report_files, w') ->
  report_files = accepted_slices E valid_slice_ids json_files.
Proof.
  unfold collect_slices, accepted_slices.
  rewrite <- (app_nil_l (flat_map _ valid_slice_ids)).
  generalize (@nil pyval) as acc. revert w.
  induction valid_slice_ids as [|[id n] rest IH]; intros w acc; simpl.
  - intros [= <- _]. now rewrite app_nil_r.
  - unfold bind.
    destruct (for_each (check_slice E id n) json_files acc w) as [[acc'|e] w1] eqn:Hc;
      [|discriminate].
    intros Hrest. apply IH in Hrest. apply for_files_appends in Hc.
    rewrite Hrest, Hc. now rewrite app_assoc.
Qed.

(** The list a completed extraction returns. *)
Lemma extraction_result (report_tar : list byte) (files json_files : list TarInfo)
    (metadata_file : TarInfo) (valid_slice_ids : list (string * Z)) (stored : option pyval)
    (request_obj request_obj' : request) (accepted : list pyval) (w w' : world) :
  tarfile_open E report_tar = Ok files ->
  scan_members files [] None = (json_files, Some metadata_file) ->
  validate_metadata_file E files metadata_file request_obj = Ok (valid_slice_ids, stored) ->
  extract_report_slices E report_tar request_obj w = (Ok (Some (accepted, request_obj')), w') ->
  accepted = accepted_slices E valid_slice_ids json_files.
Proof.
  intros Hopen Hscan Hval.
  unfold extract_report_slices, open_and_extract. run_monad.
  rewrite Hopen, Hscan.
  destruct json_files as [|f0 rest0].
  { unfold catches; cbn. discriminate. }
  unfold validate_and_collect. run_monad. rewrite Hval.
  destruct (collect_slices E valid_slice_ids (f0 :: rest0) w) as [[l|e] w1] eqn:Hloop.
  - intros [= <- _ _]. eapply collect_slices_appends. exact Hloop.
  - destruct (catches ExceptValueError e).
    + unfold catches; cbn. discriminate.
    + destruct (catches ExceptFailExtractException e); [discriminate|].
      destruct (catches ExceptReadError e); discriminate.
Qed.

(** What [check_slice] returns for an entry that is skipped or well formed. *)
Lemma check_slice_accepted_from (report_id : string) (num_hosts : Z) (file : TarInfo)
    (report_files : list pyval) (w : world) :
  (str_contains report_id (name file) = true ->
   kind_of_entry E file = Undecodable \/
   exists d k, kind_of_entry E file = SliceDocument d k) ->
  outcome (check_slice E report_id num_hosts file report_files) w
  = Ok (report_files ++ accepted_from E report_id num_hosts file).
Proof.
  intros Hkind. unfold outcome, accepted_from.
  destruct (str_contains report_id (name file)) eqn:Hname.
  2:{ rewrite check_slice_other_name by assumption. simpl. now rewrite app_nil_r. }
  destruct (Hkind eq_refl) as [Hu|(d & k & Hd)].
  - rewrite check_slice_undecodable by assumption. rewrite Hu. simpl. now rewrite app_nil_r.
  - rewrite (@check_slice_document E report_id num_hosts file report_files w d k Hname Hd).
    rewrite Hd. cbv zeta.
    destruct (differs_from_str _ report_id || negb (Z.of_nat k =? num_hosts)); simpl;
      [now rewrite app_nil_r|reflexivity].
Qed.

Lemma for_files_accepted_from (report_id : string) (num_hosts : Z) (json_files : list TarInfo)
    (report_files : list pyval) (w : world) :
  (forall file, In file json_files -> str_contains report_id (name file) = true ->
                kind_of_entry E file = Undecodable \/
                exists d k, kind_of_entry E file = SliceDocument d k) ->
  outcome (for_each (check_slice E report_id num_hosts) json_files report_files) w
  = Ok (report_files ++ flat_map (accepted_from E report_id num_hosts) json_files).
Proof.
  revert report_files w.
  induction json_files as [|file rest IH]; intros report_files w Hkind; simpl.
  - unfold outcome. simpl. now rewrite app_nil_r.
  - pose proof (@check_slice_accepted_from report_id num_hosts file report_files w
                  (Hkind file (or_introl eq_refl))) as Hc.
    unfold outcome in *. unfold bind.
    destruct (check_slice E report_id num_hosts file report_files w) as [[acc|e] w1];
      simpl in Hc; [|discriminate].
    injection Hc as ->. rewrite IH by (intros f Hf; apply Hkind; now right).
    now rewrite app_assoc.
Qed.

Lemma collect_slices_accepted (valid_slice_ids : list (string * Z))
    (json_files : list TarInfo) (w : world) :
  (forall id n file, In (id, n) valid_slice_ids -> In file json_files ->
                     str_contains id (name file) = true ->
                     kind_of_entry E file = Undecodable \/
                     exists d k, kind_of_entry E file = SliceDocument d k) ->
  outcome (collect_slices E valid_slice_ids json_files) w
  = Ok (accepted_slices E valid_slice_ids json_files).
Proof.
  unfold collect_slices, accepted_slices.
  rewrite <- (app_nil_l (flat_map _ valid_slice_ids)).
  generalize (@nil pyval) as acc. revert w.
  induction valid_slice_ids as [|[id n] rest IH]; intros w acc Hkind; simpl.
  - unfold outcome. simpl. now rewrite app_nil_r.
  - pose proof (@for_files_accepted_from id n json_files acc w
                  (fun f Hf => Hkind id n f (or_introl eq_refl) Hf)) as Hc.
    unfold outcome in *. unfold bind.
    destruct (for_each (check_slice E id n) json_files acc w) as [[acc'|e] w1];
      simpl in Hc; [|discriminate].
    injection Hc as ->.
    rewrite IH by (intros id' n' f Hi; apply (Hkind id' n' f); now right).
    now rewrite app_assoc.
Qed.

(** The extraction of an archive all of whose named entries are undecodable
    or well formed. *)
Lemma extraction_of_regular_entries (report_tar : list byte) (files json_files : list TarInfo)
    (metadata_file : TarInfo) (valid_slice_ids : list (string * Z)) (stored : option pyval)
    (request_obj : request) (w : world) :
  tarfile_open E report_tar = Ok files ->
  scan_members files [] None = (json_files, Some metadata_file) ->
  json_files <> [] ->
  validate_metadata_file E files metadata_file request_obj = Ok (valid_slice_ids, stored) ->
  (forall id n file, In (id, n) valid_slice_ids -> In file json_files ->
                     str_contains id (name file) = true ->
                     kind_of_entry E file = Undecodable \/
                     exists d k, kind_of_entry E file = SliceDocument d k) ->
  outcome (extract_report_slices E report_tar request_obj) w
  = Ok (Some (accepted_slices E valid_slice_ids json_files,
              with_report_platform_id request_obj stored)).
Proof.
  intros Hopen Hscan Hne Hval Hkind.
  pose proof (collect_slices_accepted valid_slice_ids json_files w Hkind) as Hc.
  unfold outcome in *.
  unfold extract_report_slices, open_and_extract. run_monad.
  rewrite Hopen, Hscan.
  destruct json_files as [|f0 rest0]; [contradiction|].
  unfold validate_and_collect. run_monad. rewrite Hval.
  destruct (collect_slices E valid_slice_ids (f0 :: rest0) w) as [[l|e] w1];
    simpl in Hc; [|discriminate].
  injection Hc as ->. reflexivity.
Qed.

(** The documents among the accepted slices. *)
Lemma in_accepted_from (report_id : string) (num_hosts : Z) (file : TarInfo) (d : dict) :
  In (PDict d) (accepted_from E report_id num_hosts file) <->
  str_contains report_id (name file) = true /\
  exists n, kind_of_entry E file = SliceDocument d n /\
            dict_get d "report_slice_id" (PStr "") = PStr report_id /\
            Z.of_nat n = num_hosts.
Proof.
  unfold accepted_from. split.
  - destruct (str_contains report_id (name file)); [|intros []].
    destruct (kind_of_entry E file) as [| |d' n|]; try (intros []).
    destruct (differs_from_str (dict_get d' "report_slice_id" (PStr "")) report_id
              || negb (Z.of_nat n =? num_hosts)) eqn:Hmis; [intros []|].
    intros [[= <-]|[]]. split; [reflexivity|]. exists n.
    apply orb_false_elim in Hmis. destruct Hmis as [Hid Hcount].
    apply differs_from_str_false in Hid. apply negb_false_iff, Z.eqb_eq in Hcount. auto.
  - intros (-> & n & -> & Hid & Hcount).
    apply differs_from_str_false in Hid. apply Z.eqb_eq in Hcount.
    rewrite Hid, Hcount. now left.
Qed.

Lemma in_accepted_slices (valid_slice_ids : list (string * Z)) (json_files : list TarInfo)
    (d : dict) :
  In (PDict d) (accepted_slices E valid_slice_ids json_files) <->
  exists id k file n,
    In (id, k) valid_slice_ids /\ In file json_files /\
    str_contains id (name file) = true /\
    kind_of_entry E file = SliceDocument d n /\
    dict_get d "report_slice_id" (PStr "") = PStr id /\
    Z.of_nat n = k.
Proof.
  unfold accepted_slices. rewrite in_flat_map. split.
  - intros ([id k] & Hpair & Hin). cbn [fst snd] in Hin.
    apply in_flat_map in Hin. destruct Hin as (file & Hfile & Hin).
    apply in_accepted_from in Hin. destruct Hin as (Hname & n & Hkind & Hid & Hcount).
    exists id, k, file, n. auto 6.
  - intros (id & k & file & n & Hpair & Hfile & Hname & Hkind & Hid & Hcount).
    exists (id, k). split; [exact Hpair|]. cbn [fst snd].
    apply in_flat_map. exists file. split; [exact Hfile|].
    apply in_accepted_from. split; [exact Hname|]. exists n. auto.
Qed.

End AcceptedFrom.

Section ManifestCrossCheck.

Variable E : env.

(** C7, as the code has it.  Take a pair [(report_id, num_hosts)] of the
    manifest and a data entry whose name contains [report_id] and whose text
    is a well-formed document.

    At the entry: if the document declares another identifier or its number
    of hosts is not [num_hosts], the entry adds nothing for this pair, nothing
    is raised and the loop goes on with the remaining entries; if it declares
    [report_id] and holds exactly [num_hosts] hosts, the parsed document
    itself is appended.

    For the extraction as a whole: the list it returns is the list of the
    documents accepted pair by pair and entry by entry, and it does return
    that list when every entry an identifier names is undecodable or well
    formed.  The document is in that list exactly when some pair of the
    manifest whose identifier occurs in the name of an entry holding the
    document agrees with the identifier and the number of hosts it declares:
    a document that disagrees with this pair is absent unless another pair
    accepts it, and one that agrees with this pair is present. *)
Theorem slice_accepted_iff_it_matches_manifest
    (report_id : string) (num_hosts : Z) (file : TarInfo) (d : dict) (n : nat) :
  str_contains report_id (name file) = true ->
  kind_of_entry E file = SliceDocument d n ->
  (dict_get d "report_slice_id" (PStr "") <> PStr report_id \/ Z.of_nat n <> num_hosts ->
   forall (rest : list TarInfo) (report_files : list pyval) (w : world),
   exists w',
     check_slice E report_id num_hosts file report_files w = (Ok report_files, w') /\
     sent w' = sent w /\
     for_each (check_slice E report_id num_hosts) (file :: rest) report_files w
     = for_each (check_slice E report_id num_hosts) rest report_files w')
  /\
  (dict_get d "report_slice_id" (PStr "") = PStr report_id -> Z.of_nat n = num_hosts ->
   forall (rest : list TarInfo) (report_files : list pyval) (w : world),
   exists w',
     check_slice E report_id num_hosts file report_files w
     = (Ok (report_files ++ [PDict d]), w') /\
     sent w' = sent w /\
     for_each (check_slice E report_id num_hosts) (file :: rest) report_files w
     = for_each (check_slice E report_id num_hosts) rest (report_files ++ [PDict d]) w')
  /\
  (forall (report_tar : list byte) (files json_files : list TarInfo) (metadata_file : TarInfo)
          (valid_slice_ids : list (string * Z)) (stored : option pyval)
          (request_obj : request) (w : world),
   tarfile_open E report_tar = Ok files ->
   scan_members files [] None = (json_files, Some metadata_file) ->
   In file json_files ->
   validate_metadata_file E files metadata_file request_obj = Ok (valid_slice_ids, stored) ->
   In (report_id, num_hosts) valid_slice_ids ->
   (forall accepted request_obj' w',
       extract_report_slices E report_tar request_obj w
       = (Ok (Some (accepted, request_obj')), w') ->
       accepted = accepted_slices E valid_slice_ids json_files)
   /\
   ((forall id k f, In (id, k) valid_slice_ids -> In f json_files ->
                    str_contains id (name f) = true ->
                    kind_of_entry E f = Undecodable \/
                    exists d' k', kind_of_entry E f = SliceDocument d' k') ->
    outcome (extract_report_slices E report_tar request_obj) w
    = Ok (Some (accepted_slices E valid_slice_ids json_files,
                with_report_platform_id request_obj stored)))
   /\
   (In (PDict d) (accepted_slices E valid_slice_ids json_files) <->
    exists id f,
      In (id, Z.of_nat n) valid_slice_ids /\ In f json_files /\
      str_contains id (name f) = true /\
      kind_of_entry E f = SliceDocument d n /\
      dict_get d "report_slice_id" (PStr "") = PStr id)
   /\
   (dict_get d "report_slice_id" (PStr "") = PStr report_id -> Z.of_nat n = num_hosts ->
    In (PDict d) (accepted_slices E valid_slice_ids json_files))).
Proof.
  intros Hname Hkind. split; [|split].
  - intros Hmis rest report_files w.
    pose proof (@check_slice_document E report_id num_hosts file report_files w d n Hname Hkind)
      as Hc.
    cbv zeta in Hc.
    assert (Hb : differs_from_str (dict_get d "report_slice_id" (PStr "")) report_id
                 || negb (Z.of_nat n =? num_hosts) = true).
    { destruct Hmis as [Hid|Hcount].
      - destruct (differs_from_str (dict_get d "report_slice_id" (PStr "")) report_id) eqn:Hd;
          [reflexivity|].
        apply differs_from_str_false in Hd. contradiction.
      - apply Z.eqb_neq in Hcount. rewrite Hcount. apply orb_true_r. }
    rewrite Hb in Hc. eexists. split; [exact Hc|]. split; [reflexivity|].
    simpl. unfold bind. now rewrite Hc.
  - intros Hid Hcount rest report_files w.
    pose proof (@check_slice_document E report_id num_hosts file report_files w d n Hname Hkind)
      as Hc.
    cbv zeta in Hc.
    apply differs_from_str_false in Hid. rewrite Hid in Hc.
    apply Z.eqb_eq in Hcount. rewrite Hcount in Hc. cbn in Hc.
    eexists. split; [exact Hc|]. split; [reflexivity|].
    simpl. unfold bind. now rewrite Hc.
  - intros report_tar files json_files metadata_file valid_slice_ids stored request_obj w
           Hopen Hscan Hin Hval Hm.
    assert (Hlen : py_len (dict_get d "hosts" (PDict [])) = Some n).
    { destruct (@kind_of_entry_document E file d n Hkind) as (b & text & _ & _ & _ & Hl).
      exact Hl. }
    split; [|split; [|split]].
    + intros accepted request_obj' w' Hx.
      eapply extraction_result; eassumption.
    + intros Hregular.
      eapply extraction_of_regular_entries; try eassumption.
      intros ->. contradiction.
    + rewrite in_accepted_slices. split.
      * intros (id & k & f & m & Hpair & Hf & Hn & Hk & Hid & Hcount).
        destruct (@kind_of_entry_document E f d m Hk) as (b & text & _ & _ & _ & Hlen').
        rewrite Hlen in Hlen'. injection Hlen' as <-. subst k.
        exists id, f. auto 6.
      * intros (id & f & Hpair & Hf & Hn & Hk & Hid).
        exists id, (Z.of_nat n), f, n. auto 7.
    + intros Hid Hcount. apply in_accepted_slices.
      exists report_id, num_hosts, file, n. auto 7.
Qed.

End ManifestCrossCheck.

(* ------------------------------------------------------------------ *)
(** *** What a computation publishes *)

Lemma spec_ret {A : Type} (P : pyval -> Prop) (Q : A -> Prop) (a : A) :
  Q a -> spec P Q (ret a).
Proof.
  intros HQ w. split.
  - exists []. split; [unfold published; simpl; now rewrite app_nil_r|constructor].
  - unfold outcome. simpl. now intros ? [= <-].
Qed.

Lemma spec_raise {A : Type} (P : pyval -> Prop) (Q : A -> Prop) (e : exc) :
  spec P Q (raise e).
Proof.
  intros w. split.
  - exists []. split; [unfold published; simpl; now rewrite app_nil_r|constructor].
  - unfold outcome. simpl. discriminate.
Qed.

Lemma spec_lift {A : Type} (P : pyval -> Prop) (Q : A -> Prop) (r : result A) :
  (forall a, r = Ok a -> Q a) -> spec P Q (lift r).
Proof.
  intros HQ w. split.
  - exists []. split; [unfold published; simpl; now rewrite app_nil_r|constructor].
  - unfold outcome. simpl. exact HQ.
Qed.

Lemma spec_LOG (P : pyval -> Prop) (Q : unit -> Prop) (ev : log_event) :
  Q tt -> spec P Q (LOG ev).
Proof.
  intros HQ w. split.
  - exists []. split; [unfold published; simpl; now rewrite app_nil_r|constructor].
  - unfold outcome. simpl. now intros [] _.
Qed.

Lemma spec_bind {A B : Type} (P : pyval -> Prop) (Q1 : A -> Prop) (Q2 : B -> Prop)
    (c : M A) (k : A -> M B) :
  spec P Q1 c -> (forall a, Q1 a -> spec P Q2 (k a)) -> spec P Q2 (bind c k).
Proof.
  intros Hc Hk w. destruct (Hc w) as [(m1 & Hp1 & Hf1) Hq1].
  unfold published, outcome, bind in *.
  destruct (c w) as [[a|e] w1]; simpl in *.
  - destruct (Hk a (Hq1 a eq_refl) w1) as [(m2 & Hp2 & Hf2) Hq2]. split.
    + exists (m1 ++ m2). split.
      * unfold published in Hp2. rewrite Hp2, Hp1. now rewrite app_assoc.
      * apply Forall_app. now split.
    + exact Hq2.
  - split; [now exists m1|discriminate].
Qed.

Lemma select_clause_in {A : Type} (clauses : list (handler * (exc -> M A))) (e : exc)
    (on_error : M A) :
  select_clause clauses e = Some on_error ->
  exists h f, In (h, f) clauses /\ on_error = f e.
Proof.
  induction clauses as [|[h f] rest IH]; simpl; [discriminate|].
  destruct (catches h e).
  - intros [= <-]. exists h, f. split; [now left|reflexivity].
  - intros H. destruct (IH H) as (h' & f' & Hin & ->). exists h', f'. split; [now right|reflexivity].
Qed.

Lemma spec_try_except {A : Type} (P : pyval -> Prop) (Q : A -> Prop)
    (body : M A) (clauses : list (handler * (exc -> M A))) :
  spec P Q body ->
  (forall h f e, In (h, f) clauses -> spec P Q (f e)) ->
  spec P Q (try_except body clauses).
Proof.
  intros Hb Hcl w. destruct (Hb w) as [(m1 & Hp1 & Hf1) Hq1].
  unfold published, outcome, try_except in *.
  destruct (body w) as [[a|e] w1]; simpl in *.
  - split; [now exists m1|exact Hq1].
  - destruct (select_clause clauses e) as [on_error|] eqn:Hs.
    + destruct (select_clause_in _ _ Hs) as (h & f & Hin & ->).
      destruct (Hcl h f e Hin w1) as [(m2 & Hp2 & Hf2) Hq2]. split.
      * exists (m1 ++ m2). split.
        -- unfold published in Hp2. rewrite Hp2, Hp1. now rewrite app_assoc.
        -- apply Forall_app. now split.
      * exact Hq2.
    + split; [now exists m1|discriminate].
Qed.

Lemma spec_try_finally {A : Type} (P : pyval -> Prop) (Q : A -> Prop)
    (body : M A) (cleanup : M unit) :
  spec P Q body -> spec P (fun _ => True) cleanup -> spec P Q (try_finally body cleanup).
Proof.
  intros Hb Hc w. destruct (Hb w) as [(m1 & Hp1 & Hf1) Hq1].
  unfold published, outcome, try_finally in *.
  destruct (body w) as [r w1]; simpl in *.
  destruct (Hc w1) as [(m2 & Hp2 & Hf2) _]. unfold published in Hp2.
  destruct (cleanup w1) as [[[]|e] w2]; simpl in *.
  - split; [|exact Hq1].
    exists (m1 ++ m2). split; [rewrite Hp2, Hp1; now rewrite app_assoc|apply Forall_app; now split].
  - split; [|discriminate].
    exists (m1 ++ m2). split; [rewrite Hp2, Hp1; now rewrite app_assoc|apply Forall_app; now split].
Qed.

Lemma spec_for_each {A S : Type} (P : pyval -> Prop) (I : S -> Prop)
    (body : A -> S -> M S) (items : list A) :
  (forall x s, In x items -> I s -> spec P I (body x s)) ->
  forall s, I s -> spec P I (for_each body items s).
Proof.
  induction items as [|x rest IH]; intros Hbody s Hs; simpl.
  - now apply spec_ret.
  - apply spec_bind with (Q1 := I).
    + apply Hbody; [now left|assumption].
    + intros s' Hs'. apply IH; [|assumption].
      intros y t Hy. apply Hbody. now right.
Qed.

(** A value a computation returns is one it returns from some world. *)
Lemma spec_returned {A : Type} (P : pyval -> Prop) (Q : A -> Prop) (c : M A) :
  spec P Q c -> spec P (fun a => Q a /\ exists w, outcome c w = Ok a) c.
Proof.
  intros Hc w. destruct (Hc w) as [Hp Hq]. split; [exact Hp|].
  intros a Ha. split; [now apply Hq|now exists w].
Qed.

(** A computation that publishes nothing leaves [sent] as it was. *)
Lemma spec_nothing_sent {A : Type} (Q : A -> Prop) (c : M A) (w : world) :
  spec (fun _ => False) Q c -> sent (snd (c w)) = sent w.
Proof.
  intros Hc. destruct (Hc w) as [(msgs & Hp & Hf) _]. unfold published in Hp.
  destruct msgs as [|m rest]; [now rewrite app_nil_r in Hp|].
  inversion Hf as [|? ? []].
Qed.

Lemma spec_mono {A : Type} (P P' : pyval -> Prop) (Q : A -> Prop) (c : M A) :
  spec P Q c -> (forall m, P m -> P' m) -> spec P' Q c.
Proof.
  intros Hc HP w. destruct (Hc w) as [(msgs & Hp & Hf) Hq]. split; [|exact Hq].
  exists msgs. split; [exact Hp|]. eapply Forall_impl; eassumption.
Qed.

(* ------------------------------------------------------------------ *)
(** *** Publisher *)

Section Publisher.

Variable E : env.

Lemma spec_call (P : pyval -> Prop) (outcome_of_call : option exc) :
  spec P (fun _ => True) (call outcome_of_call).
Proof. destruct outcome_of_call; [apply spec_raise|now apply spec_ret]. Qed.

Lemma spec_hand_to_producer (msg : pyval) :
  spec (eq msg) (fun _ => True) (hand_to_producer msg).
Proof.
  intros w. split; [|trivial].
  exists [msg]. split; [reflexivity|]. now constructor.
Qed.

Lemma spec_send_with (k : producer_calls) (msg request_id : pyval) :
  spec (eq msg) (fun _ => True) (send_with k msg request_id).
Proof.
  unfold send_with. apply spec_try_finally.
  - apply spec_try_except.
    + repeat (eapply spec_bind; [first [apply spec_call|apply spec_hand_to_producer]|intros _ _]).
      apply spec_call.
    + intros h f e [[= <- <-]|[]]. now apply spec_LOG.
  - destruct (new_Producer k); [apply spec_raise|apply spec_call].
Qed.

Lemma spec_send_message (msg request_id : pyval) :
  spec (eq msg) (fun _ => True) (send_message E msg request_id).
Proof. intros w. exact (spec_send_with (kafka E w msg) msg request_id w). Qed.

Lemma spec_subscript (P : pyval -> Prop) (d : dict) (k : string) :
  spec P (fun v => dict_lookup d k = Some v) (subscript d k).
Proof.
  unfold subscript. destruct (dict_lookup d k); [now apply spec_ret|apply spec_raise].
Qed.

Lemma spec_subscript_report_platform_id (P : pyval -> Prop) (request_obj : request) :
  spec P (fun _ => True) (subscript_report_platform_id request_obj).
Proof.
  unfold subscript_report_platform_id.
  destruct (report_platform_id request_obj); [now apply spec_ret|apply spec_raise].
Qed.

Lemma spec_upload (host : dict) (request_obj : request) :
  spec (envelope_of host request_obj) (fun _ => True)
       (upload_to_host_inventory_via_kafka E host request_obj).
Proof.
  unfold upload_to_host_inventory_via_kafka. apply spec_try_except.
  - unfold build_and_send. eapply spec_bind; [apply spec_subscript|].
    intros system_unique_id Hid. cbv beta in Hid.
    eapply spec_mono; [apply spec_send_message|].
    intros m <-. exists system_unique_id. split; [exact Hid|reflexivity].
  - intros h f e [[= <- <-]|[]].
    eapply spec_bind; [now apply spec_LOG with (Q := fun _ => True)|intros _ _].
    eapply spec_bind; [apply spec_subscript|intros acc _].
    eapply spec_bind; [apply spec_subscript_report_platform_id|intros rpi _].
    apply spec_raise.
Qed.

(** What [send_message] hands to the producer: the message, once, when the
    producer was built and serialising and [produce] did not raise. *)
Lemma send_with_sent (k : producer_calls) (msg request_id : pyval) (w : world) :
  sent (snd (send_with k msg request_id w))
  = match new_Producer k, json_dumps k, produce k with
    | None, None, None => sent w ++ [msg]
    | _, _, _ => sent w
    end.
Proof.
  unfold send_with, hand_to_producer. run_monad.
  destruct (new_Producer k) as [e0|]; cbn.
  { destruct (catches ExceptKafkaException e0); reflexivity. }
  destruct (json_dumps k) as [e1|]; cbn.
  { destruct (catches ExceptKafkaException e1), (flush k); reflexivity. }
  destruct (produce k) as [e2|]; cbn.
  { destruct (catches ExceptKafkaException e2), (flush k); reflexivity. }
  destruct (poll k) as [e3|]; cbn.
  { destruct (catches ExceptKafkaException e3), (flush k); reflexivity. }
  destruct (flush k); reflexivity.
Qed.

(** The clause that converts a publication error publishes nothing. *)
Lemma upload_clause_sent (host : dict) (request_obj : request) (err : exc) (w : world) :
  sent (snd ((LOG (ErrorUpload err) ;;;
              acc <- subscript host "account" ;;
              rpi <- subscript_report_platform_id request_obj ;;
              raise (upload_error err acc rpi) : M unit) w)) = sent w.
Proof.
  unfold subscript, subscript_report_platform_id. run_monad.
  destruct (dict_lookup host "account"); cbn; [|reflexivity].
  destruct (report_platform_id request_obj); reflexivity.
Qed.

(** What the upload of a record hands to the producer. *)
Lemma upload_sent (host : dict) (request_obj : request) (w : world) :
  sent (snd (upload_to_host_inventory_via_kafka E host request_obj w))
  = match dict_lookup host "system_unique_id" with
    | None => sent w
    | Some system_unique_id =>
        let msg := upload_msg host system_unique_id request_obj in
        let k := kafka E w msg in
        match new_Producer k, json_dumps k, produce k with
        | None, None, None => sent w ++ [msg]
        | _, _, _ => sent w
        end
    end.
Proof.
  unfold upload_to_host_inventory_via_kafka, try_except, build_and_send.
  unfold subscript at 1.
  destruct (dict_lookup host "system_unique_id") as [system_unique_id|].
  - cbv zeta. unfold bind at 1, ret at 1. unfold send_message.
    rewrite <- send_with_sent with (request_id := request_id request_obj).
    destruct (send_with _ _ _ w) as [[[]|e] w1]; [reflexivity|].
    unfold select_clause, catches. cbn [class_of handles].
    destruct e as [cls args]. cbn [class_of handles snd]. apply upload_clause_sent.
  - unfold bind at 1, raise at 1. unfold select_clause, catches. cbn [class_of handles].
    exact (upload_clause_sent host request_obj _ w).
Qed.

(** What leaves [send_message]: the exception, if any, and the world. *)
Lemma send_with_result (k : producer_calls) (msg request_id : pyval) (w : world) :
  exists w',
    send_with k msg request_id w
    = (match new_Producer k with
       | Some _ => Raise (Exc UnboundLocalError [ArgVal (PStr "producer")])
       | None =>
           match flush k with
           | Some e => Raise e
           | None =>
               match submission_failure k with
               | Some e => if catches ExceptKafkaException e then Ok tt else Raise e
               | None => Ok tt
               end
           end
       end, w').
Proof.
  unfold send_with, submission_failure, hand_to_producer. run_monad.
  destruct (new_Producer k) as [e0|]; cbn.
  { destruct (catches ExceptKafkaException e0); cbn; eexists; reflexivity. }
  destruct (json_dumps k) as [e1|]; cbn.
  { destruct (catches ExceptKafkaException e1), (flush k); cbn; eexists; reflexivity. }
  destruct (produce k) as [e2|]; cbn.
  { destruct (catches ExceptKafkaException e2), (flush k); cbn; eexists; reflexivity. }
  destruct (poll k) as [e3|]; cbn.
  { destruct (catches ExceptKafkaException e3), (flush k); cbn; eexists; reflexivity. }
  destruct (flush k); cbn; eexists; reflexivity.
Qed.

(** The [except Exception] clause of the upload, for a record with an account
    in a context with a report identifier. *)
Lemma upload_converts (host : dict) (request_obj : request) (w w1 : world)
    (acc rpi : pyval) (err : exc) :
  dict_lookup host "account" = Some acc ->
  report_platform_id request_obj = Some rpi ->
  build_and_send E host request_obj w = (Raise err, w1) ->
  upload_to_host_inventory_via_kafka E host request_obj w
  = (Raise (upload_error err acc rpi), add_logs w1 [ErrorUpload err]).
Proof.
  intros Hacc Hrpi Hb.
  unfold upload_to_host_inventory_via_kafka, subscript, subscript_report_platform_id.
  run_monad. rewrite Hb. unfold catches. cbn. rewrite Hacc, Hrpi. reflexivity.
Qed.

Lemma upload_returns (host : dict) (request_obj : request) (w w1 : world) :
  build_and_send E host request_obj w = (Ok tt, w1) ->
  upload_to_host_inventory_via_kafka E host request_obj w = (Ok tt, w1).
Proof.
  intros Hb. unfold upload_to_host_inventory_via_kafka. run_monad. now rewrite Hb.
Qed.

End Publisher.

Section PublishErrors.

Variable E : env.

Lemma build_and_send_with (host : dict) (request_obj : request) (w : world)
    (system_unique_id : pyval) :
  dict_lookup host "system_unique_id" = Some system_unique_id ->
  build_and_send E host request_obj w
  = send_with (kafka E w (upload_msg host system_unique_id request_obj))
              (upload_msg host system_unique_id request_obj) (request_id request_obj) w.
Proof.
  intros Hid. unfold build_and_send, subscript. rewrite Hid. reflexivity.
Qed.

(** C4, as the code has it.  For a record that has an [account] field, in a
    request context that has a report identifier: every exception that leaves
    the construction or the submission of the message (a missing
    [system_unique_id], a producer that cannot be built, a failing [flush], a
    failure of serialising, producing or polling that is not a
    [KafkaException]) is raised to the caller as a [KafkaMsgHandlerError]
    carrying the account and the report identifier; a [KafkaException] raised
    while serialising, producing or polling is caught inside [send_message] and
    the publication returns normally. *)
Theorem publish_failure_is_typed_unless_kafka_exception
    (host : dict) (request_obj : request) (w : world) (acc rpi : pyval) :
  dict_lookup host "account" = Some acc ->
  report_platform_id request_obj = Some rpi ->
  (forall err w1,
      build_and_send E host request_obj w = (Raise err, w1) ->
      upload_to_host_inventory_via_kafka E host request_obj w
      = (Raise (upload_error err acc rpi), add_logs w1 [ErrorUpload err]))
  /\
  (dict_lookup host "system_unique_id" = None ->
   exists w',
     upload_to_host_inventory_via_kafka E host request_obj w
     = (Raise (upload_error (Exc KeyError [ArgVal (PStr "system_unique_id")]) acc rpi), w'))
  /\
  (forall system_unique_id,
      dict_lookup host "system_unique_id" = Some system_unique_id ->
      let k := kafka E w (upload_msg host system_unique_id request_obj) in
      (forall e, new_Producer k = Some e ->
                 exists w',
                   upload_to_host_inventory_via_kafka E host request_obj w
                   = (Raise (upload_error (Exc UnboundLocalError [ArgVal (PStr "producer")])
                                          acc rpi), w'))
      /\
      (new_Producer k = None ->
       (forall e, flush k = Some e ->
                  exists w',
                    upload_to_host_inventory_via_kafka E host request_obj w
                    = (Raise (upload_error e acc rpi), w'))
       /\
       (flush k = None ->
        forall e, submission_failure k = Some e ->
                  if catches ExceptKafkaException e
                  then exists w',
                      upload_to_host_inventory_via_kafka E host request_obj w = (Ok tt, w')
                  else exists w',
                      upload_to_host_inventory_via_kafka E host request_obj w
                      = (Raise (upload_error e acc rpi), w')))).
Proof.
  intros Hacc Hrpi. split; [|split].
  - intros err w1 Hb. now apply upload_converts.
  - intros Hnone. eexists. apply upload_converts; try assumption.
    unfold build_and_send, subscript. rewrite Hnone. reflexivity.
  - intros system_unique_id Hid k.
    pose proof (@build_and_send_with host request_obj w system_unique_id Hid) as Hb. fold k in Hb.
    destruct (send_with_result k (upload_msg host system_unique_id request_obj)
                               (request_id request_obj) w) as [w1 Hs].
    rewrite Hs in Hb. clear Hs. split.
    + intros e He. rewrite He in Hb. eexists. apply upload_converts; eassumption.
    + intros Hnew. rewrite Hnew in Hb. split.
      * intros e He. rewrite He in Hb. eexists. apply upload_converts; eassumption.
      * intros Hflush e He. rewrite Hflush, He in Hb.
        destruct (catches ExceptKafkaException e).
        -- eexists. apply upload_returns. eassumption.
        -- eexists. apply upload_converts; eassumption.
Qed.

End PublishErrors.

(* ------------------------------------------------------------------ *)
(** *** Computations that publish nothing *)

Ltac in_clauses H :=
  simpl in H;
  repeat (destruct H as [H|H]; [injection H as <- <-|]);
  try contradiction.

(** Discharges [spec P (fun _ => True) c] for a computation made of the
    operations of the monad. *)
Ltac spec_quiet :=
  lazymatch goal with
  | |- spec _ _ (raise _) => apply spec_raise
  | |- spec _ _ (ret _) => apply spec_ret; exact I
  | |- spec _ _ (LOG _) => apply spec_LOG; exact I
  | |- spec _ _ (lift _) => apply spec_lift; intros; exact I
  | |- spec _ _ (bind _ _) =>
      eapply spec_bind with (Q1 := fun _ => True); [spec_quiet|intros ? _; spec_quiet]
  | |- spec _ _ (try_except _ _) =>
      apply spec_try_except;
      [spec_quiet
      |let h := fresh "h" in let f := fresh "f" in let e := fresh "e" in
       let H := fresh "H" in
       intros h f e H; in_clauses H; spec_quiet]
  | |- spec _ _ (match ?x with _ => _ end) => destruct x; spec_quiet
  | |- _ => idtac
  end.

Section Orchestrator.

Variable E : env.

Lemma spec_fresh_uuid (P : pyval -> Prop) : spec P (fun _ => True) (fresh_uuid E).
Proof.
  intros w. split; [|trivial].
  exists []. split; [unfold published; simpl; now rewrite app_nil_r|constructor].
Qed.

Lemma spec_download_report (P : pyval -> Prop) (consumed_message : dict) :
  spec P (fun _ => True) (download_report E consumed_message).
Proof. unfold download_report. spec_quiet. Qed.

Lemma spec_check_slice (P : pyval -> Prop) (report_id : string) (num_hosts : Z)
    (file : TarInfo) (report_files : list pyval) :
  spec P (fun _ => True) (check_slice E report_id num_hosts file report_files).
Proof. unfold check_slice, tar_extractfile, read, decode, loads. spec_quiet. Qed.

Lemma spec_collect_slices (P : pyval -> Prop) (valid_slice_ids : list (string * Z))
    (json_files : list TarInfo) :
  spec P (fun _ => True) (collect_slices E valid_slice_ids json_files).
Proof.
  unfold collect_slices. apply spec_for_each; [|exact I].
  intros item s _ _. apply spec_for_each; [|exact I].
  intros file s' _ _. apply spec_check_slice.
Qed.

(** The extraction publishes nothing and hands back the request context with
    the identity token it was given. *)
Lemma spec_extract_report_slices (P : pyval -> Prop) (report_tar : list byte)
    (request_obj : request) :
  spec P (fun extracted =>
            forall report_json_files request_obj',
              extracted = Some (report_json_files, request_obj') ->
              b64_identity request_obj' = b64_identity request_obj)
       (extract_report_slices E report_tar request_obj).
Proof.
  unfold extract_report_slices. apply spec_try_except.
  - eapply spec_bind with
      (Q1 := fun x : list pyval * request => b64_identity (snd x) = b64_identity request_obj).
    + unfold open_and_extract.
      eapply spec_bind with (Q1 := fun _ => True); [spec_quiet|intros files _].
      destruct (scan_members files [] None) as [[|f0 rest0] [metadata_file|]];
        try apply spec_raise.
      unfold validate_and_collect. apply spec_try_except.
      * eapply spec_bind with (Q1 := fun _ => True); [spec_quiet|intros [ids stored] _].
        eapply spec_bind with (Q1 := fun _ => True); [apply spec_collect_slices|intros l _].
        apply spec_ret. reflexivity.
      * intros h f e H. in_clauses H. apply spec_raise.
    + intros [l ro'] Hq. apply spec_ret. intros l' ro'' [= <- <-]. exact Hq.
  - intros h f e H. in_clauses H.
    + apply spec_raise.
    + apply spec_raise.
    + eapply spec_bind with (Q1 := fun _ => True); [spec_quiet|intros _ _].
      apply spec_ret. discriminate.
Qed.

End Orchestrator.

Section Modifiers.

Variable E : env.

(** The modifiers touch neither the log, nor the producer, nor the
    identifiers. *)
Lemma run_modifiers_world (host : dict) (request_obj : request) (w : world) :
  snd (run_modifiers E host request_obj w) = w.
Proof.
  unfold run_modifiers. generalize (host, new_transformed_obj, request_obj) as s.
  induction (get_modifiers E) as [|run rest IH]; intros s; simpl; [reflexivity|].
  unfold bind. destruct s as [[h t] r]. unfold lift.
  destruct (run h t r) as [s'|e]; [apply IH|reflexivity].
Qed.

Lemma run_modifiers_pair (host : dict) (request_obj : request) (w : world) :
  run_modifiers E host request_obj w = (outcome (run_modifiers E host request_obj) w, w).
Proof.
  unfold outcome. rewrite <- (run_modifiers_world host request_obj w) at 3.
  now destruct (run_modifiers E host request_obj w).
Qed.

End Modifiers.

Lemma yupana_host_id_is_no_fact (host : dict) (v : pyval) :
  has_canonical_facts (dict_set host "yupana_host_id" v) = has_canonical_facts host.
Proof.
  apply any_fact_set_other. unfold CANONICAL_FACTS. simpl.
  intros H. repeat (destruct H as [H|H]; [discriminate|]). exact H.
Qed.

Section PublishedEnvelopes.

Variable E : env.

Hypothesis modifiers_keep_identity :
  forall run, In run (get_modifiers E) -> keeps_identity run.

Variable b64 : pyval.

Lemma spec_run_modifiers (P : pyval -> Prop) (host : dict) (request_obj : request) :
  b64_identity request_obj = b64 ->
  spec P (fun s : dict * transformed * request => b64_identity (snd s) = b64)
       (run_modifiers E host request_obj).
Proof.
  intros Hb. unfold run_modifiers. apply spec_for_each; [|exact Hb].
  intros run [[h t] r] Hin Hr. simpl in Hr. apply spec_lift.
  intros [[h' t'] r'] Hrun. simpl.
  rewrite (modifiers_keep_identity run Hin _ _ _ Hrun). exact Hr.
Qed.

Lemma spec_print_transformed_info (P : pyval -> Prop) (request_obj : request)
    (host_id : pyval) (transformed_obj : option transformed) :
  spec P (fun _ => True) (print_transformed_info request_obj host_id transformed_obj).
Proof.
  unfold print_transformed_info, subscript_report_platform_id. spec_quiet.
Qed.

Lemma spec_report_progress (P : pyval -> Prop) (count total_hosts : Z) (request_obj : request) :
  spec P (fun _ => True) (report_progress E count total_hosts request_obj).
Proof.
  unfold report_progress, subscript_report_platform_id. spec_quiet.
Qed.

(** The candidate branch publishes nothing but the envelope of the record
    the modifiers made. *)
Lemma spec_process_candidate (report_slice : dict) (total_hosts : Z)
    (yupana_host_id : string) (host : dict) (st : slice_state) :
  b64_identity (request_obj_of st) = b64 ->
  spec (transformed_envelope E b64
          (dict_set host "report_slice_id" (dict_get report_slice "report_slice_id" PNone))
          (request_obj_of st))
       (fun st' => b64_identity (request_obj_of st') = b64)
       (process_candidate E report_slice total_hosts yupana_host_id host st).
Proof.
  intros Hb. unfold process_candidate.
  destruct (HOSTS_TRANSFORMATION_ENABLED E).
  - eapply spec_bind; [apply spec_returned; now apply spec_run_modifiers|].
    intros [[h t] r] [Hr (w0 & Hw0)]. simpl in Hr.
    eapply spec_bind; [apply spec_subscript|intros host_id _].
    eapply spec_bind; [apply spec_print_transformed_info|intros _ _].
    eapply spec_bind.
    { eapply spec_mono; [apply spec_upload|].
      intros m (system_unique_id & Hid & ->).
      exists h, t, r, system_unique_id, w0. rewrite Hr. auto. }
    intros _ _.
    eapply spec_bind; [apply spec_report_progress|intros _ _].
    apply spec_ret. exact Hr.
  - eapply spec_bind; [apply spec_subscript|intros _ _]. apply spec_raise.
Qed.

Lemma spec_process_host (report_slice : dict) (total_hosts : Z) (host : pyval)
    (st : slice_state) :
  b64_identity (request_obj_of st) = b64 ->
  spec (fun msg =>
          exists h yupana_host_id request_obj,
            host = PDict h /\ has_canonical_facts h = true /\
            transformed_envelope E b64
              (dict_set (dict_set h "yupana_host_id" (PStr yupana_host_id))
                        "report_slice_id" (dict_get report_slice "report_slice_id" PNone))
              request_obj msg)
       (fun st' => b64_identity (request_obj_of st') = b64)
       (process_host E report_slice total_hosts host st).
Proof.
  intros Hb. unfold process_host.
  eapply spec_bind; [apply spec_fresh_uuid|intros yupana_host_id _].
  destruct host as [| | | | | |h]; try apply spec_raise.
  rewrite yupana_host_id_is_no_fact.
  destruct (has_canonical_facts h) eqn:Hfacts.
  - eapply spec_mono; [now apply spec_process_candidate|].
    intros m Hm. exists h, yupana_host_id, (request_obj_of st). auto.
  - apply spec_ret. exact Hb.
Qed.

Lemma spec_process_slice (report_slice : pyval) (request_obj : request) :
  b64_identity request_obj = b64 ->
  spec (candidate_envelope E b64 report_slice)
       (fun request_obj' => b64_identity request_obj' = b64)
       (process_slice E report_slice request_obj).
Proof.
  intros Hb. unfold process_slice.
  destruct report_slice as [| | | | | |d]; try apply spec_raise.
  destruct (py_len _) as [total_hosts|]; [|apply spec_raise].
  destruct (py_iter _) as [items|] eqn:Hitems; [|apply spec_raise].
  eapply spec_bind.
  { apply spec_for_each with (I := fun st => b64_identity (request_obj_of st) = b64);
      [|exact Hb].
    intros host st Hin Hst.
    eapply spec_mono; [now apply spec_process_host|].
    intros m (h & yupana_host_id & ro & -> & Hfacts & Hm).
    exists d, items, h, yupana_host_id, ro. auto 6. }
  intros st Hst.
  eapply spec_bind with (Q1 := fun _ => True); [spec_quiet|intros _ _].
  eapply spec_bind with (Q1 := fun _ => True); [spec_quiet|intros _ _].
  destruct (candidate_hosts st).
  - eapply spec_bind with (Q1 := fun _ => True); [spec_quiet|intros _ _]. apply spec_raise.
  - apply spec_ret. exact Hst.
Qed.

Lemma spec_process_slices (report_json_files : list pyval) (request_obj : request) :
  b64_identity request_obj = b64 ->
  spec (fun msg => exists report_slice,
                     In report_slice report_json_files /\
                     candidate_envelope E b64 report_slice msg)
       (fun request_obj' => b64_identity request_obj' = b64)
       (process_slices E report_json_files request_obj).
Proof.
  intros Hb. unfold process_slices. apply spec_for_each; [|exact Hb].
  intros report_slice ro Hin Hro.
  eapply spec_mono; [now apply spec_process_slice|].
  intros m Hm. now exists report_slice.
Qed.

End PublishedEnvelopes.

Section Envelope.

Variable E : env.

(** Every message of a run is the envelope of a candidate of a slice the
    extraction returned. *)
Lemma spec_process_report (consumed_message : dict) :
  (forall run, In run (get_modifiers E) -> keeps_identity run) ->
  spec (fun msg =>
          exists report_tar report_json_files request_obj w1 report_slice,
            outcome (extract_report_slices E report_tar (new_request_obj consumed_message)) w1
            = Ok (Some (report_json_files, request_obj)) /\
            In report_slice report_json_files /\
            candidate_envelope E (dict_get consumed_message "b64_identity" PNone)
                               report_slice msg)
       (fun _ => True)
       (process_report E consumed_message).
Proof.
  intros Hkeep. unfold process_report.
  eapply spec_bind; [apply spec_download_report|intros report_tar _].
  eapply spec_bind; [apply spec_returned; apply spec_extract_report_slices|].
  intros [[report_json_files request_obj]|] [Hq (w1 & Hw1)]; [|apply spec_raise].
  specialize (Hq _ _ eq_refl). simpl in Hq.
  eapply spec_bind; [|intros _ _; now apply spec_ret].
  eapply spec_mono;
    [now apply spec_process_slices
       with (b64 := dict_get consumed_message "b64_identity" PNone)|].
  intros m (report_slice & Hin & Hm).
  exists report_tar, report_json_files, request_obj, w1, report_slice. auto.
Qed.

(** What the candidate branch hands to the producer. *)
Lemma process_candidate_sent (report_slice : dict) (total_hosts : Z)
    (yupana_host_id : string) (host : dict) (st : slice_state) (w : world) :
  sent (snd (process_candidate E report_slice total_hosts yupana_host_id host st w))
  = if HOSTS_TRANSFORMATION_ENABLED E then
      match outcome (run_modifiers E
                       (dict_set host "report_slice_id"
                                 (dict_get report_slice "report_slice_id" PNone))
                       (request_obj_of st)) w with
      | Ok (host', transformed_obj, request_obj') =>
          match dict_lookup host' "yupana_host_id" with
          | Some host_id =>
              match print_transformed_info request_obj' host_id (Some transformed_obj) w with
              | (Ok _, w1) =>
                  sent (snd (upload_to_host_inventory_via_kafka E host' request_obj' w1))
              | (Raise _, _) => sent w
              end
          | None => sent w
          end
      | Raise _ => sent w
      end
    else sent w.
Proof.
  unfold process_candidate.
  set (host1 := dict_set host "report_slice_id" (dict_get report_slice "report_slice_id" PNone)).
  destruct (HOSTS_TRANSFORMATION_ENABLED E).
  2:{ unfold subscript. run_monad. destruct (dict_lookup host1 "yupana_host_id"); reflexivity. }
  unfold bind at 1. rewrite run_modifiers_pair.
  destruct (outcome (run_modifiers E host1 (request_obj_of st)) w)
    as [[[host' transformed_obj] request_obj']|e]; [|reflexivity].
  unfold subscript at 1.
  destruct (dict_lookup host' "yupana_host_id") as [host_id|]; [|reflexivity].
  unfold bind at 1, ret at 1. unfold bind at 1.
  pose proof (@spec_nothing_sent _ _ _ w
                (spec_print_transformed_info (fun _ => False) request_obj' host_id
                                             (Some transformed_obj))) as Hprint.
  destruct (print_transformed_info request_obj' host_id (Some transformed_obj) w)
    as [[[]|e] w1]; [|exact Hprint].
  unfold bind at 1.
  destruct (upload_to_host_inventory_via_kafka E host' request_obj' w1) as [[[]|e] w2];
    [|reflexivity].
  cbn [snd]. unfold bind at 1.
  pose proof (@spec_nothing_sent _ _ _ w2
                (spec_report_progress E (fun _ => False) (count st + 1) total_hosts
                                      request_obj')) as Hprogress.
  destruct (report_progress E (count st + 1) total_hosts request_obj' w2) as [[[]|e] w3];
    exact Hprogress.
Qed.

(** C9.  What [upload_to_host_inventory_via_kafka] hands to the producer for
    a record is exactly one message, the envelope of that record: [operation]
    is ["add_host"], [data] is the record as it was passed, and
    [platform_metadata] holds the record's [system_unique_id] as [request_id]
    and the [b64_identity] of the request context; it is handed over when the
    record has a [system_unique_id], the producer was built and serialising
    and [produce] did not raise, and nothing is handed over otherwise.  The
    candidate branch uploads the record the modifiers made of the candidate,
    in the context they left, once its transformation log was written, and
    publishes nothing else.  Over a whole run, the modifiers leaving the
    identity token alone, every message [process_report] publishes is the
    envelope of a transformed candidate of a slice the extraction returned,
    with the [b64_identity] of the incoming message. *)
Theorem published_envelope_shape :
  (forall (host : dict) (request_obj : request) (w : world),
      sent (snd (upload_to_host_inventory_via_kafka E host request_obj w))
      = match dict_lookup host "system_unique_id" with
        | None => sent w
        | Some request_id =>
            let msg := PDict [("operation", PStr "add_host");
                              ("data", PDict host);
                              ("platform_metadata",
                               PDict [("request_id", request_id);
                                      ("b64_identity", b64_identity request_obj)])] in
            let k := kafka E w msg in
            match new_Producer k, json_dumps k, produce k with
            | None, None, None => sent w ++ [msg]
            | _, _, _ => sent w
            end
        end)
  /\
  (forall (report_slice : dict) (total_hosts : Z) (yupana_host_id : string) (host : dict)
          (st : slice_state) (w : world),
      sent (snd (process_candidate E report_slice total_hosts yupana_host_id host st w))
      = if HOSTS_TRANSFORMATION_ENABLED E then
          match outcome (run_modifiers E
                           (dict_set host "report_slice_id"
                                     (dict_get report_slice "report_slice_id" PNone))
                           (request_obj_of st)) w with
          | Ok (host', transformed_obj, request_obj') =>
              match dict_lookup host' "yupana_host_id" with
              | Some host_id =>
                  match print_transformed_info request_obj' host_id (Some transformed_obj) w
                  with
                  | (Ok _, w1) =>
                      sent (snd (upload_to_host_inventory_via_kafka E host' request_obj' w1))
                  | (Raise _, _) => sent w
                  end
              | None => sent w
              end
          | Raise _ => sent w
          end
        else sent w)
  /\
  ((forall run, In run (get_modifiers E) -> keeps_identity run) ->
   forall (consumed_message : dict) (w : world),
     exists msgs,
       sent (snd (process_report E consumed_message w)) = sent w ++ msgs /\
       Forall (fun msg =>
                 exists report_tar report_json_files request_obj w1 report_slice,
                   outcome (extract_report_slices E report_tar
                                                  (new_request_obj consumed_message)) w1
                   = Ok (Some (report_json_files, request_obj)) /\
                   In report_slice report_json_files /\
                   candidate_envelope E (dict_get consumed_message "b64_identity" PNone)
                                      report_slice msg)
              msgs).
Proof.
  split; [|split].
  - intros host request_obj w. apply upload_sent.
  - intros report_slice total_hosts yupana_host_id host st w. apply process_candidate_sent.
  - intros Hkeep consumed_message w.
    destruct (spec_process_report consumed_message Hkeep w) as [(msgs & Hp & Hf) _].
    exists msgs. split; [exact Hp|exact Hf].
Qed.

End Envelope.

(* ------------------------------------------------------------------ *)
(** *** The loop over the hosts of a slice *)

Section HostLoop.

Variable E : env.

(** A record without identity facts joins [hosts_without_facts] and nothing
    else happens. *)
Lemma process_host_rejected (report_slice : dict) (total_hosts : Z) (host : dict)
    (st : slice_state) (w : world) :
  has_canonical_facts host = false ->
  exists id w',
    process_host E report_slice total_hosts (PDict host) st w
    = (Ok {| count := count st;
             candidate_hosts := candidate_hosts st;
             hosts_without_facts := hosts_without_facts st ++ [id];
             request_obj_of := request_obj_of st |}, w') /\
    sent w' = sent w.
Proof.
  intros Hno. unfold process_host, fresh_uuid. run_monad.
  rewrite yupana_host_id_is_no_fact, Hno. do 2 eexists. split; reflexivity.
Qed.

(** With the transformation disabled, a candidate record stops the run at the
    read of [transformed_obj], before anything is published. *)
Lemma process_host_disabled (report_slice : dict) (total_hosts : Z) (host : dict)
    (st : slice_state) (w : world) :
  HOSTS_TRANSFORMATION_ENABLED E = false ->
  has_canonical_facts host = true ->
  process_host E report_slice total_hosts (PDict host) st w
  = (Raise (Exc UnboundLocalError [ArgVal (PStr "transformed_obj")]),
     {| sent := sent w; logs := logs w; uuids_drawn := S (uuids_drawn w) |}).
Proof.
  intros Hoff Hfacts. unfold process_host, fresh_uuid, process_candidate, subscript.
  run_monad. rewrite yupana_host_id_is_no_fact, Hfacts, Hoff.
  rewrite dict_lookup_set_other by discriminate.
  rewrite dict_lookup_set_same. reflexivity.
Qed.

Lemma spec_process_slices_disabled (report_json_files : list pyval) (request_obj : request) :
  HOSTS_TRANSFORMATION_ENABLED E = false ->
  spec (fun _ => False) (fun _ => True) (process_slices E report_json_files request_obj).
Proof.
  intros Hoff. unfold process_slices. apply spec_for_each; [|exact I].
  intros report_slice ro _ _. unfold process_slice.
  destruct report_slice as [| | | | | |d]; try apply spec_raise.
  destruct (py_len _) as [total_hosts|]; [|apply spec_raise].
  destruct (py_iter _) as [items|]; [|apply spec_raise].
  eapply spec_bind with (Q1 := fun _ => True).
  - apply spec_for_each; [|exact I]. intros host st _ _. unfold process_host.
    eapply spec_bind; [apply spec_fresh_uuid|intros yupana_host_id _].
    destruct host as [| | | | | |h]; try apply spec_raise.
    destruct (has_canonical_facts _); [|now apply spec_ret].
    unfold process_candidate. rewrite Hoff.
    eapply spec_bind; [apply spec_subscript|intros _ _]. apply spec_raise.
  - intros st _.
    eapply spec_bind with (Q1 := fun _ => True); [spec_quiet|intros _ _].
    eapply spec_bind with (Q1 := fun _ => True); [spec_quiet|intros _ _].
    destruct (candidate_hosts st); [|now apply spec_ret].
    eapply spec_bind with (Q1 := fun _ => True); [spec_quiet|intros _ _]. apply spec_raise.
Qed.

(** C3, what the code does instead.  With [HOSTS_TRANSFORMATION_ENABLED]
    false, processing a candidate record raises [UnboundLocalError] at the read
    of [transformed_obj], and no run of the loop over the slices publishes
    anything. *)
Theorem disabled_transformation_raises_before_publishing :
  HOSTS_TRANSFORMATION_ENABLED E = false ->
  (forall (report_slice : dict) (total_hosts : Z) (host : dict) (st : slice_state) (w : world),
      has_canonical_facts host = true ->
      process_host E report_slice total_hosts (PDict host) st w
      = (Raise (Exc UnboundLocalError [ArgVal (PStr "transformed_obj")]),
         {| sent := sent w; logs := logs w; uuids_drawn := S (uuids_drawn w) |}))
  /\
  (forall (report_json_files : list pyval) (request_obj : request) (w : world),
      sent (snd (process_slices E report_json_files request_obj w)) = sent w).
Proof.
  intros Hoff. split.
  - intros report_slice total_hosts host st w Hfacts. now apply process_host_disabled.
  - intros report_json_files request_obj w.
    destruct (spec_process_slices_disabled report_json_files request_obj Hoff w)
      as [(msgs & Hp & Hf) _].
    destruct msgs as [|m rest].
    + unfold published in Hp. now rewrite app_nil_r in Hp.
    + inversion Hf as [|? ? Hm _]. contradiction.
Qed.

(** A slice all of whose records lack identity facts raises
    [QPCReportException], whatever the slices before it held. *)
Lemma for_hosts_all_rejected (report_slice : dict) (total_hosts : Z) (hosts : list pyval)
    (st : slice_state) (w : world) :
  (forall h, In h hosts -> exists d, h = PDict d /\ has_canonical_facts d = false) ->
  exists st' w',
    for_each (process_host E report_slice total_hosts) hosts st w = (Ok st', w') /\
    candidate_hosts st' = candidate_hosts st /\ sent w' = sent w.
Proof.
  revert st w. induction hosts as [|h rest IH]; intros st w Hall.
  - exists st, w. now repeat split.
  - destruct (Hall h (or_introl eq_refl)) as (d & -> & Hno).
    destruct (process_host_rejected report_slice total_hosts d st w Hno)
      as (id & w1 & Hh & Hs1).
    simpl. unfold bind. rewrite Hh.
    match goal with
    | |- context [for_each _ rest ?s w1] =>
        destruct (IH s w1 (fun h' Hh' => Hall h' (or_intror Hh')))
          as (st' & w' & Hl & Hc & Hs)
    end.
    exists st', w'. split; [exact Hl|].
    split; [exact Hc|congruence].
Qed.

Lemma slice_without_candidates_raises (d : dict) (hosts : list pyval)
    (request_obj : request) (w : world) :
  dict_get d "hosts" (PList []) = PList hosts ->
  (forall h, In h hosts -> exists hd, h = PDict hd /\ has_canonical_facts hd = false) ->
  exists w',
    process_slice E (PDict d) request_obj w = (Raise (Exc QPCReportException []), w') /\
    sent w' = sent w.
Proof.
  intros Hhosts Hall. unfold process_slice. rewrite Hhosts. unfold py_len, py_iter.
  run_monad.
  destruct (for_hosts_all_rejected d (Z.of_nat (List.length hosts)) hosts
              {| count := 0; candidate_hosts := []; hosts_without_facts := [];
                 request_obj_of := request_obj |} w Hall) as (st' & w' & Hl & Hc & Hs).
  rewrite Hl. simpl in Hc. rewrite Hc.
  destruct (hosts_without_facts st'); eexists; (split; [reflexivity|exact Hs]).
Qed.

End HostLoop.

(* ------------------------------------------------------------------ *)
(** *** The failure for a report without valid hosts *)

(** C1, what the code does instead.  [QPCReportException] is raised inside
    the loop over the slices, for the first slice without candidates.  A report
    whose first accepted slice holds a candidate and whose second holds none
    publishes the candidate and then fails, although the report has one
    candidate; a report with no accepted slice at all, hence no candidate,
    completes without the failure. *)
Theorem no_valid_hosts_failure_is_per_slice :
  (forall (E : env) (request_obj : request) (w : world),
      process_slices E [] request_obj w = (Ok request_obj, w))
  /\
  (let E := Sample.make_env true (Ok Sample.two_slices) [("s1", 1); ("s2", 1)]
                            Sample.calls_ok in
   let accepted := [Sample.slice_doc "s1" [PDict Sample.host_x];
                    Sample.slice_doc "s2" [PDict []]] in
   outcome (extract_report_slices E [] (new_request_obj Sample.consumed_message)) Sample.w0
   = Ok (Some (accepted, Sample.request_obj)) /\
   total_candidates accepted = 1%nat /\
   outcome (process_report E Sample.consumed_message) Sample.w0
   = Raise (Exc QPCReportException []) /\
   List.length (sent (snd (process_report E Sample.consumed_message Sample.w0))) = 1%nat)
  /\
  (let E := Sample.make_env true (Ok Sample.unmatched_slice) [("s1", 1)] Sample.calls_ok in
   outcome (extract_report_slices E [] (new_request_obj Sample.consumed_message)) Sample.w0
   = Ok (Some ([], Sample.request_obj)) /\
   total_candidates [] = 0%nat /\
   outcome (process_report E Sample.consumed_message) Sample.w0 = Ok tt).
Proof.
  split; [reflexivity|split].
  - cbv zeta. repeat split; vm_compute; reflexivity.
  - cbv zeta. repeat split; vm_compute; reflexivity.
Qed.

(* ================================================================== *)
(** ** The statements at concrete inputs *)

Lemma has_canonical_facts_iff_identity_fact_witness :
  has_canonical_facts (dict_set [("display_name", PStr "h")] "bios_uuid" (PStr "X")) = true /\
  has_canonical_facts (dict_set Sample.host_x "display_name" (PStr "h"))
  = has_canonical_facts Sample.host_x.
Proof.
  destruct has_canonical_facts_iff_identity_fact as (_ & Hset & _ & Hextra). split.
  - apply Hset; [simpl; auto|reflexivity].
  - apply Hextra. simpl. intros H.
    repeat (destruct H as [H|H]; [discriminate|]). exact H.
Defined.

Lemma extraction_fails_without_manifest_or_data_witness :
  let files := [Sample.file_of_text "report/s1.json" (Sample.slice_text "s1" "[{}]")] in
  let E := Sample.make_env true (Ok files) [] Sample.calls_ok in
  extract_report_slices E [] Sample.request_obj Sample.w0
  = (Raise (no_metadata_or_reports Sample.request_obj), Sample.w0).
Proof.
  intros files E.
  refine (proj1 (@extraction_fails_without_manifest_or_data E [] files Sample.request_obj
                   Sample.w0 eq_refl _)).
  left. intros file [<-|[]]. reflexivity.
Defined.

Lemma unmatched_manifest_yields_empty_list_witness :
  let E := Sample.make_env true (Ok Sample.unmatched_slice) [("s1", 1)] Sample.calls_ok in
  extract_report_slices E [] (new_request_obj Sample.consumed_message) Sample.w0
  = (Ok (Some ([], Sample.request_obj)), Sample.w0).
Proof.
  intros E.
  refine (@unmatched_manifest_yields_empty_list E [] Sample.unmatched_slice
            [Sample.file_of_text "report/s9.json" (Sample.slice_text "s9" "[{}]")]
            Sample.metadata_json [("s1", 1)] (Some (PStr "r-1"))
            (new_request_obj Sample.consumed_message) Sample.w0
            eq_refl eq_refl _ eq_refl _).
  - discriminate.
  - intros id n file [[= <- <-]|[]] [<-|[]]. reflexivity.
Defined.

(** C5 as stated does not hold: here the scan finds the manifest and one data
    entry, no identifier of the manifest names it, and the extraction returns
    the empty list. *)
Lemma unmatched_manifest_does_not_fail :
  ~ (forall (E : env) (report_tar : list byte) (files json_files : list TarInfo)
            (metadata_file : TarInfo) (valid_slice_ids : list (string * Z))
            (stored : option pyval) (request_obj : request) (w : world),
        tarfile_open E report_tar = Ok files ->
        scan_members files [] None = (json_files, Some metadata_file) ->
        json_files <> [] ->
        validate_metadata_file E files metadata_file request_obj = Ok (valid_slice_ids, stored) ->
        (forall id n file, In (id, n) valid_slice_ids -> In file json_files ->
                           str_contains id (name file) = false) ->
        exists e w',
          extract_report_slices E report_tar request_obj w = (Raise e, w') /\
          class_of e = FailExtractException).
Proof.
  intros H.
  destruct (H (Sample.make_env true (Ok Sample.unmatched_slice) [("s1", 1)] Sample.calls_ok)
              [] Sample.unmatched_slice
              [Sample.file_of_text "report/s9.json" (Sample.slice_text "s9" "[{}]")]
              Sample.metadata_json [("s1", 1)] (Some (PStr "r-1"))
              (new_request_obj Sample.consumed_message) Sample.w0
              eq_refl eq_refl) as (e & w' & Hx & _).
  - discriminate.
  - reflexivity.
  - intros id n file [[= <- <-]|[]] [<-|[]]. reflexivity.
  - vm_compute in Hx. discriminate.
Qed.

Lemma slice_accepted_iff_it_matches_manifest_witness :
  (exists w', check_slice s11_env "s1" 1 s11_file [] Sample.w0 = (Ok [], w')) /\
  outcome (extract_report_slices s11_env [] Sample.request_obj) Sample.w0
  = Ok (Some ([PDict s11_doc], Sample.request_obj)) /\
  let E := Sample.make_env true (Ok Sample.two_slices) [("s1", 1); ("s2", 1)] Sample.calls_ok in
  let file := Sample.file_of_text "report/s2.json" (Sample.slice_text "s2" "[{}]") in
  (exists w', check_slice E "s2" 1 file [] Sample.w0
              = (Ok ([] ++ [Sample.slice_doc "s2" [PDict []]]), w')) /\
  (exists w', check_slice E "s2" 5 file [] Sample.w0 = (Ok [], w')) /\
  (forall accepted request_obj' w',
      extract_report_slices E [] Sample.request_obj Sample.w0
      = (Ok (Some (accepted, request_obj')), w') ->
      In (Sample.slice_doc "s2" [PDict []]) accepted).
Proof.
  split; [|split].
  - assert (Hid : dict_get s11_doc "report_slice_id" (PStr "") <> PStr "s1")
      by (simpl; discriminate).
    destruct (@slice_accepted_iff_it_matches_manifest s11_env "s1" 1 s11_file s11_doc 1%nat
                eq_refl eq_refl) as (Hno & _).
    destruct (Hno (or_introl Hid) [] [] Sample.w0) as (w' & Hc & _).
    exists w'. exact Hc.
  - destruct (@slice_accepted_iff_it_matches_manifest s11_env "s1" 1 s11_file s11_doc 1%nat
                eq_refl eq_refl) as (_ & _ & Hwhole).
    destruct (Hwhole [] [Sample.metadata_json; s11_file] [s11_file] Sample.metadata_json
                [("s1", 1); ("s11", 1)] (Some (PStr "r-1")) Sample.request_obj Sample.w0
                eq_refl eq_refl (or_introl eq_refl) eq_refl (or_introl eq_refl))
      as (_ & Hreturns & _).
    refine (Hreturns _).
    intros id k f _ [<-|[]] _. right. exists s11_doc, 1%nat. reflexivity.
  - intros E file.
    pose proof (@slice_accepted_iff_it_matches_manifest E "s2" 1 file
                  [("report_slice_id", PStr "s2"); ("hosts", PList [PDict []])] 1%nat
                  eq_refl eq_refl) as (_ & Hyes & Hwhole).
    pose proof (@slice_accepted_iff_it_matches_manifest E "s2" 5 file
                  [("report_slice_id", PStr "s2"); ("hosts", PList [PDict []])] 1%nat
                  eq_refl eq_refl) as (Hno & _).
    split; [|split].
    + destruct (Hyes eq_refl eq_refl [] [] Sample.w0) as (w' & Hc & _). exists w'. exact Hc.
    + assert (Hcount : Z.of_nat 1 <> 5) by (simpl; discriminate).
      destruct (Hno (or_intror Hcount) [] [] Sample.w0) as (w' & Hc & _).
      exists w'. exact Hc.
    + intros accepted request_obj' w' Hx.
      destruct (Hwhole [] Sample.two_slices
                  [Sample.file_of_text "report/s1.json"
                     (Sample.slice_text "s1" ("[" ++ Sample.host_x_text ++ "]")%string); file]
                  Sample.metadata_json [("s1", 1); ("s2", 1)] (Some (PStr "r-1"))
                  Sample.request_obj Sample.w0
                  eq_refl eq_refl (or_intror (or_introl eq_refl)) eq_refl
                  (or_intror (or_introl eq_refl)))
        as (Hresult & _ & _ & Hincluded).
      rewrite (Hresult accepted request_obj' w' Hx).
      exact (Hincluded eq_refl eq_refl).
Defined.

(** C7 as stated does not hold.  The manifest lists the slices ["s1"] and
    ["s11"], each with one host, and the only data entry is
    [report/s11.json], which declares ["s11"] and holds one host.  Its name
    contains ["s1"], so it is a matching, well-formed data entry of the pair
    [("s1", 1)] that declares another identifier; still the extraction
    returns its document, accepted for the pair [("s11", 1)]. *)
Lemma mismatching_slice_is_accepted_for_another_pair :
  ~ (forall (E : env) (report_tar : list byte) (files json_files : list TarInfo)
            (metadata_file : TarInfo) (valid_slice_ids : list (string * Z))
            (stored : option pyval) (request_obj request_obj' : request)
            (accepted : list pyval) (w w' : world)
            (report_id : string) (num_hosts : Z) (file : TarInfo) (d : dict) (n : nat),
        tarfile_open E report_tar = Ok files ->
        scan_members files [] None = (json_files, Some metadata_file) ->
        validate_metadata_file E files metadata_file request_obj = Ok (valid_slice_ids, stored) ->
        In (report_id, num_hosts) valid_slice_ids ->
        In file json_files ->
        str_contains report_id (name file) = true ->
        kind_of_entry E file = SliceDocument d n ->
        dict_get d "report_slice_id" (PStr "") <> PStr report_id \/ Z.of_nat n <> num_hosts ->
        extract_report_slices E report_tar request_obj w
        = (Ok (Some (accepted, request_obj')), w') ->
        ~ In (PDict d) accepted).
Proof.
  intros H.
  destruct (extract_report_slices s11_env [] Sample.request_obj Sample.w0)
    as [[[[accepted request_obj']|]|e] w'] eqn:Hx;
    [|vm_compute in Hx; discriminate|vm_compute in Hx; discriminate].
  assert (Hid : dict_get s11_doc "report_slice_id" (PStr "") <> PStr "s1")
    by (simpl; discriminate).
  apply (H s11_env [] [Sample.metadata_json; s11_file] [s11_file] Sample.metadata_json
           [("s1", 1); ("s11", 1)] (Some (PStr "r-1")) Sample.request_obj request_obj'
           accepted Sample.w0 w' "s1" 1 s11_file s11_doc 1%nat
           eq_refl eq_refl eq_refl (or_introl eq_refl) (or_introl eq_refl) eq_refl eq_refl
           (or_introl Hid) Hx).
  vm_compute in Hx. injection Hx as <- _ _. now left.
Qed.

Lemma decode_failure_skips_parse_failure_aborts_witness :
  let E := Sample.make_env true (Ok Sample.undecodable_and_valid) [("s1", 1); ("s2", 1)]
                           Sample.calls_ok in
  let not_utf8 := {| name := "report/s1.json"; extractfile := Content [xff; xfe] |} in
  let valid := Sample.file_of_text "report/s2.json" (Sample.slice_text "s2" "[{}]") in
  let not_json := Sample.file_of_text "report/s1.json" "{" in
  (exists w', check_slice E "s1" 1 not_utf8 [] Sample.w0 = (Ok [], w')) /\
  outcome (collect_slices E [("s1", 1); ("s2", 1)] ([] ++ not_utf8 :: [valid])) Sample.w0
  = outcome (collect_slices E [("s1", 1); ("s2", 1)] ([] ++ [valid])) Sample.w0 /\
  (exists w', check_slice E "s1" 1 not_json [] Sample.w0
              = (Raise (Exc JSONDecodeError []), w')) /\
  (exists w',
      extract_report_slices
        (Sample.make_env true (Ok [Sample.metadata_json; not_json]) [("s1", 1)] Sample.calls_ok)
        [] Sample.request_obj Sample.w0
      = (Raise (not_valid_json Sample.request_obj (Exc JSONDecodeError [])), w')).
Proof.
  intros E not_utf8 valid not_json.
  destruct (decode_failure_skips_parse_failure_aborts E) as [Hskip Hfatal].
  destruct (Hskip not_utf8 eq_refl) as [Hstep Hloop].
  destruct (Hfatal not_json "s1" 1 eq_refl eq_refl) as [Hraise _].
  split; [|split; [|split]].
  - destruct (Hstep "s1" 1 [] Sample.w0) as (w' & Hc & _). exists w'. exact Hc.
  - exact (Hloop [("s1", 1); ("s2", 1)] [] [valid] Sample.w0 Sample.w0).
  - exact (Hraise [] Sample.w0).
  - destruct (decode_failure_skips_parse_failure_aborts
                (Sample.make_env true (Ok [Sample.metadata_json; not_json]) [("s1", 1)]
                                 Sample.calls_ok)) as [_ Hfatal'].
    destruct (Hfatal' not_json "s1" 1 eq_refl eq_refl) as (_ & Hwhole & _).
    refine (Hwhole [] [Sample.metadata_json; not_json] [not_json] Sample.metadata_json
              [("s1", 1)] (Some (PStr "r-1")) Sample.request_obj Sample.w0
              eq_refl eq_refl eq_refl _ _ _).
    + intros id n f _ [<-|[]] _. vm_compute. discriminate.
    + left. reflexivity.
    + left. reflexivity.
Defined.

Lemma unexpected_error_returns_None_witness :
  let E := Sample.make_env true (Ok Sample.broken_member) [("s1", 1)] Sample.calls_ok in
  exists w',
    process_report E Sample.consumed_message Sample.w0 = (Raise (Exc TypeError []), w').
Proof.
  intros E.
  assert (Hu : unexpected (Exc (OtherError "OSError") [])) by (repeat split).
  destruct (@unexpected_error_returns_None E (Exc (OtherError "OSError") []) Hu)
    as (_ & Hinside & Hcaller).
  eexists. eapply Hcaller.
  - reflexivity.
  - refine (proj2 (Hinside [] Sample.broken_member
                     [{| name := "report/s1.json";
                         extractfile := ReadFails (Exc (OtherError "OSError") []) |}]
                     Sample.metadata_json _ _ eq_refl eq_refl _) [("s1", 1)]
                  (Some (PStr "r-1")) _ eq_refl _).
    + discriminate.
    + reflexivity.
Defined.

Lemma publish_failure_is_typed_unless_kafka_exception_witness :
  let failing := {| new_Producer := None; json_dumps := None;
                    produce := Some (Exc (OtherError "BufferError") []);
                    poll := None; flush := None |} in
  let E := Sample.make_env true (Ok []) [] failing in
  exists w',
    upload_to_host_inventory_via_kafka E Sample.host_x Sample.request_obj Sample.w0
    = (Raise (upload_error (Exc (OtherError "BufferError") []) (PStr "acct") (PStr "r-1")), w').
Proof.
  intros failing E.
  destruct (@publish_failure_is_typed_unless_kafka_exception E Sample.host_x Sample.request_obj
              Sample.w0 (PStr "acct") (PStr "r-1") eq_refl eq_refl) as (_ & _ & Hsub).
  destruct (Hsub (PStr "u-1") eq_refl) as (_ & Hrest).
  destruct (Hrest eq_refl) as (_ & Hbody).
  exact (Hbody eq_refl (Exc (OtherError "BufferError") []) eq_refl).
Defined.

(** C4 as stated does not hold: a [KafkaException] raised by
    [producer.produce] is caught inside [send_message], and the publication
    returns without raising. *)
Lemma kafka_exception_is_swallowed :
  ~ (forall (E : env) (host : dict) (request_obj : request) (w : world)
            (system_unique_id : pyval) (e : exc),
        dict_lookup host "system_unique_id" = Some system_unique_id ->
        submission_failure (kafka E w (upload_msg host system_unique_id request_obj)) = Some e ->
        exists args w',
          upload_to_host_inventory_via_kafka E host request_obj w
          = (Raise (Exc KafkaMsgHandlerError args), w')).
Proof.
  intros H.
  destruct (H (Sample.make_env true (Ok []) []
                 {| new_Producer := None; json_dumps := None;
                    produce := Some (Exc KafkaException []);
                    poll := None; flush := None |})
              Sample.host_x Sample.request_obj Sample.w0 (PStr "u-1")
              (Exc KafkaException []) eq_refl eq_refl) as (args & w' & Hx).
  vm_compute in Hx. discriminate.
Qed.

Lemma published_envelope_shape_witness :
  let E := Sample.make_env true (Ok Sample.two_slices) [("s1", 1); ("s2", 1)] Sample.calls_ok in
  sent (snd (upload_to_host_inventory_via_kafka E Sample.host_x Sample.request_obj Sample.w0))
  = [PDict [("operation", PStr "add_host");
            ("data", PDict Sample.host_x);
            ("platform_metadata",
             PDict [("request_id", PStr "u-1"); ("b64_identity", PStr "aWQ=")])]]
  /\
  sent (snd (process_candidate E [("report_slice_id", PStr "s1")] 1 "id-1"
                               (dict_set Sample.host_x "yupana_host_id" (PStr "id-1"))
                               {| count := 0; candidate_hosts := [];
                                  hosts_without_facts := [];
                                  request_obj_of := Sample.request_obj |} Sample.w0))
  = [PDict [("operation", PStr "add_host");
            ("data", PDict (Sample.host_x ++ [("yupana_host_id", PStr "id-1");
                                              ("report_slice_id", PStr "s1")]));
            ("platform_metadata",
             PDict [("request_id", PStr "u-1"); ("b64_identity", PStr "aWQ=")])]]
  /\
  exists msgs,
    sent (snd (process_report E Sample.consumed_message Sample.w0)) = sent Sample.w0 ++ msgs /\
    Forall (fun msg =>
              exists report_tar report_json_files request_obj w1 report_slice,
                outcome (extract_report_slices E report_tar
                           (new_request_obj Sample.consumed_message)) w1
                = Ok (Some (report_json_files, request_obj)) /\
                In report_slice report_json_files /\
                candidate_envelope E (PStr "aWQ=") report_slice msg)
           msgs.
Proof.
  intros E.
  destruct (published_envelope_shape E) as (Hupload & Hcandidate & Hrun).
  split; [|split].
  - rewrite Hupload. reflexivity.
  - rewrite Hcandidate. reflexivity.
  - exact (Hrun (fun run (H : In run []) => match H with end) Sample.consumed_message
                Sample.w0).
Defined.

Lemma disabled_transformation_raises_before_publishing_witness :
  let E := Sample.make_env false (Ok Sample.two_slices) [("s1", 1); ("s2", 1)] Sample.calls_ok in
  process_host E [] 1 (PDict Sample.host_x)
               {| count := 0; candidate_hosts := []; hosts_without_facts := [];
                  request_obj_of := Sample.request_obj |} Sample.w0
  = (Raise (Exc UnboundLocalError [ArgVal (PStr "transformed_obj")]),
     {| sent := []; logs := []; uuids_drawn := 1 |}).
Proof.
  intros E.
  destruct (@disabled_transformation_raises_before_publishing E eq_refl) as [Hhost _].
  exact (Hhost [] 1 Sample.host_x _ Sample.w0 eq_refl).
Defined.

(* ================================================================== *)
(** ** Further properties of the module *)

Lemma catches_download_class (e : exc) :
  catches ExceptFailDownloadException e = true -> class_of e = FailDownloadException.
Proof. destruct e as [cls args]. destruct cls; unfold catches; simpl; congruence. Qed.

Lemma catches_extract_class (e : exc) :
  catches ExceptFailExtractException e = true -> class_of e = FailExtractException.
Proof. destruct e as [cls args]. destruct cls; unfold catches; simpl; congruence. Qed.

Lemma catches_exception (e : exc) : catches ExceptException e = true.
Proof. reflexivity. Qed.

(* ------------------------------------------------------------------ *)
(** *** ArchiveFetcher *)

Section Fetcher.

Variable E : env.

(** X1.  A message whose [url] is missing, [None] or empty makes
    [download_report], and with it [process_report], raise
    [FailDownloadException] carrying the message itself; the world is as it
    was: nothing was fetched, logged or published. *)
Theorem download_without_url (consumed_message : dict) (w : world) :
  truthy (dict_get consumed_message "url" PNone) = false ->
  let no_url :=
    Exc FailDownloadException
      [ArgVal (PStr "%s - Kafka message has no report url.  Message: %s");
       ArgVal (PStr "REPORT DOWNLOAD"); ArgVal (PDict consumed_message)] in
  download_report E consumed_message w = (Raise no_url, w) /\
  process_report E consumed_message w = (Raise no_url, w).
Proof.
  intros Hurl no_url.
  assert (Hd : download_report E consumed_message w = (Raise no_url, w)).
  { unfold download_report. run_monad. rewrite Hurl. reflexivity. }
  split; [exact Hd|].
  unfold process_report. run_monad. rewrite Hd. reflexivity.
Qed.

(** X2.  [download_report] returns the content exactly when the [url] is
    non-empty and the fetch succeeds, logging before and after the fetch; an
    exception of the fetch is wrapped into a [FailDownloadException] carrying
    the url, the exception and the account; and whatever it raises is a
    [FailDownloadException], nothing being published. *)
Theorem download_report_outcomes (consumed_message : dict) (w : world) :
  let url := dict_get consumed_message "url" PNone in
  (forall content w',
      download_report E consumed_message w = (Ok content, w') <->
      truthy url = true /\ requests_get E url = Ok content /\
      w' = add_logs w [InfoDownloading url; InfoDownloaded url])
  /\
  (forall err,
      truthy url = true -> requests_get E url = Raise err ->
      catches ExceptFailDownloadException err = false ->
      download_report E consumed_message w
      = (Raise (Exc FailDownloadException
                  [ArgVal (PStr "%s - Unexpected error for URL %s. Error: %s");
                   ArgVal (PStr "REPORT DOWNLOAD"); ArgVal url; ArgExc err;
                   ArgVal (dict_get consumed_message "account" PNone)]),
         add_logs w [InfoDownloading url]))
  /\
  (forall e w',
      download_report E consumed_message w = (Raise e, w') ->
      class_of e = FailDownloadException /\ sent w' = sent w).
Proof.
  intros url. unfold download_report. fold url. run_monad. unfold add_logs.
  destruct (truthy url) eqn:Hurl; cbn.
  - destruct (requests_get E url) as [content|err] eqn:Hget; cbn.
    + split; [|split].
      * intros c w'. split.
        -- intros [= <- <-]. rewrite <- app_assoc. auto.
        -- intros (_ & [= <-] & ->). rewrite <- app_assoc. reflexivity.
      * intros err _ Habs. discriminate.
      * intros e w' H. discriminate.
    + split; [|split].
      * intros c w'. split.
        -- destruct (catches ExceptFailDownloadException err); discriminate.
        -- intros (_ & Habs & _). discriminate.
      * intros err' _ [= <-] Hc. rewrite Hc. reflexivity.
      * intros e w'. destruct (catches ExceptFailDownloadException err) eqn:Hc.
        -- intros [= <- <-]. split; [now apply catches_download_class|reflexivity].
        -- unfold catches; cbn. intros [= <- <-]. split; reflexivity.
  - unfold catches; cbn. split; [|split].
    + intros c w'. split; [discriminate|]. intros (Habs & _). discriminate.
    + intros err Habs. discriminate.
    + intros e w' [= <- <-]. split; reflexivity.
Qed.

End Fetcher.

(* ------------------------------------------------------------------ *)
(** *** The scan, once more *)

Lemma find_app_first {A : Type} (p : A -> bool) (l1 l2 : list A) :
  find p (l1 ++ l2) = match find p l1 with Some x => Some x | None => find p l2 end.
Proof.
  induction l1 as [|x rest IH]; simpl; [reflexivity|].
  destruct (p x); [reflexivity|exact IH].
Qed.

Lemma scan_members_metadata (files json_files : list TarInfo) (metadata_file : option TarInfo) :
  snd (scan_members files json_files metadata_file)
  = match last_metadata files with Some m => Some m | None => metadata_file end.
Proof.
  unfold last_metadata. revert json_files metadata_file.
  induction files as [|file rest IH]; intros json_files metadata_file; simpl; [reflexivity|].
  rewrite find_app_first. simpl.
  destruct (is_metadata_name (name file)) eqn:Hm.
  - rewrite IH. destruct (find _ (rev rest)); reflexivity.
  - destruct (str_contains ".json" (name file)); rewrite IH;
      destruct (find _ (rev rest)); reflexivity.
Qed.

(** X3.  The scan keeps, in the order of the archive, the members whose name
    contains [.json] and is not that of a manifest, and takes as manifest the
    last member named [metadata.json], at the root or in a directory. *)
Theorem scan_members_result (files : list TarInfo) :
  scan_members files [] None = (filter is_data_entry files, last_metadata files).
Proof.
  pose proof (scan_members_json_files files [] None) as Hj.
  pose proof (scan_members_metadata files [] None) as Hm.
  destruct (scan_members files [] None) as [jf md]. simpl in Hj, Hm. subst jf md.
  now destruct (last_metadata files).
Qed.

(* ------------------------------------------------------------------ *)
(** *** Computations that draw no identifier *)

Lemma keeps_ret {A : Type} (a : A) : keeps_uuids (ret a).
Proof. intros w. reflexivity. Qed.

Lemma keeps_raise {A : Type} (e : exc) : keeps_uuids (@raise A e).
Proof. intros w. reflexivity. Qed.

Lemma keeps_lift {A : Type} (r : result A) : keeps_uuids (lift r).
Proof. intros w. reflexivity. Qed.

Lemma keeps_LOG (ev : log_event) : keeps_uuids (LOG ev).
Proof. intros w. reflexivity. Qed.

Lemma keeps_bind {A B : Type} (c : M A) (k : A -> M B) :
  keeps_uuids c -> (forall a, keeps_uuids (k a)) -> keeps_uuids (bind c k).
Proof.
  intros Hc Hk w. specialize (Hc w). unfold bind.
  destruct (c w) as [[a|e] w1]; simpl in *; [|exact Hc].
  rewrite (Hk a w1). exact Hc.
Qed.

Lemma keeps_try_except {A : Type} (body : M A) (clauses : list (handler * (exc -> M A))) :
  keeps_uuids body ->
  (forall h f e, In (h, f) clauses -> keeps_uuids (f e)) ->
  keeps_uuids (try_except body clauses).
Proof.
  intros Hb Hcl w. specialize (Hb w). unfold try_except.
  destruct (body w) as [[a|e] w1]; simpl in *; [exact Hb|].
  destruct (select_clause clauses e) as [on_error|] eqn:Hs; [|exact Hb].
  destruct (select_clause_in _ _ Hs) as (h & f & Hin & ->).
  rewrite (Hcl h f e Hin w1). exact Hb.
Qed.

Lemma keeps_try_finally {A : Type} (body : M A) (cleanup : M unit) :
  keeps_uuids body -> keeps_uuids cleanup -> keeps_uuids (try_finally body cleanup).
Proof.
  intros Hb Hc w. specialize (Hb w). unfold try_finally.
  destruct (body w) as [r w1]. specialize (Hc w1).
  destruct (cleanup w1) as [[[]|e] w2]; simpl in *; congruence.
Qed.

Lemma keeps_for_each {A S : Type} (body : A -> S -> M S) (items : list A) :
  (forall x s, keeps_uuids (body x s)) -> forall s, keeps_uuids (for_each body items s).
Proof.
  intros Hbody. induction items as [|x rest IH]; intros s; simpl.
  - apply keeps_ret.
  - apply keeps_bind; [apply Hbody|exact IH].
Qed.

(** Discharges [keeps_uuids c] for a computation made of the operations of
    the monad. *)
Ltac keeps_quiet :=
  lazymatch goal with
  | |- keeps_uuids (raise _) => apply keeps_raise
  | |- keeps_uuids (ret _) => apply keeps_ret
  | |- keeps_uuids (LOG _) => apply keeps_LOG
  | |- keeps_uuids (lift _) => apply keeps_lift
  | |- keeps_uuids (bind _ _) => apply keeps_bind; [keeps_quiet|intros ?; keeps_quiet]
  | |- keeps_uuids (try_except _ _) =>
      apply keeps_try_except;
      [keeps_quiet
      |let h := fresh "h" in let f := fresh "f" in let e := fresh "e" in
       let H := fresh "H" in
       intros h f e H; in_clauses H; keeps_quiet]
  | |- keeps_uuids (try_finally _ _) => apply keeps_try_finally; keeps_quiet
  | |- keeps_uuids (for_each _ _ _) => apply keeps_for_each; intros ? ?; keeps_quiet
  | |- keeps_uuids (match ?x with _ => _ end) => destruct x; keeps_quiet
  | |- _ => idtac
  end.

(* ------------------------------------------------------------------ *)
(** *** SliceExtractor, as a whole *)

Section Extractor.

Variable E : env.

Lemma keeps_check_slice (report_id : string) (num_hosts : Z) (file : TarInfo)
    (report_files : list pyval) :
  keeps_uuids (check_slice E report_id num_hosts file report_files).
Proof. unfold check_slice, tar_extractfile, read, decode, loads. keeps_quiet. Qed.

Lemma keeps_extract_report_slices (report_tar : list byte) (request_obj : request) :
  keeps_uuids (extract_report_slices E report_tar request_obj).
Proof.
  unfold extract_report_slices, open_and_extract, validate_and_collect, collect_slices.
  keeps_quiet. apply keeps_check_slice.
Qed.

Lemma keeps_download_report (consumed_message : dict) :
  keeps_uuids (download_report E consumed_message).
Proof. unfold download_report. keeps_quiet. Qed.

(** X4.  Whatever the archive, the validator and the decoders do,
    [extract_report_slices] raises nothing but [FailExtractException]; it
    publishes nothing and draws no identifier. *)
Theorem extraction_raises_only_FailExtractException
    (report_tar : list byte) (request_obj : request) (w : world) :
  (forall e w',
      extract_report_slices E report_tar request_obj w = (Raise e, w') ->
      class_of e = FailExtractException)
  /\ sent (snd (extract_report_slices E report_tar request_obj w)) = sent w
  /\ uuids_drawn (snd (extract_report_slices E report_tar request_obj w)) = uuids_drawn w.
Proof.
  split; [|split].
  - intros e w'. unfold extract_report_slices. run_monad.
    destruct (open_and_extract E report_tar request_obj w) as [[x|e0] w1]; [discriminate|].
    destruct (catches ExceptFailExtractException e0) eqn:Hf.
    + intros [= <- _]. now apply catches_extract_class.
    + destruct (catches ExceptReadError e0).
      * intros [= <- _]. reflexivity.
      * unfold catches; cbn. discriminate.
  - destruct (spec_extract_report_slices E (fun _ => False) report_tar request_obj w)
      as [(msgs & Hp & Hf) _].
    destruct msgs as [|m rest].
    + unfold published in Hp. now rewrite app_nil_r in Hp.
    + inversion Hf as [|? ? Hm _]. contradiction.
  - apply keeps_extract_report_slices.
Qed.

Lemma read_error_is_no_extract_error (e : exc) :
  catches ExceptReadError e = true -> catches ExceptFailExtractException e = false.
Proof. destruct e as [cls args]. destruct cls; unfold catches; simpl; congruence. Qed.

Lemma extract_error_is_no_value_error (e : exc) :
  catches ExceptFailExtractException e = true -> catches ExceptValueError e = false.
Proof. destruct e as [cls args]. destruct cls; unfold catches; simpl; congruence. Qed.

(** X5.  A container that [tarfile] cannot read is fatal: the [ReadError] is
    turned into a [FailExtractException] carrying its text and the account,
    nothing is logged, and [process_report] stops with that exception right
    after the download. *)
Theorem unreadable_container_is_fatal
    (report_tar : list byte) (request_obj : request) (w : world) (err : exc) :
  tarfile_open E report_tar = Raise err ->
  catches ExceptReadError err = true ->
  extract_report_slices E report_tar request_obj w
  = (Raise (unexpected_tar_error request_obj err), w)
  /\
  (forall consumed_message w0,
      download_report E consumed_message w0 = (Ok report_tar, w) ->
      request_obj = new_request_obj consumed_message ->
      process_report E consumed_message w0
      = (Raise (unexpected_tar_error request_obj err), w)).
Proof.
  intros Hopen Hread.
  assert (Hx : extract_report_slices E report_tar request_obj w
               = (Raise (unexpected_tar_error request_obj err), w)).
  { unfold extract_report_slices, open_and_extract. run_monad.
    rewrite Hopen, (read_error_is_no_extract_error _ Hread), Hread. reflexivity. }
  split; [exact Hx|].
  intros consumed_message w0 Hd ->.
  unfold process_report. run_monad. rewrite Hd, Hx. reflexivity.
Qed.

(** X6.  When the validator rejects the manifest, no data entry is examined:
    a [ValueError] of the validator (a manifest that is not JSON, or not
    UTF-8) becomes the [FailExtractException] "Report is not valid JSON", and
    a [FailExtractException] of the validator leaves the function as it
    is. *)
Theorem manifest_errors_are_fatal
    (report_tar : list byte) (files json_files : list TarInfo) (metadata_file : TarInfo)
    (request_obj : request) (w : world) (err : exc) :
  tarfile_open E report_tar = Ok files ->
  scan_members files [] None = (json_files, Some metadata_file) ->
  json_files <> [] ->
  validate_metadata_file E files metadata_file request_obj = Raise err ->
  (catches ExceptValueError err = true ->
   extract_report_slices E report_tar request_obj w
   = (Raise (not_valid_json request_obj err), w))
  /\
  (catches ExceptFailExtractException err = true ->
   extract_report_slices E report_tar request_obj w = (Raise err, w)).
Proof.
  intros Hopen Hscan Hne Hval.
  destruct json_files as [|f0 rest0]; [contradiction|]. split.
  - intros Hv. unfold extract_report_slices, open_and_extract. run_monad.
    rewrite Hopen, Hscan. unfold validate_and_collect. run_monad.
    rewrite Hval, Hv. reflexivity.
  - intros Hf. unfold extract_report_slices, open_and_extract. run_monad.
    rewrite Hopen, Hscan. unfold validate_and_collect. run_monad.
    rewrite Hval, (extract_error_is_no_value_error _ Hf), Hf. reflexivity.
Qed.

End Extractor.

(* ------------------------------------------------------------------ *)
(** *** The accepted slices *)

Section AcceptedSlices.

Variable E : env.

(** A completed [check_slice] either leaves the accepted slices alone or
    appends one document that agrees with the pair of the manifest. *)
Lemma check_slice_result (report_id : string) (num_hosts : Z) (file : TarInfo)
    (report_files report_files' : list pyval) (w w' : world) :
  check_slice E report_id num_hosts file report_files w = (Ok report_files', w') ->
  report_files' = report_files \/
  exists d k,
    report_files' = report_files ++ [PDict d] /\
    dict_get d "report_slice_id" (PStr "") = PStr report_id /\
    py_len (dict_get d "hosts" (PDict [])) = Some k /\
    Z.of_nat k = num_hosts.
Proof.
  unfold check_slice, tar_extractfile, read, decode, loads.
  destruct (str_contains report_id (name file)).
  2:{ intros [= <- _]. now left. }
  run_monad.
  destruct (extractfile file) as [e| |e|b]; cbn; try discriminate.
  - destruct (catches ExceptUnicodeDecodeError e); cbn; [|discriminate].
    intros [= <- _]. now left.
  - destruct (utf8_decode E b) as [text|]; unfold catches; cbn.
    2:{ intros [= <- _]. now left. }
    destruct (json_loads E text) as [[| | | | | |d]|]; cbn; try discriminate.
    destruct (py_len (dict_get d "hosts" (PDict []))) as [k|] eqn:Hlen; cbn; try discriminate.
    destruct (differs_from_str (dict_get d "report_slice_id" (PStr "")) report_id
              || negb (Z.of_nat k =? num_hosts)) eqn:Hmis; cbn.
    + intros [= <- _]. now left.
    + intros [= <- _]. right. exists d, k.
      apply orb_false_elim in Hmis. destruct Hmis as [Hid Hcount].
      apply differs_from_str_false in Hid.
      apply negb_false_iff, Z.eqb_eq in Hcount. auto.
Qed.

Lemma for_files_matches (valid_slice_ids : list (string * Z)) (report_id : string)
    (num_hosts : Z) (json_files : list TarInfo)
    (report_files report_files' : list pyval) (w w' : world) :
  In (report_id, num_hosts) valid_slice_ids ->
  Forall (matches_manifest valid_slice_ids) report_files ->
  for_each (check_slice E report_id num_hosts) json_files report_files w
  = (Ok report_files', w') ->
  Forall (matches_manifest valid_slice_ids) report_files'.
Proof.
  intros Hin. revert report_files w.
  induction json_files as [|file rest IH]; intros report_files w Hall; simpl.
  - now intros [= <- _].
  - unfold bind.
    destruct (check_slice E report_id num_hosts file report_files w) as [[acc|e] w1] eqn:Hc;
      [|discriminate].
    apply IH. destruct (check_slice_result _ _ _ _ _ Hc) as [->|(d & k & -> & Hid & Hlen & Hn)];
      [exact Hall|].
    apply Forall_app. split; [exact Hall|]. constructor; [|constructor].
    exists report_id, num_hosts, d, k. auto.
Qed.

Lemma for_manifest_matches (valid_slice_ids items : list (string * Z))
    (json_files : list TarInfo) (report_files report_files' : list pyval) (w w' : world) :
  (forall item, In item items -> In item valid_slice_ids) ->
  Forall (matches_manifest valid_slice_ids) report_files ->
  for_each (fun item : string * Z => for_each (check_slice E (fst item) (snd item)) json_files)
           items report_files w = (Ok report_files', w') ->
  Forall (matches_manifest valid_slice_ids) report_files'.
Proof.
  revert report_files w.
  induction items as [|[id n] rest IH]; intros report_files w Hsub Hall; simpl.
  - now intros [= <- _].
  - unfold bind.
    destruct (for_each (check_slice E id n) json_files report_files w) as [[acc|e] w1] eqn:Hc;
      [|discriminate].
    apply IH; [intros item Hi; apply Hsub; now right|].
    eapply for_files_matches; [apply Hsub; now left|exact Hall|exact Hc].
Qed.

(** X7.  Every slice a completed extraction returns agrees with the
    manifest: it is an object whose [report_slice_id] is an identifier of the
    manifest and whose number of hosts is the count declared for that
    identifier; and the request context comes back with the report identifier
    the validator stored. *)
Theorem accepted_slices_agree_with_manifest
    (report_tar : list byte) (files json_files : list TarInfo) (metadata_file : TarInfo)
    (valid_slice_ids : list (string * Z)) (stored : option pyval)
    (request_obj request_obj' : request) (accepted : list pyval) (w w' : world) :
  tarfile_open E report_tar = Ok files ->
  scan_members files [] None = (json_files, Some metadata_file) ->
  validate_metadata_file E files metadata_file request_obj = Ok (valid_slice_ids, stored) ->
  extract_report_slices E report_tar request_obj w = (Ok (Some (accepted, request_obj')), w') ->
  Forall (matches_manifest valid_slice_ids) accepted /\
  request_obj' = with_report_platform_id request_obj stored.
Proof.
  intros Hopen Hscan Hval.
  unfold extract_report_slices, open_and_extract. run_monad.
  rewrite Hopen, Hscan.
  destruct json_files as [|f0 rest0].
  { unfold catches; cbn. discriminate. }
  unfold validate_and_collect. run_monad. rewrite Hval.
  unfold collect_slices.
  destruct (for_each _ valid_slice_ids [] w) as [[l|e] w1] eqn:Hloop.
  - intros [= <- <- _]. split; [|reflexivity].
    eapply for_manifest_matches; [|constructor|exact Hloop]. auto.
  - destruct (catches ExceptValueError e).
    + unfold catches; cbn. discriminate.
    + destruct (catches ExceptFailExtractException e); [discriminate|].
      destruct (catches ExceptReadError e); discriminate.
Qed.

(** X8.  When every data entry that an identifier of the manifest names is
    either undecodable or a well-formed document, the extraction completes and
    returns exactly the accepted slices in the order of the loops: pair by pair
    of the manifest and, for each pair, entry by entry of the archive, the
    documents that declare the identifier and hold the declared number of
    hosts. *)
Theorem extraction_returns_accepted_slices
    (report_tar : list byte) (files json_files : list TarInfo) (metadata_file : TarInfo)
    (valid_slice_ids : list (string * Z)) (stored : option pyval)
    (request_obj : request) (w : world) :
  tarfile_open E report_tar = Ok files ->
  scan_members files [] None = (json_files, Some metadata_file) ->
  json_files <> [] ->
  validate_metadata_file E files metadata_file request_obj = Ok (valid_slice_ids, stored) ->
  (forall id n file, In (id, n) valid_slice_ids -> In file json_files ->
                     str_contains id (name file) = true ->
                     kind_of_entry E file = Undecodable \/
                     exists d k, kind_of_entry E file = SliceDocument d k) ->
  outcome (extract_report_slices E report_tar request_obj) w
  = Ok (Some (accepted_slices E valid_slice_ids json_files,
              with_report_platform_id request_obj stored)).
Proof.
  intros Hopen Hscan Hne Hval Hkind.
  pose proof (@collect_slices_accepted E valid_slice_ids json_files w Hkind) as Hc.
  unfold outcome in *.
  unfold extract_report_slices, open_and_extract. run_monad.
  rewrite Hopen, Hscan.
  destruct json_files as [|f0 rest0]; [contradiction|].
  unfold validate_and_collect. run_monad. rewrite Hval.
  destruct (collect_slices E valid_slice_ids (f0 :: rest0) w) as [[l|e] w1];
    simpl in Hc; [|discriminate].
  injection Hc as ->. reflexivity.
Qed.

End AcceptedSlices.

(* ------------------------------------------------------------------ *)
(** *** Publisher and transformation log *)

Lemma log_sections_nil (t : transformed) :
  log_sections t = [] <-> forall k v, In (k, v) t -> v = [].
Proof.
  unfold log_sections. induction t as [|[k0 v0] rest IH]; simpl.
  - split; [intros _ k v []|reflexivity].
  - destruct v0 as [|x v0]; simpl.
    + rewrite IH. split.
      * intros H k v [[= <- <-]|Hin]; [reflexivity|now apply (H k)].
      * intros H k v Hin. apply (H k). now right.
    + split; [discriminate|]. intros H. specialize (H k0 (x :: v0) (or_introl eq_refl)).
      discriminate.
Qed.

Section PublisherDetails.

Variable E : env.

(** X9.  [print_transformed_info] does nothing for [None] and for an
    accumulator all of whose lists are empty; when some list is not empty it
    writes one log record, or raises [KeyError] if the request context has no
    [report_platform_id]. *)
Theorem print_transformed_info_outcomes
    (request_obj : request) (host_id : pyval) (w : world) :
  print_transformed_info request_obj host_id None w = (Ok tt, w)
  /\
  (forall t, (forall k v, In (k, v) t -> v = []) ->
             print_transformed_info request_obj host_id (Some t) w = (Ok tt, w))
  /\
  (forall t k v, In (k, v) t -> v <> [] ->
     print_transformed_info request_obj host_id (Some t) w
     = match report_platform_id request_obj with
       | Some _ => (Ok tt, add_logs w [InfoTransformed host_id])
       | None => (Raise (Exc KeyError [ArgVal (PStr "report_platform_id")]), w)
       end).
Proof.
  split; [reflexivity|split].
  - intros t Hall. apply log_sections_nil in Hall.
    unfold print_transformed_info. now rewrite Hall.
  - intros t k v Hin Hv. unfold print_transformed_info, subscript_report_platform_id.
    destruct (log_sections t) as [|s rest] eqn:Hs.
    + exfalso. apply Hv. exact (proj1 (log_sections_nil t) Hs k v Hin).
    + run_monad. destruct (report_platform_id request_obj); reflexivity.
Qed.

(** X10.  [send_message] hands the message to the producer at most once, and
    exactly when the producer was built and serialising and [produce] did not
    raise, whatever [poll] and [flush] do afterwards.  What it raises is: an
    [UnboundLocalError] in place of any failure to build the producer; else
    the exception of [flush]; else the first failure of serialising, producing
    or polling unless that is a [KafkaException]. *)
Theorem send_message_outcomes (msg request_id : pyval) (w : world) :
  let k := kafka E w msg in
  sent (snd (send_message E msg request_id w))
  = match new_Producer k, json_dumps k, produce k with
    | None, None, None => sent w ++ [msg]
    | _, _, _ => sent w
    end
  /\
  outcome (send_message E msg request_id) w
  = match new_Producer k with
    | Some _ => Raise (Exc UnboundLocalError [ArgVal (PStr "producer")])
    | None =>
        match flush k with
        | Some e => Raise e
        | None =>
            match submission_failure k with
            | Some e => if catches ExceptKafkaException e then Ok tt else Raise e
            | None => Ok tt
            end
        end
    end.
Proof.
  intros k. split.
  - unfold send_message. fold k. unfold send_with, hand_to_producer. run_monad.
    destruct (new_Producer k) as [e0|]; cbn.
    { destruct (catches ExceptKafkaException e0); reflexivity. }
    destruct (json_dumps k) as [e1|]; cbn.
    { destruct (catches ExceptKafkaException e1), (flush k); reflexivity. }
    destruct (produce k) as [e2|]; cbn.
    { destruct (catches ExceptKafkaException e2), (flush k); reflexivity. }
    destruct (poll k) as [e3|]; cbn.
    { destruct (catches ExceptKafkaException e3), (flush k); reflexivity. }
    destruct (flush k); reflexivity.
  - unfold outcome, send_message. fold k.
    destruct (send_with_result k msg request_id w) as [w' ->]. reflexivity.
Qed.

(** X11.  The clause that converts a publication error reads
    [host['account']] and [request_obj['report_platform_id']]: for a record
    without [account], or in a context without report identifier, a failed
    publication ends in that [KeyError] and not in a
    [KafkaMsgHandlerError]. *)
Theorem upload_error_needs_account_and_report_id
    (host : dict) (request_obj : request) (w w1 : world) (err : exc) :
  build_and_send E host request_obj w = (Raise err, w1) ->
  (dict_lookup host "account" = None ->
   upload_to_host_inventory_via_kafka E host request_obj w
   = (Raise (Exc KeyError [ArgVal (PStr "account")]), add_logs w1 [ErrorUpload err]))
  /\
  (forall acc,
      dict_lookup host "account" = Some acc ->
      report_platform_id request_obj = None ->
      upload_to_host_inventory_via_kafka E host request_obj w
      = (Raise (Exc KeyError [ArgVal (PStr "report_platform_id")]),
         add_logs w1 [ErrorUpload err])).
Proof.
  intros Hb. split.
  - intros Hacc.
    unfold upload_to_host_inventory_via_kafka, subscript. run_monad.
    rewrite Hb. unfold catches. cbn. rewrite Hacc. reflexivity.
  - intros acc Hacc Hrpi.
    unfold upload_to_host_inventory_via_kafka, subscript, subscript_report_platform_id.
    run_monad. rewrite Hb. unfold catches. cbn. rewrite Hacc, Hrpi. reflexivity.
Qed.

Lemma keeps_send_message (msg request_id : pyval) :
  keeps_uuids (send_message E msg request_id).
Proof.
  intros w. unfold send_message.
  assert (H : keeps_uuids (send_with (kafka E w msg) msg request_id)).
  { unfold send_with, call. apply keeps_try_finally.
    - apply keeps_try_except.
      + repeat (apply keeps_bind; [|intros ?]); keeps_quiet; intros w0; reflexivity.
      + intros h f e Hc. in_clauses Hc. apply keeps_LOG.
    - keeps_quiet. }
  apply H.
Qed.

Lemma keeps_upload (host : dict) (request_obj : request) :
  keeps_uuids (upload_to_host_inventory_via_kafka E host request_obj).
Proof.
  unfold upload_to_host_inventory_via_kafka, build_and_send, subscript,
    subscript_report_platform_id.
  keeps_quiet; apply keeps_send_message.
Qed.

End PublisherDetails.

(* ------------------------------------------------------------------ *)
(** *** The candidate branch *)

Lemma for_each_app {A S : Type} (body : A -> S -> M S) (l1 l2 : list A) (s : S) (w : world) :
  for_each body (l1 ++ l2) s w
  = match for_each body l1 s w with
    | (Ok s1, w1) => for_each body l2 s1 w1
    | (Raise e, w1) => (Raise e, w1)
    end.
Proof.
  revert s w. induction l1 as [|x rest IH]; intros s w; simpl; [reflexivity|].
  unfold bind. destruct (body x s w) as [[s1|e] w1]; [apply IH|reflexivity].
Qed.

(** A loop stops at the first item whose body raises; the items after it are
    not visited. *)
Lemma for_each_abort {A S : Type} (body : A -> S -> M S) (before after : list A) (x : A)
    (s s1 : S) (w w1 w2 : world) (e : exc) :
  for_each body before s w = (Ok s1, w1) ->
  body x s1 w1 = (Raise e, w2) ->
  for_each body (before ++ x :: after) s w = (Raise e, w2).
Proof.
  intros Hb Hx. rewrite for_each_app, Hb. simpl. unfold bind. now rewrite Hx.
Qed.

Section CandidateBranch.

Variable E : env.

Lemma keeps_process_candidate (report_slice : dict) (total_hosts : Z)
    (yupana_host_id : string) (host : dict) (st : slice_state) :
  keeps_uuids (process_candidate E report_slice total_hosts yupana_host_id host st).
Proof.
  unfold process_candidate.
  destruct (HOSTS_TRANSFORMATION_ENABLED E).
  - apply keeps_bind.
    + intros w. now rewrite run_modifiers_world.
    + intros [[h t] r]. unfold subscript, print_transformed_info, report_progress,
        subscript_report_platform_id.
      keeps_quiet; apply keeps_upload.
  - unfold subscript. keeps_quiet.
Qed.

(** A completed candidate branch has appended the record, as the modifiers
    left it, to [candidate_hosts] and counted it. *)
Lemma process_candidate_result (report_slice : dict) (total_hosts : Z)
    (yupana_host_id : string) (host : dict) (st st' : slice_state) (w w' : world) :
  process_candidate E report_slice total_hosts yupana_host_id host st w = (Ok st', w') ->
  let host1 := dict_set host "report_slice_id"
                        (dict_get report_slice "report_slice_id" PNone) in
  exists host' transformed_obj request_obj',
    outcome (run_modifiers E host1 (request_obj_of st)) w
    = Ok (host', transformed_obj, request_obj') /\
    candidate_hosts st' = candidate_hosts st ++ [(yupana_host_id, host')] /\
    hosts_without_facts st' = hosts_without_facts st /\
    count st' = count st + 1.
Proof.
  intros H host1. unfold process_candidate in H. fold host1 in H.
  destruct (HOSTS_TRANSFORMATION_ENABLED E).
  2:{ exfalso. revert H. unfold subscript. run_monad.
      destruct (dict_lookup host1 "yupana_host_id"); discriminate. }
  unfold bind at 1 in H. rewrite run_modifiers_pair in H.
  destruct (outcome (run_modifiers E host1 (request_obj_of st)) w)
    as [[[host' transformed_obj] request_obj']|e]; [|discriminate].
  exists host', transformed_obj, request_obj'. split; [reflexivity|].
  match type of H with
  | ?tail w = _ =>
      assert (Hs : spec (fun _ => True)
                     (fun s =>
                        candidate_hosts s = candidate_hosts st ++ [(yupana_host_id, host')] /\
                        hosts_without_facts s = hosts_without_facts st /\
                        count s = count st + 1) tail)
  end.
  { eapply spec_bind; [apply spec_subscript|intros host_id _].
    eapply spec_bind with (Q1 := fun _ => True).
    { unfold print_transformed_info, subscript_report_platform_id. spec_quiet. }
    intros _ _.
    eapply spec_bind with (Q1 := fun _ => True).
    { eapply spec_mono; [apply spec_upload|trivial]. }
    intros _ _.
    eapply spec_bind with (Q1 := fun _ => True).
    { unfold report_progress, subscript_report_platform_id. spec_quiet. }
    intros _ _. apply spec_ret. simpl. repeat split. }
  destruct (Hs w) as [_ Hq]. apply Hq. unfold outcome. now rewrite H.
Qed.

(** X12.  A candidate record that is transformed and published without
    error is counted once, joins [candidate_hosts] as the modifiers left it,
    and exactly one message, its envelope built from the record and the
    context as the modifiers left them, is handed to the producer. *)
Theorem candidate_is_published_once
    (report_slice : dict) (total_hosts : Z) (yupana_host_id : string)
    (host host' : dict) (transformed_obj : transformed) (request_obj' : request)
    (st : slice_state) (w : world) (host_id system_unique_id rpi : pyval) :
  let host1 := dict_set host "report_slice_id"
                        (dict_get report_slice "report_slice_id" PNone) in
  HOSTS_TRANSFORMATION_ENABLED E = true ->
  outcome (run_modifiers E host1 (request_obj_of st)) w
  = Ok (host', transformed_obj, request_obj') ->
  dict_lookup host' "yupana_host_id" = Some host_id ->
  dict_lookup host' "system_unique_id" = Some system_unique_id ->
  report_platform_id request_obj' = Some rpi ->
  HOSTS_UPLOAD_FUTURES_COUNT E <> 0 ->
  (forall w0, healthy (kafka E w0 (upload_msg host' system_unique_id request_obj'))) ->
  exists w',
    process_candidate E report_slice total_hosts yupana_host_id host st w
    = (Ok {| count := count st + 1;
             candidate_hosts := candidate_hosts st ++ [(yupana_host_id, host')];
             hosts_without_facts := hosts_without_facts st;
             request_obj_of := request_obj' |}, w') /\
    sent w' = sent w ++ [upload_msg host' system_unique_id request_obj'] /\
    uuids_drawn w' = uuids_drawn w.
Proof.
  intros host1 Hon Hmod Hhid Hsid Hrpi Hn Hk.
  assert (Hsend : forall w0,
             send_message E (upload_msg host' system_unique_id request_obj')
                          (request_id request_obj') w0
             = (Ok tt, {| sent := sent w0 ++ [upload_msg host' system_unique_id request_obj'];
                          logs := logs w0; uuids_drawn := uuids_drawn w0 |})).
  { intros w0. destruct (Hk w0) as (H1 & H2 & H3 & H4 & H5).
    unfold send_message, send_with, hand_to_producer. run_monad.
    rewrite H1, H2, H3, H4, H5. reflexivity. }
  unfold process_candidate. fold host1. rewrite Hon.
  unfold bind at 1. rewrite run_modifiers_pair, Hmod.
  unfold subscript, print_transformed_info, subscript_report_platform_id,
    upload_to_host_inventory_via_kafka, build_and_send, subscript, report_progress,
    subscript_report_platform_id.
  rewrite Hhid, Hsid, Hrpi.
  apply Z.eqb_neq in Hn. rewrite Hn.
  run_monad.
  destruct (log_sections transformed_obj); cbn; rewrite Hsend; cbn;
    destruct ((count st + 1) mod HOSTS_UPLOAD_FUTURES_COUNT E =? 0); cbn;
    try destruct (count st + 1 =? total_hosts); cbn;
    eexists; repeat split.
Qed.


End CandidateBranch.

(* ------------------------------------------------------------------ *)
(** *** The loop over the hosts, as a whole *)

Lemma chars_no_candidate (s : string) : filter is_candidate (chars s) = [].
Proof.
  unfold chars. induction s as [|c rest IH]; simpl; [reflexivity|].
  destruct (chars_after rest) as [continuation cs]. simpl in IH.
  destruct (is_continuation c); simpl; exact IH.
Qed.

Lemma keys_no_candidate (d : dict) :
  filter is_candidate (map (fun kv : string * pyval => PStr (fst kv)) d) = [].
Proof. induction d as [|kv rest IH]; simpl; [reflexivity|exact IH]. Qed.

Section HostLoopDetails.

Variable E : env.

(** Every record examined draws exactly one identifier, whatever happens to
    it afterwards. *)
Lemma process_host_draws_one (report_slice : dict) (total_hosts : Z) (host : pyval)
    (st : slice_state) (w : world) :
  uuids_drawn (snd (process_host E report_slice total_hosts host st w)) = S (uuids_drawn w).
Proof.
  unfold process_host, fresh_uuid. unfold bind at 1.
  destruct host as [| | | | | |h]; try reflexivity.
  destruct (has_canonical_facts _); [|reflexivity].
  now rewrite keeps_process_candidate.
Qed.

(** A completed [process_host] has classified a dictionary: as a candidate,
    appended to [candidate_hosts] as the modifiers left it and counted, or as
    rejected, appended to [hosts_without_facts]; either way under the
    identifier just drawn. *)
Lemma process_host_result (report_slice : dict) (total_hosts : Z) (host : pyval)
    (st st' : slice_state) (w w' : world) :
  process_host E report_slice total_hosts host st w = (Ok st', w') ->
  exists h0,
    host = PDict h0 /\
    let id := uuid4 E (uuids_drawn w) in
    let h1 := dict_set h0 "yupana_host_id" (PStr id) in
    if has_canonical_facts h0 then
      exists host' transformed_obj request_obj' w1,
        outcome (run_modifiers E
                   (dict_set h1 "report_slice_id"
                             (dict_get report_slice "report_slice_id" PNone))
                   (request_obj_of st)) w1
        = Ok (host', transformed_obj, request_obj') /\
        candidate_hosts st' = candidate_hosts st ++ [(id, host')] /\
        hosts_without_facts st' = hosts_without_facts st /\
        count st' = count st + 1
    else
      candidate_hosts st' = candidate_hosts st /\
      hosts_without_facts st' = hosts_without_facts st ++ [(id, h1)] /\
      count st' = count st.
Proof.
  unfold process_host, fresh_uuid. unfold bind at 1.
  destruct host as [| | | | | |h0]; try discriminate.
  intros H. exists h0. split; [reflexivity|]. cbv zeta.
  rewrite yupana_host_id_is_no_fact in H.
  destruct (has_canonical_facts h0).
  - apply process_candidate_result in H. cbv zeta in H.
    destruct H as (host' & t & r & H). exists host', t, r. eexists. exact H.
  - injection H as <- _. simpl. auto.
Qed.

(** The accounts of a completed loop over the hosts of a slice. *)
Lemma host_loop_partitions
    (report_slice : dict) (total_hosts : Z) (items : list pyval)
    (st st' : slice_state) (w w' : world) :
  for_each (process_host E report_slice total_hosts) items st w = (Ok st', w') ->
  let candidates := filter is_candidate items in
  Forall (fun host => exists h, host = PDict h) items /\
  List.length (candidate_hosts st')
  = (List.length (candidate_hosts st) + List.length candidates)%nat /\
  List.length (hosts_without_facts st')
  = (List.length (hosts_without_facts st) + (List.length items - List.length candidates))%nat /\
  count st' = count st + Z.of_nat (List.length candidates) /\
  uuids_drawn w' = (uuids_drawn w + List.length items)%nat.
Proof.
  revert st w. induction items as [|host rest IH]; intros st w H; cbv zeta.
  - injection H as <- <-. cbn [filter List.length]. repeat split; try lia. constructor.
  - cbn [for_each] in H. unfold bind in H.
    destruct (process_host E report_slice total_hosts host st w) as [[st1|e] w1] eqn:Hh;
      [|discriminate].
    pose proof (process_host_draws_one report_slice total_hosts host st w) as Hu.
    rewrite Hh in Hu. cbn [snd] in Hu.
    pose proof Hh as Hshape. apply process_host_result in Hshape.
    destruct Hshape as (h0 & -> & Hshape). cbv zeta in Hshape.
    apply IH in H. cbv zeta in H. destruct H as (Hall & Hc & Hr & Hn & Hd).
    pose proof (filter_length_le is_candidate rest) as Hle.
    cbn [filter is_candidate].
    destruct (has_canonical_facts h0);
      [destruct Hshape as (host' & t & r & wm & _ & Hc1 & Hr1 & Hn1)
      |destruct Hshape as (Hc1 & Hr1 & Hn1)].
    + rewrite Hc1, length_app in Hc. rewrite Hr1 in Hr. cbn [List.length] in *.
      repeat split; try lia. constructor; [now exists h0|exact Hall].
    + rewrite Hc1 in Hc. rewrite Hr1, length_app in Hr. cbn [List.length] in *.
      repeat split; try lia. constructor; [now exists h0|exact Hall].
Qed.

(** X14.  When the loop over the hosts of a slice completes, every item was
    a dictionary, the candidates and the rejected records partition them,
    [count] has grown by the number of candidates, and one identifier was
    drawn per record. *)
Theorem completed_host_loop_partitions
    (report_slice : dict) (total_hosts : Z) (items : list pyval)
    (st st' : slice_state) (w w' : world) :
  for_each (process_host E report_slice total_hosts) items st w = (Ok st', w') ->
  let candidates := filter is_candidate items in
  Forall (fun host => exists h, host = PDict h) items /\
  List.length (candidate_hosts st')
  = (List.length (candidate_hosts st) + List.length candidates)%nat /\
  List.length (hosts_without_facts st')
  = (List.length (hosts_without_facts st) + (List.length items - List.length candidates))%nat /\
  count st' = count st + Z.of_nat (List.length candidates) /\
  uuids_drawn w' = (uuids_drawn w + List.length items)%nat.
Proof.
  intros Hloop. apply host_loop_partitions in Hloop. exact Hloop.
Qed.

(** A completed slice held at least one candidate record. *)
Lemma completed_slice_has_candidate (report_slice : pyval) (request_obj request_obj' : request)
    (w w' : world) :
  process_slice E report_slice request_obj w = (Ok request_obj', w') ->
  (1 <= candidates_of_slice report_slice)%nat.
Proof.
  unfold process_slice.
  destruct report_slice as [| | | | | |d]; try discriminate.
  destruct (py_len (dict_get d "hosts" (PList []))) as [total|] eqn:Hlen; [|discriminate].
  destruct (py_iter (dict_get d "hosts" (PList []))) as [items|] eqn:Hiter; [|discriminate].
  run_monad.
  destruct (for_each _ items _ w) as [[st|e] w1] eqn:Hloop; [|discriminate].
  pose proof Hloop as Hc. apply host_loop_partitions in Hc.
  destruct Hc as (_ & Hc & _).
  simpl in Hc.
  assert (Hitems : List.length (filter is_candidate items) = candidates_of_slice (PDict d)).
  { unfold candidates_of_slice.
    destruct (dict_get d "hosts" (PList [])) as [| | | |s|l|d'] eqn:Hh; try discriminate;
      injection Hiter as <-.
    - now rewrite chars_no_candidate.
    - reflexivity.
    - now rewrite keys_no_candidate. }
  rewrite <- Hitems, <- Hc.
  destruct (candidate_hosts st) as [|c rest].
  - destruct (hosts_without_facts st); discriminate.
  - simpl. lia.
Qed.

(** X15.  If the loop over the accepted slices completes, every accepted
    slice held at least one candidate record; so a report with a slice
    without candidates never completes. *)
Theorem completed_run_has_candidates_in_every_slice
    (report_json_files : list pyval) (request_obj request_obj' : request) (w w' : world) :
  process_slices E report_json_files request_obj w = (Ok request_obj', w') ->
  Forall (fun report_slice => (1 <= candidates_of_slice report_slice)%nat) report_json_files /\
  (List.length report_json_files <= total_candidates report_json_files)%nat.
Proof.
  unfold process_slices, total_candidates.
  revert request_obj w.
  induction report_json_files as [|report_slice rest IH]; intros request_obj w; simpl.
  - intros _. split; [constructor|lia].
  - unfold bind.
    destruct (process_slice E report_slice request_obj w) as [[ro1|e] w1] eqn:Hs;
      [|discriminate].
    intros Hrest. apply IH in Hrest. destruct Hrest as [Hall Hlen].
    pose proof Hs as H1. apply completed_slice_has_candidate in H1.
    split; [constructor; assumption|lia].
Qed.

(** X16.  A slice all of whose records lack identity facts raises
    [QPCReportException] after one identifier per record was drawn and nothing
    was published, whatever slices came before; a slice without [hosts] key
    does so at once. *)
Theorem slice_without_candidates_is_fatal (d : dict) (request_obj : request) (w : world) :
  (forall hosts,
      dict_get d "hosts" (PList []) = PList hosts ->
      (forall h, In h hosts -> exists hd, h = PDict hd /\ has_canonical_facts hd = false) ->
      exists w',
        process_slice E (PDict d) request_obj w = (Raise (Exc QPCReportException []), w') /\
        sent w' = sent w /\
        uuids_drawn w' = (uuids_drawn w + List.length hosts)%nat)
  /\
  (dict_lookup d "hosts" = None ->
   process_slice E (PDict d) request_obj w
   = (Raise (Exc QPCReportException []), add_logs w [InfoValidHosts 0 0; ErrorNoValidHosts])).
Proof.
  split.
  - intros hosts Hhosts Hall. unfold process_slice. rewrite Hhosts. unfold py_len, py_iter.
    run_monad.
    destruct (for_hosts_all_rejected E d (Z.of_nat (List.length hosts)) hosts
                {| count := 0; candidate_hosts := []; hosts_without_facts := [];
                   request_obj_of := request_obj |} w Hall) as (st' & w' & Hl & Hc & Hs).
    pose proof Hl as Hu. apply host_loop_partitions in Hu.
    destruct Hu as (_ & _ & _ & _ & Hu).
    rewrite Hl. simpl in Hc. rewrite Hc.
    destruct (hosts_without_facts st'); eexists; (split; [reflexivity|split; assumption]).
  - intros Hnone. unfold process_slice, dict_get. rewrite Hnone. unfold add_logs.
    run_monad. cbn. rewrite <- app_assoc. reflexivity.
Qed.

(** X17.  The first record whose processing raises ends the slice with that
    exception, and the first slice that raises ends the run: the records and
    the slices after it are not examined. *)
Theorem first_failure_stops_the_run :
  (forall (d : dict) (before after : list pyval) (host : pyval) (request_obj : request)
          (st1 : slice_state) (w w1 w2 : world) (e : exc),
      dict_get d "hosts" (PList []) = PList (before ++ host :: after) ->
      let total_hosts := Z.of_nat (List.length (before ++ host :: after)) in
      for_each (process_host E d total_hosts) before
               {| count := 0; candidate_hosts := []; hosts_without_facts := [];
                  request_obj_of := request_obj |} w = (Ok st1, w1) ->
      process_host E d total_hosts host st1 w1 = (Raise e, w2) ->
      process_slice E (PDict d) request_obj w = (Raise e, w2))
  /\
  (forall (before after : list pyval) (report_slice : pyval)
          (request_obj request_obj1 : request) (w w1 w2 : world) (e : exc),
      process_slices E before request_obj w = (Ok request_obj1, w1) ->
      process_slice E report_slice request_obj1 w1 = (Raise e, w2) ->
      process_slices E (before ++ report_slice :: after) request_obj w = (Raise e, w2)).
Proof.
  split.
  - intros d before after host request_obj st1 w w1 w2 e Hhosts total_hosts Hb Hx.
    unfold process_slice. rewrite Hhosts. unfold py_len, py_iter. fold total_hosts.
    unfold bind at 1.
    now rewrite (@for_each_abort _ _ _ before after host _ _ _ _ _ _ Hb Hx).
  - intros before after report_slice request_obj request_obj1 w w1 w2 e Hb Hx.
    unfold process_slices in *.
    exact (@for_each_abort _ _ _ before after report_slice _ _ _ _ _ _ Hb Hx).
Qed.

End HostLoopDetails.

(* ------------------------------------------------------------------ *)
(** *** Correlation identifiers *)

Section CorrelationIds.

Variable E : env.

Hypothesis uuid4_never_repeats : forall i j, uuid4 E i = uuid4 E j -> i = j.

(** Modifiers that leave [yupana_host_id] alone hand the record back with the
    identifier it came with. *)
Lemma run_modifiers_keeps_correlation_id (host host' : dict) (request_obj request_obj' : request)
    (transformed_obj : transformed) (w : world) :
  (forall run, In run (get_modifiers E) -> keeps_correlation_id run) ->
  outcome (run_modifiers E host request_obj) w = Ok (host', transformed_obj, request_obj') ->
  dict_lookup host' "yupana_host_id" = dict_lookup host "yupana_host_id".
Proof.
  intros Hkeep Hrun.
  assert (Hs : spec (fun _ => True)
                 (fun s : dict * transformed * request =>
                    dict_lookup (fst (fst s)) "yupana_host_id"
                    = dict_lookup host "yupana_host_id")
                 (run_modifiers E host request_obj)).
  { unfold run_modifiers. apply spec_for_each; [|reflexivity].
    intros run [[h t] r] Hin Hh. simpl in Hh. apply spec_lift.
    intros [[h' t'] r'] Hr. simpl. rewrite <- Hh. exact (Hkeep run Hin _ _ _ _ _ _ Hr). }
  destruct (Hs w) as [_ Hq]. exact (Hq _ Hrun).
Qed.

Lemma process_host_keeps_ids_invariant (report_slice : dict) (total_hosts : Z)
    (host : pyval) (st st' : slice_state) (w w' : world) :
  ids_invariant E w st ->
  process_host E report_slice total_hosts host st w = (Ok st', w') ->
  ids_invariant E w' st'.
Proof.
  intros (Hnd & Hold & Hcarry & Hcand) Hh.
  pose proof (process_host_draws_one E report_slice total_hosts host st w) as Hu.
  rewrite Hh in Hu. cbn [snd] in Hu.
  apply process_host_result in Hh. destruct Hh as (h0 & -> & Hshape). cbv zeta in Hshape.
  set (id := uuid4 E (uuids_drawn w)) in *.
  assert (Hfresh : ~ In id (ids_of st)).
  { intros Hin. destruct (Hold id Hin) as (i & Hlt & Hi).
    apply uuid4_never_repeats in Hi. lia. }
  assert (Hadd : Add id (ids_of st) (ids_of st')).
  { unfold ids_of. destruct (has_canonical_facts h0);
      [destruct Hshape as (host' & t & r & wm & _ & Hc & Hr & _)
      |destruct Hshape as (Hc & Hr & _)]; rewrite Hc, Hr.
    - rewrite map_app, <- app_assoc. cbn [map fst app]. apply Add_app.
    - rewrite map_app, app_assoc. cbn [map fst].
      rewrite <- (app_nil_r (map fst (candidate_hosts st) ++ map fst (hosts_without_facts st)))
        at 1.
      apply Add_app. }
  split; [|split; [|split]].
  - apply (NoDup_Add Hadd). now split.
  - intros id' Hin. apply (Add_in Hadd) in Hin. destruct Hin as [<-|Hin].
    + exists (uuids_drawn w). split; [lia|reflexivity].
    + destruct (Hold id' Hin) as (i & Hlt & Hi). exists i. split; [lia|exact Hi].
  - destruct (has_canonical_facts h0);
      [destruct Hshape as (host' & t & r & wm & _ & Hc & Hr & _)
      |destruct Hshape as (Hc & Hr & _)]; rewrite Hr; [exact Hcarry|].
    apply Forall_app. split; [exact Hcarry|].
    constructor; [|constructor]. cbn [fst snd]. apply dict_lookup_set_same.
  - intros Hkeep. specialize (Hcand Hkeep).
    destruct (has_canonical_facts h0);
      [destruct Hshape as (host' & t & r & wm & Hrun & Hc & Hr & _)
      |destruct Hshape as (Hc & Hr & _)]; rewrite Hc; [|exact Hcand].
    apply Forall_app. split; [exact Hcand|].
    constructor; [|constructor]. cbn [fst snd].
    rewrite (run_modifiers_keeps_correlation_id _ _ _ Hkeep Hrun).
    rewrite dict_lookup_set_other by discriminate. apply dict_lookup_set_same.
Qed.

(** X18.  As long as [uuid4] never returns the same value twice, the records
    of a completed slice loop have pairwise distinct correlation identifiers,
    one per record.  Every rejected record carries its own under
    [yupana_host_id]; so does every candidate record when the modifiers, which
    mutate the record, leave that field alone. *)
Theorem correlation_ids_are_distinct
    (report_slice : dict) (total_hosts : Z) (items : list pyval)
    (request_obj : request) (st' : slice_state) (w w' : world) :
  for_each (process_host E report_slice total_hosts) items
           {| count := 0; candidate_hosts := []; hosts_without_facts := [];
              request_obj_of := request_obj |} w = (Ok st', w') ->
  NoDup (ids_of st') /\
  List.length (ids_of st') = List.length items /\
  Forall (fun p : string * dict => dict_lookup (snd p) "yupana_host_id" = Some (PStr (fst p)))
         (hosts_without_facts st') /\
  ((forall run, In run (get_modifiers E) -> keeps_correlation_id run) ->
   Forall (fun p : string * dict => dict_lookup (snd p) "yupana_host_id" = Some (PStr (fst p)))
          (candidate_hosts st')).
Proof.
  intros Hloop.
  assert (Hinv : ids_invariant E w' st').
  { assert (H0 : ids_invariant E w {| count := 0; candidate_hosts := [];
                                      hosts_without_facts := [];
                                      request_obj_of := request_obj |}).
    { split; [constructor|split; [intros id []|split; [constructor|intros _; constructor]]]. }
    revert H0 Hloop. generalize {| count := 0; candidate_hosts := [];
                                   hosts_without_facts := [];
                                   request_obj_of := request_obj |} as st.
    revert w. induction items as [|host rest IH]; intros w st H0 Hloop.
    - injection Hloop as <- <-. exact H0.
    - cbn [for_each] in Hloop. unfold bind in Hloop.
      destruct (process_host E report_slice total_hosts host st w) as [[st1|e] w1] eqn:Hh;
        [|discriminate].
      apply (IH w1 st1); [eapply process_host_keeps_ids_invariant; eassumption|exact Hloop]. }
  destruct Hinv as (Hnd & _ & Hcarry & Hcand).
  split; [exact Hnd|split; [|split; [exact Hcarry|exact Hcand]]].
  apply host_loop_partitions in Hloop. cbv zeta in Hloop.
  destruct Hloop as (_ & Hc & Hr & _).
  pose proof (filter_length_le is_candidate items) as Hle.
  cbn [candidate_hosts hosts_without_facts List.length] in Hc, Hr.
  unfold ids_of. rewrite length_app, !length_map, Hc, Hr. lia.
Qed.

End CorrelationIds.

(* ================================================================== *)
(** ** The further properties at concrete inputs *)

Lemma tally_never_repeats (i j : nat) : tally i = tally j -> i = j.
Proof.
  revert j. induction i as [|i IH]; intros [|j]; simpl; try discriminate; [reflexivity|].
  intros [= H]. f_equal. now apply IH.
Qed.

Lemma download_without_url_witness :
  process_report sample_env [("account", PStr "acct"); ("url", PStr "")] Sample.w0
  = (Raise (Exc FailDownloadException
              [ArgVal (PStr "%s - Kafka message has no report url.  Message: %s");
               ArgVal (PStr "REPORT DOWNLOAD");
               ArgVal (PDict [("account", PStr "acct"); ("url", PStr "")])]), Sample.w0).
Proof.
  exact (proj2 (@download_without_url sample_env
                  [("account", PStr "acct"); ("url", PStr "")] Sample.w0 eq_refl)).
Defined.

Lemma download_report_outcomes_witness :
  download_report sample_env Sample.consumed_message Sample.w0
  = (Ok [], add_logs Sample.w0 [InfoDownloading (PStr "http://storage/report.tar.gz");
                                InfoDownloaded (PStr "http://storage/report.tar.gz")])
  /\
  exists e,
    outcome (download_report
               (with_fetch (fun _ => Raise (Exc (OtherError "ConnectionError") []))
                           sample_env)
               Sample.consumed_message) Sample.w0 = Raise e /\
    class_of e = FailDownloadException.
Proof.
  split.
  - destruct (download_report_outcomes sample_env Sample.consumed_message Sample.w0)
      as (Hok & _ & _).
    apply (proj2 (Hok [] _)). repeat split.
  - destruct (download_report_outcomes
                (with_fetch (fun _ => Raise (Exc (OtherError "ConnectionError") []))
                            sample_env)
                Sample.consumed_message Sample.w0) as (_ & Hwrap & Honly).
    specialize (Hwrap (Exc (OtherError "ConnectionError") []) eq_refl eq_refl eq_refl).
    eexists. split.
    + unfold outcome. rewrite Hwrap. reflexivity.
    + exact (proj1 (Honly _ _ Hwrap)).
Defined.

Lemma extraction_raises_only_FailExtractException_witness :
  let E := Sample.make_env true (Ok [Sample.metadata_json]) [] Sample.calls_ok in
  exists e,
    fst (extract_report_slices E [] Sample.request_obj Sample.w0) = Raise e /\
    class_of e = FailExtractException.
Proof.
  cbv zeta.
  destruct (extract_report_slices
              (Sample.make_env true (Ok [Sample.metadata_json]) [] Sample.calls_ok)
              [] Sample.request_obj Sample.w0) as [[x|e] w'] eqn:Hx;
    [vm_compute in Hx; discriminate|].
  exists e. split; [reflexivity|].
  exact (proj1 (@extraction_raises_only_FailExtractException _ [] Sample.request_obj Sample.w0)
               e w' Hx).
Defined.

Lemma unreadable_container_is_fatal_witness :
  let E := Sample.make_env true (Raise (Exc ReadError [])) [] Sample.calls_ok in
  extract_report_slices E [] Sample.request_obj Sample.w0
  = (Raise (unexpected_tar_error Sample.request_obj (Exc ReadError [])), Sample.w0).
Proof.
  intros E.
  exact (proj1 (@unreadable_container_is_fatal E [] Sample.request_obj Sample.w0
                  (Exc ReadError []) eq_refl eq_refl)).
Defined.

Lemma manifest_errors_are_fatal_witness :
  let E := with_validator (fun _ _ _ => Raise (Exc JSONDecodeError [])) sample_env in
  extract_report_slices E [] Sample.request_obj Sample.w0
  = (Raise (not_valid_json Sample.request_obj (Exc JSONDecodeError [])), Sample.w0).
Proof.
  intros E.
  refine (proj1 (@manifest_errors_are_fatal E [] Sample.two_slices
                   (filter is_data_entry Sample.two_slices) Sample.metadata_json
                   Sample.request_obj Sample.w0 (Exc JSONDecodeError [])
                   eq_refl eq_refl _ eq_refl) eq_refl).
  discriminate.
Defined.

Lemma accepted_slices_agree_with_manifest_witness :
  exists accepted request_obj',
    fst (extract_report_slices sample_env [] Sample.request_obj Sample.w0)
    = Ok (Some (accepted, request_obj')) /\
    Forall (matches_manifest [("s1", 1); ("s2", 1)]) accepted.
Proof.
  destruct (extract_report_slices sample_env [] Sample.request_obj Sample.w0)
    as [[[[accepted request_obj']|]|e] w'] eqn:Hx; try (vm_compute in Hx; discriminate).
  exists accepted, request_obj'. split; [reflexivity|].
  exact (proj1 (@accepted_slices_agree_with_manifest sample_env [] Sample.two_slices
                  (filter is_data_entry Sample.two_slices) Sample.metadata_json
                  [("s1", 1); ("s2", 1)] (Some (PStr "r-1"))
                  Sample.request_obj request_obj' accepted Sample.w0 w'
                  eq_refl eq_refl eq_refl Hx)).
Defined.

Lemma extraction_returns_accepted_slices_witness :
  outcome (extract_report_slices sample_env [] Sample.request_obj) Sample.w0
  = Ok (Some (accepted_slices sample_env [("s1", 1); ("s2", 1)]
                              (filter is_data_entry Sample.two_slices),
              with_report_platform_id Sample.request_obj (Some (PStr "r-1")))).
Proof.
  refine (@extraction_returns_accepted_slices sample_env [] Sample.two_slices
            (filter is_data_entry Sample.two_slices) Sample.metadata_json
            [("s1", 1); ("s2", 1)] (Some (PStr "r-1")) Sample.request_obj Sample.w0
            eq_refl eq_refl _ eq_refl _).
  - discriminate.
  - intros id n file _ [<-|[<-|[]]] _; right.
    + exists [("report_slice_id", PStr "s1"); ("hosts", PList [PDict Sample.host_x])], 1%nat.
      reflexivity.
    + exists [("report_slice_id", PStr "s2"); ("hosts", PList [PDict []])], 1%nat.
      reflexivity.
Defined.

Lemma print_transformed_info_outcomes_witness :
  print_transformed_info Sample.request_obj (PStr "id-0")
                         (Some [("removed", ["cpu_flags"]); ("modified", [])]) Sample.w0
  = (Ok tt, add_logs Sample.w0 [InfoTransformed (PStr "id-0")]).
Proof.
  destruct (print_transformed_info_outcomes Sample.request_obj (PStr "id-0") Sample.w0)
    as (_ & _ & Hlog).
  refine (Hlog [("removed", ["cpu_flags"]); ("modified", [])] "removed" ["cpu_flags"] _ _).
  - left. reflexivity.
  - discriminate.
Defined.

Lemma upload_error_needs_account_and_report_id_witness :
  upload_to_host_inventory_via_kafka sample_env [("bios_uuid", PStr "X")]
                                     Sample.request_obj Sample.w0
  = (Raise (Exc KeyError [ArgVal (PStr "account")]),
     add_logs Sample.w0 [ErrorUpload (Exc KeyError [ArgVal (PStr "system_unique_id")])]).
Proof.
  exact (proj1 (@upload_error_needs_account_and_report_id sample_env
                  [("bios_uuid", PStr "X")] Sample.request_obj Sample.w0 Sample.w0
                  (Exc KeyError [ArgVal (PStr "system_unique_id")]) eq_refl) eq_refl).
Defined.

Lemma candidate_is_published_once_witness :
  let host := dict_set Sample.host_x "yupana_host_id" (PStr "id-0") in
  let host1 := dict_set host "report_slice_id" (PStr "s1") in
  exists w',
    process_candidate sample_env [("report_slice_id", PStr "s1")] 1 "id-0" host
                      (fresh_slice_state Sample.request_obj) Sample.w0
    = (Ok {| count := 0 + 1;
             candidate_hosts := [] ++ [("id-0", host1)];
             hosts_without_facts := [];
             request_obj_of := Sample.request_obj |}, w') /\
    sent w' = sent Sample.w0 ++ [upload_msg host1 (PStr "u-1") Sample.request_obj] /\
    uuids_drawn w' = uuids_drawn Sample.w0.
Proof.
  intros host host1.
  refine (@candidate_is_published_once sample_env [("report_slice_id", PStr "s1")] 1 "id-0"
            host host1 new_transformed_obj Sample.request_obj
            (fresh_slice_state Sample.request_obj) Sample.w0
            (PStr "id-0") (PStr "u-1") (PStr "r-1")
            eq_refl eq_refl eq_refl eq_refl eq_refl _ _).
  - discriminate.
  - intros w0. repeat split.
Defined.


Lemma completed_host_loop_partitions_witness :
  let run := for_each (process_host sample_env [] 2) [PDict Sample.host_x; PDict []]
                      (fresh_slice_state Sample.request_obj) Sample.w0 in
  uuids_drawn (snd run) = 2%nat /\
  exists st', fst run = Ok st' /\ List.length (candidate_hosts st') = 1%nat.
Proof.
  cbv zeta.
  destruct (for_each (process_host sample_env [] 2) [PDict Sample.host_x; PDict []]
                     (fresh_slice_state Sample.request_obj) Sample.w0)
    as [[st'|e] w'] eqn:Hrun; [|vm_compute in Hrun; discriminate].
  apply completed_host_loop_partitions in Hrun. cbv zeta in Hrun.
  destruct Hrun as (_ & Hc & _ & _ & Hu). split; [exact Hu|].
  exists st'. split; [reflexivity|exact Hc].
Defined.

Lemma completed_run_has_candidates_in_every_slice_witness :
  let slices := [Sample.slice_doc "s1" [PDict Sample.host_x]] in
  (exists request_obj',
      outcome (process_slices sample_env slices Sample.request_obj) Sample.w0
      = Ok request_obj') /\
  (1 <= total_candidates slices)%nat.
Proof.
  cbv zeta.
  destruct (process_slices sample_env [Sample.slice_doc "s1" [PDict Sample.host_x]]
                           Sample.request_obj Sample.w0)
    as [[ro|e] w'] eqn:Hrun; [|vm_compute in Hrun; discriminate].
  split.
  - exists ro. unfold outcome. now rewrite Hrun.
  - apply completed_run_has_candidates_in_every_slice in Hrun. exact (proj2 Hrun).
Defined.

Lemma slice_without_candidates_is_fatal_witness :
  exists w',
    process_slice sample_env (Sample.slice_doc "s2" [PDict [("display_name", PStr "h")]])
                  Sample.request_obj Sample.w0
    = (Raise (Exc QPCReportException []), w') /\
    sent w' = sent Sample.w0 /\
    uuids_drawn w' = (uuids_drawn Sample.w0 + 1)%nat.
Proof.
  destruct (@slice_without_candidates_is_fatal sample_env
              [("report_slice_id", PStr "s2");
               ("hosts", PList [PDict [("display_name", PStr "h")]])]
              Sample.request_obj Sample.w0) as [Hrej _].
  refine (Hrej [PDict [("display_name", PStr "h")]] eq_refl _).
  intros h [<-|[]]. exists [("display_name", PStr "h")]. split; reflexivity.
Defined.

Lemma first_failure_stops_the_run_witness :
  let empty := Sample.slice_doc "s2" [PDict []] in
  let full := Sample.slice_doc "s1" [PDict Sample.host_x] in
  outcome (process_slices sample_env ([] ++ empty :: [full]) Sample.request_obj) Sample.w0
  = Raise (Exc QPCReportException []).
Proof.
  cbv zeta.
  destruct (process_slice sample_env (Sample.slice_doc "s2" [PDict []])
                          Sample.request_obj Sample.w0) as [[ro|e] w2] eqn:Hs;
    [vm_compute in Hs; discriminate|].
  destruct (first_failure_stops_the_run sample_env) as [_ Hslices].
  unfold outcome.
  rewrite (Hslices [] [Sample.slice_doc "s1" [PDict Sample.host_x]]
                   (Sample.slice_doc "s2" [PDict []])
                   Sample.request_obj Sample.request_obj Sample.w0 Sample.w0 w2 e
                   eq_refl Hs).
  vm_compute in Hs. injection Hs as <- _. reflexivity.
Defined.

Lemma correlation_ids_are_distinct_witness :
  let E := with_uuid4 tally sample_env in
  exists st',
    fst (for_each (process_host E [] 2) [PDict Sample.host_x; PDict []]
                  (fresh_slice_state Sample.request_obj) Sample.w0) = Ok st' /\
    NoDup (ids_of st') /\ List.length (ids_of st') = 2%nat /\
    Forall (fun p : string * dict => dict_lookup (snd p) "yupana_host_id" = Some (PStr (fst p)))
           (hosts_without_facts st') /\
    Forall (fun p : string * dict => dict_lookup (snd p) "yupana_host_id" = Some (PStr (fst p)))
           (candidate_hosts st').
Proof.
  cbv zeta.
  destruct (for_each (process_host (with_uuid4 tally sample_env) [] 2)
                     [PDict Sample.host_x; PDict []]
                     (fresh_slice_state Sample.request_obj) Sample.w0)
    as [[st'|e] w'] eqn:Hrun; [|vm_compute in Hrun; discriminate].
  exists st'. split; [reflexivity|].
  destruct (@correlation_ids_are_distinct (with_uuid4 tally sample_env) tally_never_repeats
              [] 2 [PDict Sample.host_x; PDict []] Sample.request_obj st' Sample.w0 w' Hrun)
    as (Hnd & Hlen & Hrejected & Hcandidates).
  repeat split; try assumption.
  apply Hcandidates. intros run [].
Defined.
